(** * arsenic / freeenergyframework: the plotting layer and its statistic estimator

    A shallow embedding of [freeenergyframework/plotting.py] and
    [freeenergyframework/plotlying.py].

    - Python floats and numpy float64 values are IEEE 754 binary64 numbers:
      they are Rocq's primitive [float], whose operations are the same
      correctly rounded ones.  One-dimensional numpy arrays and Python lists
      of numbers are [list float].
    - The functions of the source are stateful: they drive a chart renderer
      (pyplot's current figure, a plotly figure), consume the random stream
      of the estimator, and may raise.  They are written in a small monad
      [M] that threads a world, collects the calls made to the external
      collaborators in a trace and stops at the first exception.
    - [stats.bootstrap_statistic] is called by the plotting code but is not
      among the sources.  The plotting functions take it as a parameter; the
      module [stats] below models it from the specification. *)

From Stdlib Require Import ZArith QArith Qcanon Floats String Ascii DecimalString List Lia Bool.
From stdpp Require Import base gmap strings list.

Set Warnings "-inexact-float".
Set Default Proof Using "Type".

(** ** Exceptions and outcomes *)

(** The exceptions the modelled code can raise: Python's own ([ValueError]
    from [min] of an empty sequence or from numpy broadcasting, [KeyError]
    from a missing dictionary key, [IndexError], [ZeroDivisionError]) and the
    three errors of the estimator's taxonomy. *)
Inductive exn : Type :=
| ValueError (msg : string)
| KeyError (key : string)
| IndexError (msg : string)
| ZeroDivisionError
| ShapeMismatch
| UnknownMetric (name : string)
| UndefinedStatistic.

Inductive outcome (A : Type) : Type :=
| Return (a : A)
| Raise (e : exn).
Arguments Return {A} a.
Arguments Raise {A} e.

Definition obind {A B : Type} (o : outcome A) (k : A -> outcome B) : outcome B :=
  match o with
  | Return a => k a
  | Raise e => Raise e
  end.

Declare Scope outcome_scope.
Delimit Scope outcome_scope with outcome.
Notation "x <~ c ;; k" := (obind c (fun x => k))
  (at level 100, c at next level, right associativity) : outcome_scope.

(** A list comprehension whose element expression can raise: the elements
    are evaluated from left to right and the first exception ends it. *)
Fixpoint omap {A B : Type} (f : A -> outcome B) (l : list A) : outcome (list B) :=
  match l with
  | [] => Return []
  | a :: l' => (b <~ f a ;; bs <~ omap f l' ;; Return (b :: bs))%outcome
  end.

(** A [for] loop over [l] whose body updates the local variables [s]. *)
Fixpoint ofor {A S : Type} (l : list A) (body : A -> S -> outcome S) (s : S) : outcome S :=
  match l with
  | [] => Return s
  | a :: l' => (s' <~ body a s ;; ofor l' body s')%outcome
  end.

(** ** Numbers *)

(** The arithmetic of [np.mean] and of the centralising of [plot_DGs].  The
    code runs it on binary64 floats ([float_scalar]); the same functions can
    be read over the exact rationals ([Qc_scalar]) to tell what they compute
    when nothing is rounded. *)
Class Scalar (F : Type) : Type := {
  s_zero : F;
  s_add : F -> F -> F;
  s_sub : F -> F -> F;
  s_div : F -> F -> F;
  s_of_nat : nat -> F
}.

Definition float_of_nat (n : nat) : float :=
  SF2Prim (binary_normalize prec emax (Z.of_nat n) 0 false).

#[export] Instance float_scalar : Scalar float := {
  s_zero := 0%float;
  s_add := PrimFloat.add;
  s_sub := PrimFloat.sub;
  s_div := PrimFloat.div;
  s_of_nat := float_of_nat
}.

#[export] Instance Qc_scalar : Scalar Qc := {
  s_zero := Q2Qc 0;
  s_add := Qcplus;
  s_sub := Qcminus;
  s_div := Qcdiv;
  s_of_nat := fun n => Q2Qc (inject_Z (Z.of_nat n))
}.

(** ** Python built-ins *)

Open Scope Z_scope.

(** [min(seq)] and [max(seq)] on a sequence of floats: the first element,
    replaced by each later one that compares below (above) the current
    result; [ValueError] on an empty sequence.  [min(a, b)] is the same on
    two arguments. *)
Definition py_min2 (a b : float) : float := if (b <? a)%float then b else a.
Definition py_max2 (a b : float) : float := if (a <? b)%float then b else a.

Definition py_min (l : list float) : outcome float :=
  match l with
  | [] => Raise (ValueError "min() arg is an empty sequence")
  | a :: l' => Return (fold_left py_min2 l' a)
  end.

Definition py_max (l : list float) : outcome float :=
  match l with
  | [] => Raise (ValueError "max() arg is an empty sequence")
  | a :: l' => Return (fold_left py_max2 l' a)
  end.

(** [s.find(sub)]: the lowest index at which [sub] occurs in [s], or [-1]. *)
Fixpoint find_from (sub s : string) (i : Z) : Z :=
  if String.prefix sub s then i
  else match s with
       | EmptyString => -1
       | String _ s' => find_from sub s' (i + 1)
       end.

Definition str_find (s sub : string) : Z := find_from sub s 0.

(** [sep.join(l)]. *)
Fixpoint str_join (sep : string) (l : list string) : string :=
  match l with
  | [] => ""
  | [s] => s
  | s :: l' => s +:+ sep +:+ str_join sep l'
  end.

Definition spaces (n : nat) : string := string_of_list_ascii (repeat " "%char n).

(** Padding to a minimum field width: strings are left-aligned ([{:5s}]),
    numbers right-aligned ([{:5.2f}]); a longer text is left as it is. *)
Definition ljust (width : nat) (s : string) : string :=
  s +:+ spaces (width - String.length s).
Definition rjust (width : nat) (s : string) : string :=
  spaces (width - String.length s) +:+ s.

Definition str_of_N (n : N) : string := NilZero.string_of_uint (N.to_uint n).
Definition str_of_nat (n : nat) : string := str_of_N (N.of_nat n).

(** The nearest integer to [n * 2^e], ties to the even one. *)
Definition round_half_even (n e : Z) : Z :=
  if 0 <=? e then n * 2 ^ e
  else
    let d := 2 ^ (- e) in
    let q := n / d in
    let r := n mod d in
    if 2 * r <? d then q
    else if d <? 2 * r then q + 1
    else if Z.even q then q else q + 1.

(** The digits of [n / 10^p] with [p] decimals. *)
Definition fixed_digits (p : nat) (n : Z) : string :=
  let pw := 10 ^ Z.of_nat p in
  let int_part := str_of_N (Z.to_N (n / pw)) in
  match p with
  | O => int_part
  | _ =>
    let frac := str_of_N (Z.to_N (n mod pw)) in
    int_part +:+ "." +:+
      string_of_list_ascii (repeat "0"%char (p - String.length frac)) +:+ frac
  end.

(** The format specification [.pf] (as in [f"{v:.2f}"]): the exact value of
    the float rounded to [p] decimals, ties to even. *)
Definition format_f (p : nat) (v : float) : string :=
  let sign (s : bool) : string := if s then "-" else "" in
  match Prim2SF v with
  | S754_nan => "nan"
  | S754_infinity s => sign s +:+ "inf"
  | S754_zero s => sign s +:+ fixed_digits p 0
  | S754_finite s m e =>
    sign s +:+ fixed_digits p (round_half_even (Z.pos m * 10 ^ Z.of_nat p) e)
  end.

(** The format specification [w.pf]. *)
Definition format_wf (w p : nat) (v : float) : string := rjust w (format_f p v).

(** The newline character of ["\n"]. *)
Definition nl : string := String (ascii_of_nat 10) EmptyString.

(** ** numpy *)

Section Arrays.
Context {F : Type} `{Scalar F}.
Local Open Scope nat_scope.

(** [res += a[i]] over the elements of [a] in sequence. *)
Definition sum_onto (res : F) (a : list F) : F := fold_left s_add a res.

(** The loop over the eight accumulators [r] of numpy's [pairwise_sum]: each
    of the [blocks] next blocks of eight elements is added to them,
    accumulator by accumulator; what is left of the array comes back with
    them. *)
Fixpoint accumulate (blocks : nat) (r a : list F) : list F * list F :=
  match blocks with
  | O => (r, a)
  | S blocks' => accumulate blocks' (zip_with s_add r (take 8 a)) (drop 8 a)
  end.

(** An array of 8 to 128 elements: the first eight elements start the
    accumulators, the further full blocks of eight are added to them, the
    accumulators are added up as
    [((r0 + r1) + (r2 + r3)) + ((r4 + r5) + (r6 + r7))], and the elements
    after the last full block are added in sequence. *)
Definition block_sum (a : list F) : F :=
  let '(r, rest) := accumulate (length a / 8 - 1) (take 8 a) (drop 8 a) in
  let r i := nth i r s_zero in
  let res := s_add (s_add (s_add (r 0) (r 1)) (s_add (r 2) (r 3)))
                   (s_add (s_add (r 4) (r 5)) (s_add (r 6) (r 7))) in
  sum_onto res rest.

Definition PW_BLOCKSIZE : nat := 128.

(** numpy's [pairwise_sum] (the inner loop of [np.add.reduce] on a contiguous
    array): fewer than 8 elements are added in sequence from zero, up to
    [PW_BLOCKSIZE] elements through the eight accumulators, and a longer
    array is cut in two, the first part [n / 2] elements rounded down to a
    multiple of 8, and the sums of the parts are added.  [fuel] bounds the
    depth of the cutting: the number of elements is enough, as each part is
    shorter than the whole ([pairwise_sum_fuel]); without fuel no element
    is left. *)
Fixpoint pairwise_sum (fuel : nat) (a : list F) : F :=
  match fuel with
  | O => s_zero
  | S fuel' =>
    let n := length a in
    if n <? 8 then sum_onto s_zero a
    else if n <=? PW_BLOCKSIZE then block_sum a
    else
      let n2 := n / 2 in
      let n2 := n2 - n2 mod 8 in
      s_add (pairwise_sum fuel' (take n2 a)) (pairwise_sum fuel' (drop n2 a))
  end.

(** [np.sum(a)] of a one-dimensional float64 array: the reduction starts from
    the identity of the addition, zero, and adds the pairwise sum of the
    elements to it.  So up to seven elements are added in sequence, and from
    eight elements on in blocks: the rounded sum depends on this order.
    [np.mean(a)] is this sum divided by the number of elements (NaN, with a
    warning, for an empty array). *)
Definition np_sum (a : list F) : F := s_add s_zero (pairwise_sum (length a) a).
Definition np_mean (a : list F) : F := s_div (np_sum a) (s_of_nat (length a)).

(** [a - v] for an array [a] and a number [v]. *)
Definition np_sub_scalar (a : list F) (v : F) : list F :=
  map (fun ai => s_sub ai v) a.

End Arrays.

(** The shape of a one-dimensional array of [n] elements, as numpy and
    matplotlib print it: [(n,)]. *)
Definition shape_1d (n : nat) : string := "(" +:+ str_of_nat n +:+ ",)".

(** [x - y] and [x + y] on two one-dimensional arrays: elementwise; an
    array of one element is broadcast; other lengths do not match. *)
Definition broadcast_error (x y : list float) : exn :=
  ValueError ("operands could not be broadcast together with shapes "
              +:+ shape_1d (length x) +:+ " " +:+ shape_1d (length y) +:+ " ").

Definition np_binop (op : float -> float -> float) (x y : list float) : outcome (list float) :=
  match x, y with
  | [a], _ => Return (map (op a) y)
  | _, [b] => Return (map (fun xi => op xi b) x)
  | _, _ =>
    if (length x =? length y)%nat
    then Return (zip_with op x y)
    else Raise (broadcast_error x y)
  end.

Definition np_sub : list float -> list float -> outcome (list float) := np_binop PrimFloat.sub.
Definition np_add : list float -> list float -> outcome (list float) := np_binop PrimFloat.add.

Definition np_abs (a : list float) : list float := map PrimFloat.abs a.
Definition np_div_scalar (a : list float) (v : float) : list float :=
  map (fun ai => (ai / v)%float) a.
Definition np_zeros_like (a : list float) : list float := map (fun _ => 0%float) a.

(** [np.any(c)]: some element is truthy (a float is truthy unless it equals
    zero; NaN is truthy).  [np.any(None)] is false. *)
Definition truthy (v : float) : bool := negb (v =? 0)%float.
Definition np_any (c : option (list float)) : bool :=
  match c with
  | None => false
  | Some a => existsb truthy a
  end.

(** ** The estimator's interface *)

(** The Statistic Result: the plotting code reads it as [s['mle']],
    [s['low']] and [s['high']]. *)
Record stat_result : Type := { mle : float; low : float; high : float }.

(** The estimator as the plotting layer calls it:
    [bootstrap_statistic(x, y, xerr, yerr, statistic)], where an uncertainty
    sequence left out is [None].  It draws from a random stream [R] and
    returns a Statistic Result or raises. *)
Definition estimator (R : Type) : Type :=
  list float -> list float -> option (list float) -> option (list float) ->
  string -> R -> outcome stat_result * R.

(** ** The statistic estimator *)

(** Modelled from the spec: the module [stats], whose [bootstrap_statistic]
    the plotting code calls, is not among the sources.  What follows is
    written from the specification of the Statistic Estimator: its metrics,
    its bootstrap and its errors. *)
Module stats.

Inductive metric : Type := RMSE | MUE | R2 | rho.

(** The Metric Selector is given by name. *)
Definition metric_of_name (name : string) : option metric :=
  if String.eqb name "RMSE" then Some RMSE
  else if String.eqb name "MUE" then Some MUE
  else if String.eqb name "R2" then Some R2
  else if String.eqb name "rho" then Some rho
  else None.

Definition supported_metrics : list string := ["RMSE"; "MUE"; "R2"; "rho"].

Definition sq (v : float) : float := (v * v)%float.

(** RMSE: sqrt(mean((y_i - x_i)^2)).  MUE: mean(|y_i - x_i|). *)
Definition rmse (x y : list float) : float :=
  PrimFloat.sqrt (np_mean (zip_with (fun xi yi => sq (yi - xi)%float) x y)).
Definition mue (x y : list float) : float :=
  np_mean (zip_with (fun xi yi => PrimFloat.abs (yi - xi)%float) x y).

(** A sample in which all values are identical has zero variance. *)
Definition all_identical (x : list float) : bool :=
  match x with
  | [] => true
  | a :: x' => forallb (fun v => (v =? a)%float) x'
  end.

(** A correlation metric needs N >= 2 and a spread in both sequences. *)
Definition degenerate (x y : list float) : bool :=
  (length x <? 2)%nat || all_identical x || all_identical y.

(** The Pearson correlation coefficient of two sequences with a spread. *)
Definition pearson (x y : list float) : float :=
  let mx := np_mean x in
  let my := np_mean y in
  let sxy := np_sum (zip_with (fun xi yi => ((xi - mx) * (yi - my))%float) x y) in
  let sxx := np_sum (map (fun xi => sq (xi - mx)%float) x) in
  let syy := np_sum (map (fun yi => sq (yi - my)%float) y) in
  (sxy / PrimFloat.sqrt (sxx * syy))%float.

(** The rank of [v] in [x], ties sharing the mean of their positions. *)
Definition count (p : float -> bool) (x : list float) : nat := length (filter p x).
Definition rank (x : list float) (v : float) : float :=
  let below := count (fun u => (u <? v)%float) x in
  let equal := count (fun u => (u =? v)%float) x in
  (float_of_nat below + (float_of_nat equal + 1) / 2)%float.
Definition ranks (x : list float) : list float := map (rank x) x.

(** Modelled from the spec: the metric on a sample.  RMSE and MUE need one
    pair at least; R2 and rho fail with [UndefinedStatistic] on a degenerate
    sample. *)
Definition metric_value (m : metric) (x y : list float) : outcome float :=
  match m with
  | RMSE => if (length x <? 1)%nat then Raise UndefinedStatistic else Return (rmse x y)
  | MUE => if (length x <? 1)%nat then Raise UndefinedStatistic else Return (mue x y)
  | R2 => if degenerate x y then Raise UndefinedStatistic else Return (sq (pearson x y))
  | rho =>
    if degenerate x y then Raise UndefinedStatistic
    else Return (pearson (ranks x) (ranks y))
  end.

Section Bootstrap.
(** The random source is injected: [rand_nat] yields a uniformly drawn
    natural number and [rand_normal] a standard normal deviate, each with the
    next state of the stream.  [percentile v q] is the [q]-th percentile of
    the values [v]; [n_resamples] is the fixed number of resamples. *)
Context {R : Type}.
Variable rand_nat : R -> nat * R.
Variable rand_normal : R -> float * R.
Variable percentile : list float -> float -> float.
Variable n_resamples : nat.

(** One draw: an index from {0, ..., N-1}, which selects both x_i and y_i;
    each is perturbed by Gaussian noise of standard deviation [xerr_i]
    ([yerr_i]) when that uncertainty sequence is supplied. *)
Definition perturb (v : float) (err : option (list float)) (i : nat) (r : R) : float * R :=
  match err with
  | None => (v, r)
  | Some e =>
    let '(z, r') := rand_normal r in
    ((v + nth i e 0 * z)%float, r')
  end.

Definition draw_pair (x y : list float) (xerr yerr : option (list float)) (r : R)
  : (float * float) * R :=
  let '(k, r1) := rand_nat r in
  let i := (k mod length x)%nat in
  let '(xi, r2) := perturb (nth i x 0%float) xerr i r1 in
  let '(yi, r3) := perturb (nth i y 0%float) yerr i r2 in
  ((xi, yi), r3).

(** [n] draws, in sequence. *)
Fixpoint resample (n : nat) (x y : list float) (xerr yerr : option (list float)) (r : R)
  : list (float * float) * R :=
  match n with
  | O => ([], r)
  | S n' =>
    let '(p, r1) := draw_pair x y xerr yerr r in
    let '(ps, r2) := resample n' x y xerr yerr r1 in
    (p :: ps, r2)
  end.

(** The metric on each of [n] replicates of N draws. *)
Fixpoint replicates (n : nat) (m : metric) (x y : list float)
  (xerr yerr : option (list float)) (r : R) : outcome (list float) * R :=
  match n with
  | O => (Return [], r)
  | S n' =>
    let '(ps, r1) := resample (length x) x y xerr yerr r in
    match metric_value m (map fst ps) (map snd ps) with
    | Raise e => (Raise e, r1)
    | Return v =>
      let '(o, r2) := replicates n' m x y xerr yerr r1 in
      (obind o (fun vs => Return (v :: vs)), r2)
    end
  end.

Definition same_length (x : list float) (err : option (list float)) : bool :=
  match err with
  | None => true
  | Some e => (length e =? length x)%nat
  end.

(** Modelled from the spec: [stats.bootstrap_statistic], which the plotting
    code calls and the sources do not contain.  The lengths are checked, then
    the metric name; [mle] is the metric on the original sample, [low] and
    [high] are the 2.5th and 97.5th percentiles of the metric over the
    replicates. *)
Definition bootstrap_statistic : estimator R :=
  fun x y xerr yerr statistic r =>
  if negb ((length x =? length y)%nat && same_length x xerr && same_length y yerr)
  then (Raise ShapeMismatch, r)
  else
    match metric_of_name statistic with
    | None => (Raise (UnknownMetric statistic), r)
    | Some m =>
      match metric_value m x y with
      | Raise e => (Raise e, r)
      | Return v =>
        match replicates n_resamples m x y xerr yerr r with
        | (Raise e, r') => (Raise e, r')
        | (Return dist, r') =>
          (Return {| mle := v;
                     low := percentile dist 2.5%float;
                     high := percentile dist 97.5%float |}, r')
        end
      end
    end.

End Bootstrap.

(** A random source and a percentile to run the estimator with: a linear
    congruential generator, noise drawn from it as one of five fixed
    deviates, and the nearest-rank percentile of the sorted values. *)
Definition lcg (r : N) : nat * N :=
  let r' := ((r * 1103515245 + 12345) mod 2147483648)%N in
  (N.to_nat (r' / 65536), r').

Definition lcg_normal (r : N) : float * N :=
  let '(k, r') := lcg r in
  (nth (k mod 5)%nat [-1.5; -0.5; 0; 0.5; 1.5]%float 0%float, r').

Fixpoint insert_sorted (v : float) (l : list float) : list float :=
  match l with
  | [] => [v]
  | a :: l' => if (v <? a)%float then v :: l else a :: insert_sorted v l'
  end.
Definition sorted (l : list float) : list float := fold_right insert_sorted [] l.

Definition nearest_rank (l : list float) (q : float) : float :=
  let n := length l in
  let k := list_sum (map (fun i => if (float_of_nat (100 * i) <? q * float_of_nat n)%float
                                   then 1%nat else 0%nat) (seq 1 n)) in
  nth (Nat.min k (n - 1)) (sorted l) nan.

End stats.

(** ** The world, the trace and the monad of the plotting code *)

(** A [go.Scatter] trace of [plotlying._master_plot], by the arguments that
    carry data (the styling keywords are constants of the source). *)
Record go_Scatter : Type := {
  sc_x : list float;
  sc_y : list float;
  sc_name : string;
  sc_mode : string;
  sc_color : option (list float);
  sc_error_x : option (list float);
  sc_error_y : option (list float);
  sc_text : list string
}.

(** The calls the plotting code makes to its collaborators: the estimator
    (with what it answered), pyplot, and a plotly figure. *)
Inductive event : Type :=
| stats_bootstrap_statistic (x y : list float) (xerr yerr : option (list float))
    (statistic : string) (result : outcome stat_result)
| plt_rcParams (key : string) (value : float)
| plt_figure (width height : float)
| plt_subplots_adjust (left right bottom top : float)
| plt_xlabel (label : string)
| plt_ylabel (label : string)
| plt_xlim (scale : list float)
| plt_ylim (scale : list float)
| plt_plot (xs ys : list float) (fmt : string)
| plt_fill_between (xs y1 y2 : list float)
| plt_get_cmap (name : string)
| plt_errorbar (x y : list float) (xerr yerr : option (list float))
| plt_scatter (x y : list float) (color : list float)
| plt_title (label : string)
| plt_show
| plt_savefig (filename : string)
| go_Figure
| fig_add_trace (t : go_Scatter)
| fig_add_bar (x : list float) (y : list string) (error_x : list float) (name : string)
| fig_add_markers (x : list float) (y : list string) (name : string) (size : float)
| fig_update_layout (title xaxis_title yaxis_title : string)
    (xaxis_range yaxis_range : float * float) (width height : float)
| fig_update_layout_noargs
| fig_show
| fig_write_html (filename : string)
| fig_write_image (filename : string).

(** The calls that display a figure or write a file. *)
Definition is_export (ev : event) : bool :=
  match ev with
  | plt_show | plt_savefig _ | fig_show | fig_write_html _ | fig_write_image _ => true
  | _ => false
  end.

Definition is_estimator_call (ev : event) : bool :=
  match ev with
  | stats_bootstrap_statistic _ _ _ _ _ _ => true
  | _ => false
  end.

Section Monad.
(** [S] is the type of the caller's data source (the results list, the
    graph): the object the plotting function is handed a reference to; it is
    kept in the world, so that a write to it would show in the world a run
    leaves.  [R] is the state of the random stream.  The trace holds the
    calls the collaborators were handed: those the renderer carried out, and
    every call of the estimator with its outcome.  The estimator may raise;
    of the renderer, matplotlib's refusal of axis limits that are not finite
    and of error bars that do not match the points are modelled, where the
    pyplot code makes these calls, and otherwise a call is taken to be
    carried out.  Both are handed arrays the plotting function has built,
    never the data source itself. *)
Context {S R : Type}.

Record world : Type := { w_source : S; w_rng : R }.

(** A computation runs from a world to an outcome, the world it leaves, and
    the calls it made, in order. *)
Definition M (A : Type) : Type := world -> outcome A * world * list event.

Definition ret {A : Type} (a : A) : M A := fun w => (Return a, w, []).

Definition bind {A B : Type} (m : M A) (k : A -> M B) : M B :=
  fun w =>
    match m w with
    | (Return a, w1, t1) =>
      let '(o, w2, t2) := k a w1 in (o, w2, t1 ++ t2)
    | (Raise e, w1, t1) => (Raise e, w1, t1)
    end.

(** An expression that can raise. *)
Definition lift {A : Type} (o : outcome A) : M A := fun w => (o, w, []).

(** A call to the renderer. *)
Definition emit (ev : event) : M unit := fun w => (Return tt, w, [ev]).

(** Reading the caller's data source. *)
Definition source : M S := fun w => (Return (w_source w), w, []).

(** A call to the estimator: it advances the random stream and returns or
    raises. *)
Definition call_estimator (bootstrap_statistic : estimator R)
  (x y : list float) (xerr yerr : option (list float)) (statistic : string)
  : M stat_result :=
  fun w =>
    let '(o, r') := bootstrap_statistic x y xerr yerr statistic (w_rng w) in
    (o, {| w_source := w_source w; w_rng := r' |},
     [stats_bootstrap_statistic x y xerr yerr statistic o]).

(** A [for] loop over [l] whose body updates the local variables [acc]. *)
Fixpoint mfor {A B : Type} (l : list A) (body : A -> B -> M B) (acc : B) : M B :=
  match l with
  | [] => ret acc
  | a :: l' => bind (body a acc) (mfor l' body)
  end.

Definition when (b : bool) (m : M unit) : M unit := if b then m else ret tt.

End Monad.

Arguments world : clear implicits.
Arguments M : clear implicits.

Declare Scope monad_scope.
Delimit Scope monad_scope with monad.
Notation "x <- c ;; k" := (bind c (fun x => k))
  (at level 100, c at next level, right associativity) : monad_scope.
Notation "c ;; k" := (bind c (fun _ => k))
  (at level 100, right associativity) : monad_scope.

(** The outcome, the final world and the trace of a run. *)
Definition outcome_of {S R A : Type} (r : outcome A * world S R * list event) : outcome A :=
  fst (fst r).
Definition world_of {S R A : Type} (r : outcome A * world S R * list event) : world S R :=
  snd (fst r).
Definition trace_of {S R A : Type} (r : outcome A * world S R * list event) : list event :=
  snd r.

(** ** pandas, as far as [plot_bar] uses it *)

(** A data frame: its number of rows, its numeric columns and its columns of
    labels, by name. *)
Record DataFrame : Type := {
  df_rows : nat;
  df_numeric : gmap string (list float);
  df_labels : gmap string (list string)
}.

(** [df.loc[:, col].values] and [df[name_col].values]: [KeyError] when the
    frame has no such column. *)
Definition df_col (df : DataFrame) (col : string) : outcome (list float) :=
  match df_numeric df !! col with
  | Some v => Return v
  | None => Raise (KeyError col)
  end.

Definition df_label (df : DataFrame) (col : string) : outcome (list string) :=
  match df_labels df !! col with
  | Some v => Return v
  | None => Raise (KeyError col)
  end.

(** [df.loc[:, cols].values]: a two-dimensional array, kept as the list of
    its columns.  [None] is no column name.  pandas words the [KeyError]
    differently from the plain column name kept here (it lists the labels
    that are not in the index). *)
Definition df_loc (df : DataFrame) (cols : list (option string)) : outcome (list (list float)) :=
  omap (fun c => match c with
                 | Some col => df_col df col
                 | None => Raise (KeyError "None")
                 end) cols.

Definition np_fabs2 (a : list (list float)) : list (list float) := map np_abs a.

(** [a + b] on two arrays with the same rows: columnwise, a single column is
    broadcast, other shapes do not match. *)
Definition np_add2 (a b : list (list float)) : outcome (list (list float)) :=
  match a, b with
  | [ca], _ => Return (map (zip_with PrimFloat.add ca) b)
  | _, [cb] => Return (map (fun ca => zip_with PrimFloat.add ca cb) a)
  | _, _ =>
    if (length a =? length b)%nat
    then Return (zip_with (zip_with PrimFloat.add) a b)
    else Raise (ValueError "operands could not be broadcast together")
  end.

(** [np.max(a)]: the largest element, NaN if there is one; [ValueError] on
    an array without elements. *)
Definition np_maximum (a b : float) : float :=
  if PrimFloat.is_nan a then a
  else if PrimFloat.is_nan b then b
  else if (a <? b)%float then b else a.

Definition np_max (a : list (list float)) : outcome float :=
  match concat a with
  | [] => Raise (ValueError "zero-size array to reduction operation maximum which has no identity")
  | v :: l => Return (fold_left np_maximum l v)
  end.

(** ** plotlying.py *)

Module plotlying.
Section Defs.
Context {S R : Type}.
Variable bootstrap_statistic : estimator R.

Local Open Scope monad_scope.
Local Open Scope float_scope.

Definition plot_bar (df : DataFrame) (ddg_cols error_cols : list string)
  (exp_col : option string) (exp_error_col name_col title : string)
  (filename : option string) : M S R unit :=
  let numEdges := df_rows df in
  let numBarsPerEdge := length ddg_cols in
  let height := 20 * (float_of_nat numBarsPerEdge + 0.3) * float_of_nat numEdges in
  exp_size <- lift (if (numEdges =? 0)%nat then Raise ZeroDivisionError
                    else Return (height / float_of_nat numEdges / 2.0)) ;;
  values <- lift (df_loc df (map Some ddg_cols ++ [exp_col])) ;;
  errors <- lift (df_loc df (map Some error_cols ++ [Some exp_error_col])) ;;
  total <- lift (np_add2 (np_fabs2 values) (np_fabs2 errors)) ;;
  largest <- lift (np_max total) ;;
  let alim := largest * 1.05 in
  emit go_Figure ;;
  (* add data *)
  mfor (zip ddg_cols error_cols) (fun cols _ =>
    x <- lift (df_col df (fst cols)) ;;
    y <- lift (df_label df name_col) ;;
    error_x <- lift (df_col df (snd cols)) ;;
    emit (fig_add_bar x y error_x (fst cols))) tt ;;
  match exp_col with
  | Some col =>
    x <- lift (df_col df col) ;;
    y <- lift (df_label df name_col) ;;
    emit (fig_add_markers x y "experiment" exp_size) ;;
    x <- lift (df_col df col) ;;
    dx <- lift (df_col df exp_error_col) ;;
    lower <- lift (np_sub x dx) ;;
    y <- lift (df_label df name_col) ;;
    emit (fig_add_markers lower y "ExpErrors1" exp_size) ;;
    x <- lift (df_col df col) ;;
    dx <- lift (df_col df exp_error_col) ;;
    upper <- lift (np_add x dx) ;;
    y <- lift (df_label df name_col) ;;
    emit (fig_add_markers upper y "ExpErrors2" exp_size)
  | None => ret tt
  end ;;
  emit (fig_update_layout title "ΔΔG [kcal mol<sup>-1</sup>]" "Edge"
          (- alim, alim) (-0.5, float_of_nat numEdges - 0.5) 800 height) ;;
  match filename with
  | None => emit fig_show
  | Some f =>
    if (0 <? str_find f ".html")%Z then emit (fig_write_html f)
    else emit (fig_write_image f)
  end.

(** A guide line or a margin band: a trace drawn with [mode='lines']. *)
Definition lines (x y : list float) (name : string) : go_Scatter :=
  {| sc_x := x; sc_y := y; sc_name := name; sc_mode := "lines"; sc_color := None;
     sc_error_x := None; sc_error_y := None; sc_text := [] |}.

Definition _master_plot (x y : list float) (c : option (list float)) (title : string)
  (xerr yerr : option (list float)) (names : option (list string))
  (smiles : option (list (list string)))
  (method_name_x method_name_y target_name plot_type : string)
  (guidelines origins : bool) (statistics : list string) (filename : option string)
  : M S R unit :=
  let nsamples := length x in
  min_x <- lift (py_min x) ;;
  min_y <- lift (py_min y) ;;
  let ax_min := py_min2 min_x min_y - 0.5 in
  max_x <- lift (py_max x) ;;
  max_y <- lift (py_max y) ;;
  let ax_max := py_max2 max_x max_y + 0.5 in
  emit go_Figure ;;
  (* x = 0 and y = 0 axes through origin *)
  when origins (
    emit (fig_add_trace (lines [0; 0] [ax_min; ax_max] "")) ;;
    emit (fig_add_trace (lines [ax_min; ax_max] [0; 0] ""))) ;;
  when guidelines (
    let small_dist := 0.5 in
    emit (fig_add_trace (lines [ax_min; ax_max; ax_max; ax_min]
            [ax_min + 2.0 * small_dist; ax_max + 2.0 * small_dist;
             ax_max - 2.0 * small_dist; ax_min - 2.0 * small_dist]
            "1 kcal/mol margin")) ;;
    emit (fig_add_trace (lines [ax_min; ax_max; ax_max; ax_min]
            [ax_min + small_dist; ax_max + small_dist;
             ax_max - small_dist; ax_min - small_dist]
            ".5 kcal/mol margin"))) ;;
  (* diagonal *)
  emit (fig_add_trace (lines [ax_min; ax_max] [ax_min; ax_max] "")) ;;
  let clr := match c with
             | Some c => c
             | None => np_zeros_like x
             end in
  let n := match names with
           | Some names =>
             match smiles with
             | Some smiles =>
               let smile_strings := map (str_join "<br>") smiles in
               map (fun ns => fst ns +:+ "<br>" +:+ snd ns) (zip names smile_strings)
             | None => names
             end
           | None => map (fun _ => "") clr
           end in
  emit (fig_add_trace
          {| sc_x := x; sc_y := y; sc_name := target_name +:+ "," +:+ method_name_y;
             sc_mode := "markers"; sc_color := Some clr;
             sc_error_x := xerr; sc_error_y := yerr; sc_text := n |}) ;;
  (* stats and title *)
  string <- mfor statistics (fun statistic string =>
    s <- call_estimator bootstrap_statistic x y None None statistic ;;
    ret (string ++ [ljust 5 (statistic +:+ ":") +:+ format_wf 5 2 (mle s)
                    +:+ " [95%: " +:+ format_wf 5 2 (low s) +:+ ", "
                    +:+ format_wf 5 2 (high s) +:+ "] kcal mol<sup>-1</sup>"])) [] ;;
  let statistics_string := str_join "<br>" string in
  let long_title := title +:+ "<br>" +:+ target_name +:+ " (N = " +:+ str_of_nat nsamples
                    +:+ ")<br>" +:+ statistics_string in
  (* figure layout *)
  emit (fig_update_layout long_title
          (method_name_x +:+ " " +:+ plot_type +:+ " [kcal mol<sup>-1</sup>]")
          (method_name_y +:+ " " +:+ plot_type +:+ "  [kcal mol<sup>-1</sup>]")
          (ax_min, ax_max) (ax_min, ax_max) 400 400) ;;
  when (negb (np_any c)) (emit fig_update_layout_noargs) ;;
  match filename with
  | None => emit fig_show
  | Some f =>
    if (0 <? str_find f ".html")%Z then emit (fig_write_html f)
    else emit (fig_write_image f)
  end.

End Defs.
End plotlying.

(** ** The callers' data *)

(** One record of the results list that [plot_DDGs] reads. *)
Record DDG_result : Type := {
  exp_DDG : float;
  calc_DDG : float;
  dexp_DDG : float;
  dcalc_DDG : float;
  other_dDDG : float;
  ligandA : string;
  ligandB : string
}.

(** [graph.nodes(data=True)]: the nodes in order, each with its dictionary
    of attributes. *)
Definition node (F : Type) : Type := string * gmap string F.
Definition graph (F : Type) : Type := list (node F).

(** [node[1][key]]. *)
Definition node_attr {F : Type} (key : string) (nd : node F) : outcome F :=
  match snd nd !! key with
  | Some v => Return v
  | None => Raise (KeyError key)
  end.

(** [a[i]] for an index that is not negative. *)
Definition index {A : Type} (a : list A) (i : nat) : outcome A :=
  match a !! i with
  | Some v => Return v
  | None => Raise (IndexError "index out of bounds")
  end.

(** [itertools.combinations(l, 2)]. *)
Fixpoint combinations2 {A : Type} (l : list A) : list (A * A) :=
  match l with
  | [] => []
  | a :: l' => map (pair a) l' ++ combinations2 l'
  end.

(** ** matplotlib, where it refuses what it is handed *)

(** [np.isfinite]. *)
Definition is_finite (v : float) : bool := negb (is_nan v) && negb (is_infinity v).

(** [plt.xlim(scale)] and [plt.ylim(scale)] refuse a limit that is NaN or
    infinite. *)
Definition axis_limits (scale : list float) : outcome unit :=
  if forallb is_finite scale then Return tt
  else Raise (ValueError "Axis limits cannot be NaN or Inf").

(** [plt.errorbar(x, y, xerr, yerr)] refuses [x] and [y] of different sizes,
    and error bars that do not broadcast to the points: a one-dimensional
    array of errors has as many elements as there are points, or a single
    one. *)
Definition errorbar_error (axis : string) (err : list float) (n : nat) : exn :=
  ValueError ("'" +:+ axis +:+ "err' (shape: " +:+ shape_1d (length err)
              +:+ ") must be a scalar or a 1D or (2, n) array-like whose shape matches '"
              +:+ axis +:+ "' (shape: " +:+ shape_1d n +:+ ")").

Definition errorbar_err (axis : string) (err : option (list float)) (n : nat) : outcome unit :=
  match err with
  | None => Return tt
  | Some err =>
    if ((length err =? n) || (length err =? 1))%nat then Return tt
    else Raise (errorbar_error axis err n)
  end.

Definition errorbar_args (x y : list float) (xerr yerr : option (list float)) : outcome unit :=
  if (length x =? length y)%nat then
    obind (errorbar_err "x" xerr (length x)) (fun _ => errorbar_err "y" yerr (length y))
  else Raise (ValueError "'x' and 'y' must have the same size").

(** ** plotting.py *)

Module plotting.

Local Open Scope float_scope.

(** The data of [plot_DDGs] (its first block): the pairs as they are, or
    with their negations appended, or mapped to positive x. *)
Definition plot_DDGs_data (results : list DDG_result) (map_positive symmetrise : bool)
  : list float * list float :=
  if negb map_positive then
    (map exp_DDG results, map calc_DDG results)
  else if symmetrise then
    (map exp_DDG results ++ map (fun x => - exp_DDG x) results,
     map calc_DDG results ++ map (fun x => - calc_DDG x) results)
  else
    fold_left (fun data ij =>
                 let '(x_data, y_data) := data in
                 let '(i, j) := ij in
                 if i <? 0 then (x_data ++ [- i], y_data ++ [- j])
                 else (x_data ++ [i], y_data ++ [j]))
              (zip (map exp_DDG results) (map calc_DDG results)) ([], []).

Section Centralising.
Context {F : Type} `{Scalar F}.

(** The data of [plot_DGs]: the node attributes, x and y centralised. *)
Definition plot_DGs_data (g : graph F) : outcome (list F * list F * list F * list F) :=
  (x_data <~ omap (node_attr "f_i_exp") g ;;
   y_data <~ omap (node_attr "f_i_calc") g ;;
   xerr <~ omap (node_attr "df_i_exp") g ;;
   yerr <~ omap (node_attr "df_i_calc") g ;;
   (* centralising *)
   let x_data := np_sub_scalar x_data (np_mean x_data) in
   let y_data := np_sub_scalar y_data (np_mean y_data) in
   Return (x_data, y_data, xerr, yerr))%outcome.

End Centralising.

Section AllPairs.
(** [a ** b] on numpy float64 values. *)
Variable float_power : float -> float -> float.

(** One turn of the loop of [plot_all_DDGs] over the pairs of nodes. *)
Definition all_DDGs_step (x_abs y_abs xabserr yabserr : list float) (ab : nat * nat)
  (data : list float * list float * list float * list float)
  : outcome (list float * list float * list float * list float) :=
  let '(a, b) := ab in
  let '(x_data, y_data, xerr, yerr) := data in
  (xa <~ index x_abs a ;;
   xb <~ index x_abs b ;;
   let x := xa - xb in
   let x_data := x_data ++ [x; - x] in
   ea <~ index xabserr a ;;
   eb <~ index xabserr b ;;
   let err := float_power (float_power ea 2 + float_power eb 2) 0.5 in
   let xerr := xerr ++ [err; err] in
   ya <~ index y_abs a ;;
   yb <~ index y_abs b ;;
   let y := ya - yb in
   let y_data := y_data ++ [y; - y] in
   ea <~ index yabserr a ;;
   eb <~ index yabserr b ;;
   let err := float_power (float_power ea 2 + float_power eb 2) 0.5 in
   let yerr := yerr ++ [err; err] in
   Return (x_data, y_data, xerr, yerr))%outcome.

(** The data of [plot_all_DDGs]: the differences between all pairs of
    nodes. *)
Definition plot_all_DDGs_data (g : graph float)
  : outcome (list float * list float * list float * list float) :=
  (x_abs <~ omap (node_attr "f_i_exp") g ;;
   y_abs <~ omap (node_attr "f_i_calc") g ;;
   xabserr <~ omap (node_attr "df_i_exp") g ;;
   yabserr <~ omap (node_attr "df_i_calc") g ;;
   (* do all to plot_all *)
   ofor (combinations2 (seq 0 (length x_abs)))
        (all_DDGs_step x_abs y_abs xabserr yabserr) ([], [], [], []))%outcome.

End AllPairs.

Section Defs.
Context {S R : Type}.
Variable bootstrap_statistic : estimator R.

Local Open Scope monad_scope.

Definition kcal_mol : string := "$[\mathrm{kcal\,mol^{-1}}]$".

Definition _master_plot (x y : list float) (title : string)
  (xerr yerr : option (list float)) (method_name target_name plot_type : string)
  (guidelines origins : bool) (statistics : list string) (filename : option string)
  : M S R unit :=
  let nsamples := length x in
  (* aesthetics *)
  emit (plt_rcParams "xtick.labelsize" 12) ;;
  emit (plt_rcParams "ytick.labelsize" 12) ;;
  emit (plt_rcParams "font.size" 12) ;;
  emit (plt_figure 6 6) ;;
  emit (plt_subplots_adjust 0.2 0.8 0.2 0.8) ;;
  emit (plt_xlabel ("Experimental " +:+ plot_type +:+ " " +:+ kcal_mol)) ;;
  emit (plt_ylabel ("Calculated " +:+ plot_type +:+ " " +:+ method_name +:+ " " +:+ kcal_mol)) ;;
  min_x <- lift (py_min x) ;;
  min_y <- lift (py_min y) ;;
  let ax_min := py_min2 min_x min_y - 0.5 in
  max_x <- lift (py_max x) ;;
  max_y <- lift (py_max y) ;;
  let ax_max := py_max2 max_x max_y + 0.5 in
  let scale := [ax_min; ax_max] in
  lift (axis_limits scale) ;;
  emit (plt_xlim scale) ;;
  lift (axis_limits scale) ;;
  emit (plt_ylim scale) ;;
  (* plots x-axis and y-axis *)
  when origins (
    emit (plt_plot [0; 0] scale "gray") ;;
    emit (plt_plot scale [0; 0] "gray")) ;;
  (* plots x=y line *)
  emit (plt_plot scale scale "k:") ;;
  when guidelines (
    let small_dist := 0.5 in
    (* plots grey region around x=y line *)
    emit (plt_fill_between scale [ax_min - small_dist; ax_max - small_dist]
            [ax_min + small_dist; ax_max + small_dist]) ;;
    emit (plt_fill_between scale [ax_min - small_dist * 2; ax_max - small_dist * 2]
            [ax_min + small_dist * 2; ax_max + small_dist * 2])) ;;
  (* actual plotting *)
  emit (plt_get_cmap "coolwarm") ;;
  diff <- lift (np_sub x y) ;;
  let clr := np_abs diff in
  (* 2.372 kcal / mol = 4 RT *)
  let clr := np_div_scalar clr 2.372 in
  lift (errorbar_args x y xerr yerr) ;;
  emit (plt_errorbar x y xerr yerr) ;;
  emit (plt_scatter x y clr) ;;
  (* stats and title *)
  statistics_string <- mfor statistics (fun statistic statistics_string =>
    s <- call_estimator bootstrap_statistic x y xerr yerr statistic ;;
    let string := statistic +:+ ":   " +:+ format_f 2 (mle s) +:+ " [95%: "
                  +:+ format_f 2 (low s) +:+ ", " +:+ format_f 2 (high s) +:+ "] "
                  +:+ "$\mathrm{kcal\,mol^{-^1}}$" +:+ nl in
    ret (statistics_string +:+ string)) "" ;;
  let long_title := title +:+ " " +:+ nl +:+ " " +:+ target_name +:+ " (N = "
                    +:+ str_of_nat nsamples +:+ ") " +:+ nl +:+ " " +:+ statistics_string in
  emit (plt_title long_title) ;;
  match filename with
  | None => emit plt_show
  | Some f => emit (plt_savefig f)
  end.

End Defs.

Section Plots.
Context {R : Type}.
Variable bootstrap_statistic : estimator R.
Variable float_power : float -> float -> float.

Local Open Scope monad_scope.

Definition plot_DDGs (smiles : option (list (list string)))
  (method_name_x method_name_y target_name title : string) (map_positive : bool)
  (filename : option string) (symmetrise plotly : bool)
  : M (list DDG_result) R unit :=
  results <- source ;;
  (* data *)
  let '(x_data, y_data) := plot_DDGs_data results map_positive symmetrise in
  let xerr := map dexp_DDG results in
  let yerr := map dcalc_DDG results in
  let c := map other_dDDG results in
  let names := map (fun x => ligandA x +:+ ", " +:+ ligandB x) results in
  if plotly then
    plotlying._master_plot bootstrap_statistic x_data y_data (Some c) title
      (Some xerr) (Some yerr) (Some names) smiles
      method_name_x method_name_y target_name "ΔΔG" true true ["RMSE"; "MUE"] filename
  else
    _master_plot bootstrap_statistic x_data y_data title (Some xerr) (Some yerr)
      method_name_y target_name "$\Delta \Delta$ G" true true ["RMSE"; "MUE"] filename.

Definition plot_DGs (smiles : option (list (list string)))
  (method_name_x method_name_y target_name title : string)
  (filename : option string) (plotly : bool)
  : M (graph float) R unit :=
  graph <- source ;;
  (* data *)
  data <- lift (plot_DGs_data graph) ;;
  let '(x_data, y_data, xerr, yerr) := data in
  if plotly then
    plotlying._master_plot bootstrap_statistic x_data y_data None title
      (Some xerr) (Some yerr) None None
      method_name_x method_name_y target_name "ΔG" true false
      ["RMSE"; "MUE"; "R2"; "rho"] filename
  else
    _master_plot bootstrap_statistic x_data y_data title (Some xerr) (Some yerr)
      method_name_y target_name "$\Delta$ G" true false
      ["RMSE"; "MUE"; "R2"; "rho"] filename.

Definition plot_all_DDGs (smiles : option (list (list string)))
  (method_name_x method_name_y target_name title : string)
  (filename : option string) (plotly : bool)
  : M (graph float) R unit :=
  graph <- source ;;
  data <- lift (plot_all_DDGs_data float_power graph) ;;
  let '(x_data, y_data, xerr, yerr) := data in
  if plotly then
    plotlying._master_plot bootstrap_statistic x_data y_data None title
      (Some xerr) (Some yerr) None None
      method_name_x method_name_y target_name "ΔΔG" true true ["RMSE"; "MUE"] filename
  else
    _master_plot bootstrap_statistic x_data y_data title (Some xerr) (Some yerr)
      method_name_y target_name "$\Delta \Delta$ G" true true ["RMSE"; "MUE"] filename.

End Plots.
End plotting.

(** ** Properties of runs *)

Section RunProperties.
Context {S R A : Type}.

(** Every call of the run satisfies [P]. *)
Definition trace_all (P : event -> Prop) (m : M S R A) : Prop :=
  forall w, Forall P (trace_of (m w)).

(** The run leaves the caller's data source as it found it. *)
Definition preserves_source (m : M S R A) : Prop :=
  forall w, w_source (world_of (m w)) = w_source w.

(** The run displays or writes [E] when it returns, and nothing when it
    raises. *)
Definition exports (E : list event) (m : M S R A) : Prop :=
  forall w,
    filter (fun ev => is_export ev = true) (trace_of (m w)) =
    match outcome_of (m w) with
    | Return _ => E
    | Raise _ => []
    end.

(** An exception raised by the estimator is the exception of the run. *)
Definition propagates (m : M S R A) : Prop :=
  forall w x y xerr yerr statistic e,
    In (stats_bootstrap_statistic x y xerr yerr statistic (Raise e)) (trace_of (m w)) ->
    outcome_of (m w) = Raise e.

End RunProperties.

(** ** What the claims speak of *)

(** The call that ends a plotly plotting function: the figure is shown, or
    written as HTML when [".html"] is found in the file name at an index
    above zero, or written as an image. *)
Definition plotly_export (filename : option string) : event :=
  match filename with
  | None => fig_show
  | Some f =>
    if 0 <? str_find f ".html" then fig_write_html f else fig_write_image f
  end.

(** The call that ends the pyplot plotting function. *)
Definition plotting_export (filename : option string) : event :=
  match filename with
  | None => plt_show
  | Some f => plt_savefig f
  end.

(** The uncertainty sequences a call of the estimator is handed. *)
Definition uncertainties_passed (ev : event) : list (option (list float) * option (list float)) :=
  match ev with
  | stats_bootstrap_statistic _ _ xerr yerr _ _ => [(xerr, yerr)]
  | _ => []
  end.

(** [ev], if it is a call of the estimator, is made on [x] and [y] with the
    uncertainties [xerr] and [yerr]. *)
Definition estimator_called_with (x y : list float) (xerr yerr : option (list float))
  (ev : event) : Prop :=
  match ev with
  | stats_bootstrap_statistic x' y' xerr' yerr' _ _ =>
    x' = x /\ y' = y /\ xerr' = xerr /\ yerr' = yerr
  | _ => True
  end.

(** The extension of a file name, as [os.path.splitext] gives it: what
    stands from the last dot of the last path component on, unless only dots
    come before it there. *)
Fixpoint split_at_dot (reversed ext : list ascii) : option (list ascii * list ascii) :=
  match reversed with
  | [] => None
  | c :: rest =>
    if Ascii.eqb c "/" then None
    else if Ascii.eqb c "." then Some (rest, c :: ext)
    else split_at_dot rest (c :: ext)
  end.

Fixpoint has_stem (reversed : list ascii) : bool :=
  match reversed with
  | [] => false
  | c :: rest =>
    if Ascii.eqb c "/" then false
    else if Ascii.eqb c "." then has_stem rest
    else true
  end.

Definition filename_extension (filename : string) : string :=
  match split_at_dot (rev (list_ascii_of_string filename)) [] with
  | Some (stem, ext) => if has_stem stem then string_of_list_ascii ext else ""
  | None => ""
  end.

(** [sub] occurs in [s]. *)
Definition occurs (sub s : string) : Prop :=
  exists pre post, s = pre +:+ sub +:+ post.

(** [ev], if it is a call that carries the plotted points (the estimator,
    pyplot's error bars and scatter, plotly's trace of markers), carries [x]
    and [y]. *)
Definition carries_data (x y : list float) (ev : event) : Prop :=
  match ev with
  | stats_bootstrap_statistic x' y' _ _ _ _ => x' = x /\ y' = y
  | plt_errorbar x' y' _ _ => x' = x /\ y' = y
  | plt_scatter x' y' _ => x' = x /\ y' = y
  | fig_add_trace t => sc_mode t = "markers" -> sc_x t = x /\ sc_y t = y
  | _ => True
  end.

(** [ev], if it is the call that draws the points, draws them with the error
    bars [xerr] and [yerr]. *)
Definition carries_error_bars (xerr yerr : option (list float)) (ev : event) : Prop :=
  match ev with
  | plt_errorbar _ _ xerr' yerr' => xerr' = xerr /\ yerr' = yerr
  | fig_add_trace t => sc_mode t = "markers" -> sc_error_x t = xerr /\ sc_error_y t = yerr
  | _ => True
  end.

(** The points [x], [y] are drawn with the error bars [xerr], [yerr] in the
    trace [t]: by the error bars and the scatter of pyplot, or by plotly's
    trace of markers. *)
Definition draws (plotly : bool) (x y : list float) (xerr yerr : option (list float))
  (t : list event) : Prop :=
  if plotly then
    exists markers,
      In (fig_add_trace markers) t /\ sc_mode markers = "markers" /\
      sc_x markers = x /\ sc_y markers = y /\
      sc_error_x markers = xerr /\ sc_error_y markers = yerr
  else
    In (plt_errorbar x y xerr yerr) t /\ exists clr, In (plt_scatter x y clr) t.

(** The data and the statistic of a call of the estimator. *)
Definition scored (ev : event) : list (list float * list float * string) :=
  match ev with
  | stats_bootstrap_statistic x y _ _ statistic _ => [(x, y, statistic)]
  | _ => []
  end.

(** The run with the outcome [o] and the trace [t] plots and scores the
    points [x], [y] with the error bars [xerr], [yerr]:
    - every call that carries points or error bars carries these;
    - with plotly the points are drawn whenever there are any, whatever
      follows;
    - with either backend a run that returns has drawn them, and has asked the
      estimator for each of the [statistics], in order, of these points. *)
Definition plots_and_scores {A : Type} (plotly : bool) (x y : list float)
  (xerr yerr : option (list float)) (statistics : list string)
  (o : outcome A) (t : list event) : Prop :=
  Forall (fun ev => carries_data x y ev /\ carries_error_bars xerr yerr ev) t /\
  (plotly = true -> x <> [] -> y <> [] -> draws true x y xerr yerr t) /\
  (forall a, o = Return a ->
     draws plotly x y xerr yerr t /\
     flat_map scored t = map (fun statistic => (x, y, statistic)) statistics).

(** A plotted point with its error bars, and the points of four parallel
    sequences. *)
Definition point : Type := float * float * float * float.

Definition points (data : list float * list float * list float * list float) : list point :=
  let '(x_data, y_data, xerr, yerr) := data in
  zip (zip (zip x_data y_data) xerr) yerr.

Definition negate (p : point) : point :=
  let '(x, y, ex, ey) := p in ((- x)%float, (- y)%float, ex, ey).

(** The point of [plot_all_DDGs] for the nodes [a] and [b]: the differences
    of their free energies, with the uncertainties added in quadrature. *)
Definition pair_point (float_power : float -> float -> float)
  (x_abs y_abs xabserr yabserr : list float) (ab : nat * nat) : point :=
  let value (l : list float) (i : nat) : float := nth i l 0%float in
  let quadrature (l : list float) : float :=
    float_power (float_power (value l (fst ab)) 2 + float_power (value l (snd ab)) 2)%float
                0.5%float in
  ((value x_abs (fst ab) - value x_abs (snd ab))%float,
   (value y_abs (fst ab) - value y_abs (snd ab))%float,
   quadrature xabserr, quadrature yabserr).




(** The title a call sets on the figure, and what a call of the estimator
    answered for which statistic. *)
Definition figure_title (ev : event) : list string :=
  match ev with
  | plt_title label => [label]
  | fig_update_layout title _ _ _ _ _ _ => [title]
  | _ => []
  end.


(** The calls of the estimator on [x] and [y], one for each statistic, that
    were answered by [results]. *)
Definition answered_calls (x y : list float) (xerr yerr : option (list float))
  (statistics : list string) (results : list stat_result) : list event :=
  zip_with (fun statistic s => stats_bootstrap_statistic x y xerr yerr statistic (Return s))
           statistics results.

(** ** A worked instance *)

(** The estimator of [stats] with four resamples, a world around a data
    source, and a stand-in for the power operator [**] in the worked
    instances: the square as a product and the square root, which is what
    [**] gives at the values used there (the C function behind numpy's [**]
    can differ from them in the last place at other values; the plotting
    functions take the operator as a parameter). *)
Definition demo_estimator : estimator N :=
  stats.bootstrap_statistic stats.lcg stats.lcg_normal stats.nearest_rank 4.

Definition demo_power (v e : float) : float :=
  if (e =? 2)%float then (v * v)%float
  else if (e =? 0.5)%float then PrimFloat.sqrt v
  else nan.

Definition demo_world {S : Type} (s : S) : world S N := {| w_source := s; w_rng := 7%N |}.

Definition demo_results : list DDG_result :=
  [ {| exp_DDG := 1.0; calc_DDG := 1.5; dexp_DDG := 0.1; dcalc_DDG := 0.2;
       other_dDDG := 0.3; ligandA := "lig_a"; ligandB := "lig_b" |};
    {| exp_DDG := -2.0; calc_DDG := -1.0; dexp_DDG := 0.1; dcalc_DDG := 0.2;
       other_dDDG := 0.3; ligandA := "lig_b"; ligandB := "lig_c" |} ]%float.

(** A record whose experimental value is missing (NaN). *)
Definition nan_result : DDG_result :=
  {| exp_DDG := nan; calc_DDG := 1.5; dexp_DDG := 0.1; dcalc_DDG := 0.2;
     other_dDDG := 0.3; ligandA := "lig_a"; ligandB := "lig_b" |}.

Definition demo_node (name : string) (f_exp f_calc df_exp df_calc : float) : node float :=
  (name, {[ "f_i_exp" := f_exp; "f_i_calc" := f_calc;
            "df_i_exp" := df_exp; "df_i_calc" := df_calc ]}).

Definition demo_graph : graph float :=
  [ demo_node "lig_a" 0.1 0.3 0.01 0.02;
    demo_node "lig_b" 0.2 0.5 0.01 0.02 ]%float.

Definition demo_graph3 : graph float :=
  [ demo_node "lig_a" 0.1 0.3 0.01 0.02;
    demo_node "lig_b" 0.2 0.5 0.01 0.02;
    demo_node "lig_c" 0.7 0.9 0.03 0.04 ]%float.

(** A data frame of two edges for [plot_bar]. *)
Definition demo_frame : DataFrame :=
  {| df_rows := 2;
     df_numeric := {[ "perses" := [1.5; -1.0]; "dperses" := [0.2; 0.2];
                      "exp" := [1.0; -2.0]; "dexp" := [0.1; 0.1] ]}%float;
     df_labels := {[ "edge" := ["lig_a, lig_b"; "lig_b, lig_c"] ]} |}.

(** ** What the further properties speak of *)

(** The calls with which pyplot's [_master_plot] opens, before it looks at
    the data: the font sizes, the figure and the two axis labels. *)
Definition plotting_preamble (plot_type method_name : string) : list event :=
  [ plt_rcParams "xtick.labelsize" 12; plt_rcParams "ytick.labelsize" 12;
    plt_rcParams "font.size" 12; plt_figure 6 6;
    plt_subplots_adjust 0.2 0.8 0.2 0.8;
    plt_xlabel ("Experimental " +:+ plot_type +:+ " " +:+ plotting.kcal_mol);
    plt_ylabel ("Calculated " +:+ plot_type +:+ " " +:+ method_name +:+ " "
                +:+ plotting.kcal_mol) ]%float.

(** What [min] and [max] say of an empty sequence. *)
Definition empty_min : exn := ValueError "min() arg is an empty sequence".

(** The four attributes the plots of a graph read on every node. *)
Definition node_attributes : list string := ["f_i_exp"; "f_i_calc"; "df_i_exp"; "df_i_calc"].

(** The statistic and the outcome of each call of the estimator. *)
Definition calls_made (ev : event) : list (string * outcome stat_result) :=
  match ev with
  | stats_bootstrap_statistic _ _ _ _ statistic result => [(statistic, result)]
  | _ => []
  end.

(** The node carries the four attributes. *)
Definition has_attributes {F : Type} (nd : node F) : Prop :=
  Forall (fun key => is_Some (snd nd !! key)) node_attributes.
(** Some node of the graph lacks the attribute. *)
Definition lacks {F : Type} (key : string) (g : graph F) : bool :=
  existsb (fun nd => match snd nd !! key with Some _ => false | None => true end) g.
(** The call that ends a plot function, by its backend. *)
Definition backend_export (plotly : bool) (filename : option string) : event :=
  if plotly then plotly_export filename else plotting_export filename.

(** A graph whose two nodes have the same experimental value. *)
Definition flat_graph : graph float :=
  [ demo_node "lig_a" 0.1 0.3 0.01 0.02;
    demo_node "lig_b" 0.1 0.5 0.01 0.02 ]%float.
(** The calls of the estimator follow the list of statistics: one call for
    each statistic, in the order of the list, and none after a call that
    raised. *)
Fixpoint in_order (statistics : list string) (calls : list (string * outcome stat_result))
  {struct calls} : Prop :=
  match calls, statistics with
  | [], _ => True
  | (statistic, Return _) :: calls', st :: statistics' =>
    statistic = st /\ in_order statistics' calls'
  | (statistic, Raise _) :: calls', st :: _ => statistic = st /\ calls' = []
  | _ :: _, [] => False
  end.

Section Polling.
Context {S R A : Type}.

(** The run makes no call of the estimator. *)
Definition calls_nothing (m : M S R A) : Prop :=
  trace_all (fun ev => calls_made ev = []) m.

(** The run goes through the statistics in order, and through all of them
    when it returns. *)
Definition polls (statistics : list string) (m : M S R A) : Prop :=
  forall w,
    let calls := flat_map calls_made (trace_of (m w)) in
    in_order statistics calls /\
    (forall a, outcome_of (m w) = Return a -> length calls = length statistics).

End Polling.
(** The calls that draw the points of the pyplot figure. *)
Definition draws_points (ev : event) : bool :=
  match ev with
  | plt_errorbar _ _ _ _ | plt_scatter _ _ _ => true
  | _ => false
  end.

Section DrawnFirst.
Context {S R A : Type}.

(** Whenever the run calls the estimator, it has made a call that
    satisfies [P]. *)
Definition calls_after (P : event -> Prop) (m : M S R A) : Prop :=
  forall w, flat_map calls_made (trace_of (m w)) <> [] -> Exists P (trace_of (m w)).

(** A run that returns has made a call that satisfies [P]. *)
Definition returns_after (P : event -> Prop) (m : M S R A) : Prop :=
  forall w a, outcome_of (m w) = Return a -> Exists P (trace_of (m w)).

End DrawnFirst.
(** The title of the figure up to the lines of the statistics, by backend:
    the title given, the name of the target and the number of points. *)
Definition title_with_count (plotly : bool) (title target_name : string) (n : nat)
  (statistics_string : string) : string :=
  if plotly then
    title +:+ "<br>" +:+ target_name +:+ " (N = " +:+ str_of_nat n +:+ ")<br>"
    +:+ statistics_string
  else
    title +:+ " " +:+ nl +:+ " " +:+ target_name +:+ " (N = " +:+ str_of_nat n +:+ ") "
    +:+ nl +:+ " " +:+ statistics_string.

Section Titles.
Context {S R A : Type}.

(** The run sets no title. *)
Definition sets_no_title (m : M S R A) : Prop :=
  trace_all (fun ev => figure_title ev = []) m.

(** A run that returns has set the title once, to a title that satisfies
    [P]. *)
Definition sets_title (P : string -> Prop) (m : M S R A) : Prop :=
  forall w a w' t,
    m w = (Return a, w', t) -> exists T, flat_map figure_title t = [T] /\ P T.

End Titles.
(** A call that neither draws the points, nor asks the estimator, nor shows
    or writes the figure. *)
Definition idle (ev : event) : Prop :=
  draws_points ev = false /\ calls_made ev = [] /\ is_export ev = false.

(** The run fails with a [ValueError] before the points are drawn. *)
Definition fails_undrawn {A : Type} (run : outcome A * list event) : Prop :=
  (exists msg, fst run = Raise (ValueError msg)) /\ Forall idle (snd run).
(** The bars and the markers a call adds to the figure of [plot_bar]. *)
Definition bar_of (ev : event) : list (list float * list string * list float * string) :=
  match ev with
  | fig_add_bar x y error_x name => [(x, y, error_x, name)]
  | _ => []
  end.

Definition marker_of (ev : event) : list (list float * list string * string) :=
  match ev with
  | fig_add_markers x y name _ => [(x, y, name)]
  | _ => []
  end.

(** The bar of a pair of columns: the values of the first along x, the
    labels of [name_col] along y, the values of the second as error bars,
    under the name of the first. *)
Definition bar_drawn (df : DataFrame) (name_col : string) (cols : string * string)
  (bar : list float * list string * list float * string) : Prop :=
  let '(x, y, error_x, name) := bar in
  df_col df (fst cols) = Return x /\ df_label df name_col = Return y /\
  df_col df (snd cols) = Return error_x /\ name = fst cols.

(** * Proofs *)

(** ** The monad *)

Section MonadFacts.
Context {S R : Type}.

Lemma run_bind {A B : Type} (m : M S R A) (k : A -> M S R B) (w : world S R) :
  bind m k w =
  match m w with
  | (Return a, w1, t1) => let '(o, w2, t2) := k a w1 in (o, w2, t1 ++ t2)
  | (Raise e, w1, t1) => (Raise e, w1, t1)
  end.
Proof. reflexivity. Qed.

(** The three components of the run of a [bind]. *)
Lemma bind_cases {A B : Type} (m : M S R A) (k : A -> M S R B) (w : world S R) :
  (exists a, outcome_of (m w) = Return a /\
     outcome_of (bind m k w) = outcome_of (k a (world_of (m w))) /\
     world_of (bind m k w) = world_of (k a (world_of (m w))) /\
     trace_of (bind m k w) = trace_of (m w) ++ trace_of (k a (world_of (m w)))) \/
  (exists e, outcome_of (m w) = Raise e /\
     outcome_of (bind m k w) = Raise e /\
     world_of (bind m k w) = world_of (m w) /\
     trace_of (bind m k w) = trace_of (m w)).
Proof.
  unfold bind, outcome_of, world_of, trace_of.
  destruct (m w) as [[[a | e] w1] t1]; simpl.
  - left. exists a. destruct (k a w1) as [[o w2] t2]. simpl. auto.
  - right. exists e. auto.
Qed.

Lemma bind_assoc {A B C : Type} (m : M S R A) (f : A -> M S R B) (g : B -> M S R C)
  (w : world S R) :
  bind (bind m f) g w = bind m (fun a => bind (f a) g) w.
Proof.
  unfold bind. destruct (m w) as [[[a | e] w1] t1]; [| reflexivity].
  destruct (f a w1) as [[[b | e] w2] t2]; [| reflexivity].
  destruct (g b w2) as [[o w3] t3]. now rewrite app_assoc.
Qed.

Lemma run_ret_bind {A B : Type} (a : A) (k : A -> M S R B) (w : world S R) :
  bind (ret a) k w = k a w.
Proof. unfold bind, ret. destruct (k a w) as [[o w2] t2]. reflexivity. Qed.

Lemma run_call_bind {B : Type} (est : estimator R) x y xerr yerr statistic
  (k : stat_result -> M S R B) (w : world S R) :
  bind (call_estimator est x y xerr yerr statistic) k w =
  match est x y xerr yerr statistic (w_rng w) with
  | (Return s, r') =>
    let '(o, w2, t2) := k s {| w_source := w_source w; w_rng := r' |} in
    (o, w2, stats_bootstrap_statistic x y xerr yerr statistic (Return s) :: t2)
  | (Raise e, r') =>
    (Raise e, {| w_source := w_source w; w_rng := r' |},
     [stats_bootstrap_statistic x y xerr yerr statistic (Raise e)])
  end.
Proof.
  unfold bind, call_estimator.
  destruct (est x y xerr yerr statistic (w_rng w)) as [[s | e] r']; reflexivity.
Qed.

Section TraceAll.
Variable P : event -> Prop.

Lemma trace_all_ret {A : Type} (a : A) : trace_all P (ret (S := S) (R := R) a).
Proof. intros w. constructor. Qed.

Lemma trace_all_lift {A : Type} (o : outcome A) : trace_all P (lift (S := S) (R := R) o).
Proof. intros w. constructor. Qed.

Lemma trace_all_source : trace_all P (source (S := S) (R := R)).
Proof. intros w. constructor. Qed.

Lemma trace_all_emit (ev : event) : P ev -> trace_all P (emit (S := S) (R := R) ev).
Proof. intros H w. repeat constructor. exact H. Qed.

Lemma trace_all_call (est : estimator R) x y xerr yerr statistic :
  (forall o, P (stats_bootstrap_statistic x y xerr yerr statistic o)) ->
  trace_all P (call_estimator (S := S) est x y xerr yerr statistic).
Proof.
  intros H w. unfold call_estimator, trace_of.
  destruct (est x y xerr yerr statistic (w_rng w)) as [o r']. simpl.
  repeat constructor. apply H.
Qed.

Lemma trace_all_bind {A B : Type} (m : M S R A) (k : A -> M S R B) :
  trace_all P m -> (forall a, trace_all P (k a)) -> trace_all P (bind m k).
Proof.
  intros Hm Hk w.
  destruct (bind_cases m k w) as [(a & _ & _ & _ & ->) | (e & _ & _ & _ & ->)].
  - apply Forall_app. split; [apply Hm | apply Hk].
  - apply Hm.
Qed.

Lemma trace_all_mfor {A B : Type} (l : list A) (body : A -> B -> M S R B) (acc : B) :
  (forall a b, trace_all P (body a b)) -> trace_all P (mfor l body acc).
Proof.
  intros Hbody. revert acc.
  induction l as [| a l IH]; intros acc; simpl.
  - apply trace_all_ret.
  - apply trace_all_bind; [apply Hbody | exact IH].
Qed.

Lemma trace_all_when (b : bool) (m : M S R unit) :
  trace_all P m -> trace_all P (when b m).
Proof. intros H. destruct b; simpl; [exact H | apply trace_all_ret]. Qed.

End TraceAll.

Lemma preserves_ret {A : Type} (a : A) : preserves_source (ret (S := S) (R := R) a).
Proof. intros w. reflexivity. Qed.

Lemma preserves_lift {A : Type} (o : outcome A) : preserves_source (lift (S := S) (R := R) o).
Proof. intros w. reflexivity. Qed.

Lemma preserves_emit (ev : event) : preserves_source (emit (S := S) (R := R) ev).
Proof. intros w. reflexivity. Qed.

Lemma preserves_read : preserves_source (source (S := S) (R := R)).
Proof. intros w. reflexivity. Qed.

Lemma preserves_call (est : estimator R) x y xerr yerr statistic :
  preserves_source (call_estimator (S := S) est x y xerr yerr statistic).
Proof.
  intros w. unfold call_estimator, world_of.
  destruct (est x y xerr yerr statistic (w_rng w)) as [o r']. reflexivity.
Qed.

Lemma preserves_bind {A B : Type} (m : M S R A) (k : A -> M S R B) :
  preserves_source m -> (forall a, preserves_source (k a)) -> preserves_source (bind m k).
Proof.
  intros Hm Hk w.
  destruct (bind_cases m k w) as [(a & _ & _ & -> & _) | (e & _ & _ & -> & _)].
  - rewrite Hk. apply Hm.
  - apply Hm.
Qed.

Lemma preserves_mfor {A B : Type} (l : list A) (body : A -> B -> M S R B) (acc : B) :
  (forall a b, preserves_source (body a b)) -> preserves_source (mfor l body acc).
Proof.
  intros Hbody. revert acc.
  induction l as [| a l IH]; intros acc; simpl.
  - apply preserves_ret.
  - apply preserves_bind; [apply Hbody | exact IH].
Qed.

Lemma preserves_when (b : bool) (m : M S R unit) :
  preserves_source m -> preserves_source (when b m).
Proof. intros H. destruct b; simpl; [exact H | apply preserves_ret]. Qed.

End MonadFacts.

Section ExportFacts.
Context {S R : Type}.

Lemma exports_quiet_bind {A B : Type} (E : list event) (m : M S R A) (k : A -> M S R B) :
  trace_all (fun ev => is_export ev = false) m ->
  (forall a, exports E (k a)) ->
  exports E (bind m k).
Proof.
  intros Hm Hk w.
  assert (Hq : filter (fun ev => is_export ev = true) (trace_of (m w)) = []).
  { specialize (Hm w). induction Hm as [| ev t Hev _ IH]; [reflexivity |].
    rewrite filter_cons. destruct (decide (is_export ev = true)) as [Ht | _]; [congruence | exact IH]. }
  destruct (bind_cases m k w) as [(a & _ & -> & _ & ->) | (e & _ & -> & _ & ->)].
  - rewrite filter_app, Hq. apply Hk.
  - exact Hq.
Qed.

Lemma exports_emit (ev : event) :
  is_export ev = true -> exports [ev] (emit (S := S) (R := R) ev).
Proof.
  intros H w. unfold emit, trace_of, outcome_of. simpl.
  rewrite filter_cons. destruct (decide (is_export ev = true)); [reflexivity | contradiction].
Qed.

Lemma propagates_ret {A : Type} (a : A) : propagates (ret (S := S) (R := R) a).
Proof. intros w x y xe ye s e []. Qed.

Lemma propagates_lift {A : Type} (o : outcome A) : propagates (lift (S := S) (R := R) o).
Proof. intros w x y xe ye s e []. Qed.

Lemma propagates_read : propagates (source (S := S) (R := R)).
Proof. intros w x y xe ye s e []. Qed.

Lemma propagates_emit (ev : event) :
  is_estimator_call ev = false -> propagates (emit (S := S) (R := R) ev).
Proof.
  intros H w x y xe ye s e [Heq | []]. subst ev. discriminate H.
Qed.

Lemma propagates_call (est : estimator R) x y xerr yerr statistic :
  propagates (call_estimator (S := S) est x y xerr yerr statistic).
Proof.
  intros w x' y' xe ye s e. unfold call_estimator, trace_of, outcome_of.
  destruct (est x y xerr yerr statistic (w_rng w)) as [o r']. simpl.
  intros [Heq | []]. congruence.
Qed.

Lemma propagates_bind {A B : Type} (m : M S R A) (k : A -> M S R B) :
  propagates m -> (forall a, propagates (k a)) -> propagates (bind m k).
Proof.
  intros Hm Hk w x y xe ye s e.
  destruct (bind_cases m k w) as [(a & Ha & -> & _ & ->) | (e' & He & -> & _ & ->)];
    intros Hin.
  - apply in_app_or in Hin as [Hin | Hin].
    + apply Hm in Hin. congruence.
    + eapply Hk, Hin.
  - apply Hm in Hin. congruence.
Qed.

Lemma propagates_mfor {A B : Type} (l : list A) (body : A -> B -> M S R B) (acc : B) :
  (forall a b, propagates (body a b)) -> propagates (mfor l body acc).
Proof.
  intros Hbody. revert acc.
  induction l as [| a l IH]; intros acc; simpl.
  - apply propagates_ret.
  - apply propagates_bind; [apply Hbody | exact IH].
Qed.

Lemma propagates_when (b : bool) (m : M S R unit) :
  propagates m -> propagates (when b m).
Proof. intros H. destruct b; simpl; [exact H | apply propagates_ret]. Qed.

End ExportFacts.

(** One step through the structure of a plotting function, for each of the
    properties of runs. *)
Ltac trace_all_step :=
  lazymatch goal with
  | |- trace_all _ (bind _ _) => apply trace_all_bind; [| intros ?]
  | |- trace_all _ (emit _) => apply trace_all_emit
  | |- trace_all _ (lift _) => apply trace_all_lift
  | |- trace_all _ (ret _) => apply trace_all_ret
  | |- trace_all _ source => apply trace_all_source
  | |- trace_all _ (when _ _) => apply trace_all_when
  | |- trace_all _ (mfor _ _ _) => apply trace_all_mfor; intros ? ?
  | |- trace_all _ (call_estimator _ _ _ _ _ _) => apply trace_all_call; intros ?
  | |- trace_all _ (match ?x with _ => _ end) => destruct x
  end.

Ltac preserves_step :=
  lazymatch goal with
  | |- preserves_source (bind _ _) => apply preserves_bind; [| intros ?]
  | |- preserves_source (emit _) => apply preserves_emit
  | |- preserves_source (lift _) => apply preserves_lift
  | |- preserves_source (ret _) => apply preserves_ret
  | |- preserves_source source => apply preserves_read
  | |- preserves_source (when _ _) => apply preserves_when
  | |- preserves_source (mfor _ _ _) => apply preserves_mfor; intros ? ?
  | |- preserves_source (call_estimator _ _ _ _ _ _) => apply preserves_call
  | |- preserves_source (match ?x with _ => _ end) => destruct x
  end.

Ltac propagates_step :=
  lazymatch goal with
  | |- propagates (bind _ _) => apply propagates_bind; [| intros ?]
  | |- propagates (emit _) => apply propagates_emit; reflexivity
  | |- propagates (lift _) => apply propagates_lift
  | |- propagates (ret _) => apply propagates_ret
  | |- propagates source => apply propagates_read
  | |- propagates (when _ _) => apply propagates_when
  | |- propagates (mfor _ _ _) => apply propagates_mfor; intros ? ?
  | |- propagates (call_estimator _ _ _ _ _ _) => apply propagates_call
  | |- propagates (match ?x with _ => _ end) => destruct x
  end.

Ltac exports_step :=
  lazymatch goal with
  | |- exports _ (bind _ _) =>
    apply exports_quiet_bind; [repeat trace_all_step; reflexivity | intros ?]
  | |- exports _ (emit _) => apply exports_emit; reflexivity
  | |- exports _ (match ?x with _ => _ end) => destruct x
  end.

(** ** The plotting functions, property by property *)

Section Routines.
Context {R : Type}.
Variable est : estimator R.

Lemma mpl_master_plot_preserves {S : Type} x y title xerr yerr method_name target_name
  plot_type guidelines origins statistics filename :
  preserves_source (plotting._master_plot (S := S) est x y title xerr yerr method_name
                      target_name plot_type guidelines origins statistics filename).
Proof. unfold plotting._master_plot. repeat preserves_step. Qed.

Lemma plotly_master_plot_preserves {S : Type} x y c title xerr yerr names smiles
  method_name_x method_name_y target_name plot_type guidelines origins statistics filename :
  preserves_source (plotlying._master_plot (S := S) est x y c title xerr yerr names smiles
                      method_name_x method_name_y target_name plot_type guidelines origins
                      statistics filename).
Proof. unfold plotlying._master_plot. repeat preserves_step. Qed.

Lemma mpl_master_plot_propagates {S : Type} x y title xerr yerr method_name target_name
  plot_type guidelines origins statistics filename :
  propagates (plotting._master_plot (S := S) est x y title xerr yerr method_name
                target_name plot_type guidelines origins statistics filename).
Proof. unfold plotting._master_plot. repeat propagates_step. Qed.

Lemma plotly_master_plot_propagates {S : Type} x y c title xerr yerr names smiles
  method_name_x method_name_y target_name plot_type guidelines origins statistics filename :
  propagates (plotlying._master_plot (S := S) est x y c title xerr yerr names smiles
                method_name_x method_name_y target_name plot_type guidelines origins
                statistics filename).
Proof. unfold plotlying._master_plot. repeat propagates_step. Qed.

Lemma mpl_master_plot_exports {S : Type} x y title xerr yerr method_name target_name
  plot_type guidelines origins statistics filename :
  exports [plotting_export filename]
    (plotting._master_plot (S := S) est x y title xerr yerr method_name
       target_name plot_type guidelines origins statistics filename).
Proof. unfold plotting._master_plot. repeat exports_step. Qed.

Lemma plotly_master_plot_exports {S : Type} x y c title xerr yerr names smiles
  method_name_x method_name_y target_name plot_type guidelines origins statistics filename :
  exports [plotly_export filename]
    (plotlying._master_plot (S := S) est x y c title xerr yerr names smiles
       method_name_x method_name_y target_name plot_type guidelines origins
       statistics filename).
Proof.
  unfold plotlying._master_plot, plotly_export. repeat exports_step.
Qed.

Lemma plot_bar_exports {S : Type} df ddg_cols error_cols exp_col exp_error_col name_col
  title filename :
  exports [plotly_export filename]
    (plotlying.plot_bar (S := S) (R := R) df ddg_cols error_cols exp_col exp_error_col
       name_col title filename).
Proof.
  unfold plotlying.plot_bar, plotly_export. repeat exports_step.
Qed.

End Routines.

Section Wrappers.
Context {R : Type}.
Variable est : estimator R.
Variable float_power : float -> float -> float.

Lemma plot_DDGs_preserves smiles method_name_x method_name_y target_name title
  map_positive filename symmetrise plotly :
  preserves_source (plotting.plot_DDGs est smiles method_name_x method_name_y target_name
                      title map_positive filename symmetrise plotly).
Proof.
  unfold plotting.plot_DDGs. repeat preserves_step;
    [apply plotly_master_plot_preserves | apply mpl_master_plot_preserves].
Qed.

Lemma plot_DGs_preserves smiles method_name_x method_name_y target_name title filename plotly :
  preserves_source (plotting.plot_DGs est smiles method_name_x method_name_y target_name
                      title filename plotly).
Proof.
  unfold plotting.plot_DGs. repeat preserves_step;
    [apply plotly_master_plot_preserves | apply mpl_master_plot_preserves].
Qed.

Lemma plot_all_DDGs_preserves smiles method_name_x method_name_y target_name title
  filename plotly :
  preserves_source (plotting.plot_all_DDGs est float_power smiles method_name_x method_name_y
                      target_name title filename plotly).
Proof.
  unfold plotting.plot_all_DDGs. repeat preserves_step;
    [apply plotly_master_plot_preserves | apply mpl_master_plot_preserves].
Qed.

End Wrappers.

(** ** C6: the plotting functions leave the caller's data unchanged *)

(** C6.  Whatever its arguments, the estimator and the outcome, a call of
    [plot_DDGs], [plot_DGs] or [plot_all_DDGs] leaves the caller's data source
    (the results list, the graph) as it found it: the arrays it plots are
    built from the records and nothing is written back, so a second call from
    the world the first one left reads the same data. *)
Theorem plot_calls_leave_source_unchanged {R : Type} (est : estimator R)
  (float_power : float -> float -> float) smiles method_name_x method_name_y
  target_name title filename plotly :
  (forall map_positive symmetrise (w : world (list DDG_result) R),
     let w' := world_of (plotting.plot_DDGs est smiles method_name_x method_name_y
                           target_name title map_positive filename symmetrise plotly w) in
     w_source w' = w_source w /\
     outcome_of (source w') = Return (w_source w)) /\
  (forall w : world (graph float) R,
     let w' := world_of (plotting.plot_DGs est smiles method_name_x method_name_y
                           target_name title filename plotly w) in
     w_source w' = w_source w /\
     outcome_of (source w') = Return (w_source w)) /\
  (forall w : world (graph float) R,
     let w' := world_of (plotting.plot_all_DDGs est float_power smiles method_name_x
                           method_name_y target_name title filename plotly w) in
     w_source w' = w_source w /\
     outcome_of (source w') = Return (w_source w)).
Proof.
  assert (Hread : forall (S : Type) (w w' : world S R),
             w_source w' = w_source w ->
             w_source w' = w_source w /\ outcome_of (source w') = Return (w_source w)).
  { intros S w w' Heq. split; [exact Heq |]. unfold source, outcome_of. simpl. now rewrite Heq. }
  split; [| split]; intros; apply Hread.
  - apply plot_DDGs_preserves.
  - apply plot_DGs_preserves.
  - apply plot_all_DDGs_preserves.
Qed.

(** ** C4: an error of the estimator ends the plot *)

Lemma no_export_Forall (t : list event) :
  filter (fun ev => is_export ev = true) t = [] ->
  Forall (fun ev => is_export ev = false) t.
Proof.
  induction t as [| ev t IH]; intros H; [constructor |].
  rewrite filter_cons in H.
  destruct (decide (is_export ev = true)) as [Ht | Hf]; [discriminate H |].
  constructor; [| exact (IH H)].
  destruct (is_export ev); [contradiction | reflexivity].
Qed.

(** A run that raises has displayed and written nothing. *)
Lemma raise_exports_nothing {S R A : Type} (E : list event) (m : M S R A) (w : world S R) (e : exn) :
  exports E m -> outcome_of (m w) = Raise e ->
  Forall (fun ev => is_export ev = false) (trace_of (m w)).
Proof.
  intros HE Hout. apply no_export_Forall. rewrite (HE w), Hout. reflexivity.
Qed.

(** C4.  In either backend's [_master_plot]: when a call of the estimator
    raises [e], for whichever statistic, the plotting routine raises [e]
    itself (it returns nothing), and its trace holds no call that displays
    the figure or writes a file. *)
Theorem estimator_error_ends_plot {S R : Type} (est : estimator R) :
  (forall x y title xerr yerr method_name target_name plot_type guidelines origins
          statistics filename (w : world S R) x' y' xerr' yerr' statistic e,
     let run := plotting._master_plot est x y title xerr yerr method_name target_name
                  plot_type guidelines origins statistics filename w in
     In (stats_bootstrap_statistic x' y' xerr' yerr' statistic (Raise e)) (trace_of run) ->
     outcome_of run = Raise e /\
     Forall (fun ev => is_export ev = false) (trace_of run)) /\
  (forall x y c title xerr yerr names smiles method_name_x method_name_y target_name
          plot_type guidelines origins statistics filename (w : world S R)
          x' y' xerr' yerr' statistic e,
     let run := plotlying._master_plot est x y c title xerr yerr names smiles
                  method_name_x method_name_y target_name plot_type guidelines origins
                  statistics filename w in
     In (stats_bootstrap_statistic x' y' xerr' yerr' statistic (Raise e)) (trace_of run) ->
     outcome_of run = Raise e /\
     Forall (fun ev => is_export ev = false) (trace_of run)).
Proof.
  split; intros; subst run.
  - assert (Hout := mpl_master_plot_propagates est _ _ _ _ _ _ _ _ _ _ _ _ _ _ _ _ _ _ _ H).
    split; [exact Hout |].
    eapply raise_exports_nothing; [apply mpl_master_plot_exports | exact Hout].
  - assert (Hout := plotly_master_plot_propagates est _ _ _ _ _ _ _ _ _ _ _ _ _ _ _ _ _ _ _ _ _ _ _ H).
    split; [exact Hout |].
    eapply raise_exports_nothing; [apply plotly_master_plot_exports | exact Hout].
Qed.

(** On two identical experimental values the estimator refuses R2; the plot
    of either backend stops there. *)
Lemma estimator_error_ends_plot_witness :
  let x := [1; 1]%float in
  let y := [1.5; 2]%float in
  let stat_error := stats_bootstrap_statistic x y None None "R2" (Raise UndefinedStatistic) in
  let run := plotlying._master_plot demo_estimator x y None "" None None None None
               "Experimental" "" "" "" true true ["RMSE"; "R2"] (Some "fig.html")
               (demo_world tt) in
  In stat_error (trace_of run) /\
  outcome_of run = Raise UndefinedStatistic /\
  Forall (fun ev => is_export ev = false) (trace_of run).
Proof.
  intros x y stat_error run.
  assert (Hin : In stat_error (trace_of run)).
  { vm_compute. do 8 right. left. reflexivity. }
  split; [exact Hin |].
  exact (proj2 (estimator_error_ends_plot demo_estimator) x y None "" None None None None
           "Experimental" "" "" "" true true ["RMSE"; "R2"] (Some "fig.html")
           (demo_world tt) x y None None "R2" UndefinedStatistic Hin).
Defined.

(** ** C1: the uncertainties and the estimator *)

(** pyplot's [_master_plot] hands the estimator the uncertainties it was
    given, in every call. *)
Lemma mpl_master_plot_passes_uncertainties {S R : Type} (est : estimator R)
  x y title xerr yerr method_name target_name plot_type guidelines origins statistics filename :
  trace_all (estimator_called_with x y xerr yerr)
    (plotting._master_plot (S := S) est x y title xerr yerr method_name target_name
       plot_type guidelines origins statistics filename).
Proof.
  unfold plotting._master_plot. repeat trace_all_step; simpl; auto.
Qed.

(** plotly's [_master_plot] never does: whatever [xerr] and [yerr] it holds,
    it calls the estimator with none. *)
Lemma plotly_master_plot_drops_uncertainties {S R : Type} (est : estimator R)
  x y c title xerr yerr names smiles method_name_x method_name_y target_name plot_type
  guidelines origins statistics filename :
  trace_all (estimator_called_with x y None None)
    (plotlying._master_plot (S := S) est x y c title xerr yerr names smiles method_name_x
       method_name_y target_name plot_type guidelines origins statistics filename).
Proof.
  unfold plotlying._master_plot. repeat trace_all_step; simpl; auto.
Qed.

(** C1, on the code.  The same results plotted through [plot_DDGs], which
    holds the arrays [xerr] and [yerr] of the records: with [plotly=False]
    each of the two calls of the estimator is handed them; with
    [plotly=True] each call is made with [None] for both, so the interval
    ignores the measurement noise. *)
Theorem plotly_estimator_calls_lack_uncertainties :
  let xerr := map dexp_DDG demo_results in
  let yerr := map dcalc_DDG demo_results in
  let run plotly := plotting.plot_DDGs demo_estimator None "Experimental" "" "" ""
                      false None false plotly (demo_world demo_results) in
  flat_map uncertainties_passed (trace_of (run false)) =
    [(Some xerr, Some yerr); (Some xerr, Some yerr)] /\
  flat_map uncertainties_passed (trace_of (run true)) =
    [(None, None); (None, None)].
Proof.
  split; vm_compute; reflexivity.
Qed.

(** ** C2: which file names plotly writes as HTML *)

Section Find.
Local Open Scope Z_scope.

Lemma prefix_append (sub post : string) : String.prefix sub (sub +:+ post) = true.
Proof.
  induction sub as [| c sub IH]; simpl; [now destruct post |].
  destruct (Ascii.ascii_dec c c) as [_ | Hne]; [exact IH | contradiction].
Qed.

Lemma prefix_split (sub s : string) :
  String.prefix sub s = true -> exists post, s = sub +:+ post.
Proof.
  revert s. induction sub as [| c sub IH]; intros s H.
  - exists s. reflexivity.
  - destruct s as [| c' s]; [discriminate |]. simpl in H.
    destruct (Ascii.ascii_dec c c') as [Heq | _]; [subst c' | discriminate].
    destruct (IH s H) as [post ->]. exists post. reflexivity.
Qed.

Lemma find_from_prefix (sub s : string) (i : Z) :
  String.prefix sub s = true -> find_from sub s i = i.
Proof. intros H. destruct s; cbn [find_from]; rewrite H; reflexivity. Qed.

Lemma find_from_next (sub : string) (c : ascii) (s : string) (i : Z) :
  String.prefix sub (String c s) = false ->
  find_from sub (String c s) i = find_from sub s (i + 1).
Proof. intros H. cbn [find_from]. rewrite H. reflexivity. Qed.

(** An occurrence is found, at or after the start and no later than where it
    stands. *)
Lemma find_from_occurrence (sub pre post : string) (i : Z) :
  i <= find_from sub (pre +:+ sub +:+ post) i <= i + Z.of_nat (String.length pre).
Proof.
  revert i. induction pre as [| c pre IH]; intros i.
  - change ("" +:+ sub +:+ post) with (sub +:+ post).
    rewrite find_from_prefix by apply prefix_append. simpl. lia.
  - change (String c pre +:+ sub +:+ post) with (String c (pre +:+ sub +:+ post)).
    destruct (String.prefix sub (String c (pre +:+ sub +:+ post))) eqn:Hp.
    + rewrite find_from_prefix by exact Hp. simpl String.length. lia.
    + rewrite find_from_next by exact Hp.
      specialize (IH (i + 1)). simpl String.length. lia.
Qed.

(** Without an occurrence nothing is found. *)
Lemma find_from_absent (sub s : string) (i : Z) :
  ~ occurs sub s -> find_from sub s i = -1.
Proof.
  revert i. induction s as [| c s IH]; intros i Hno.
  - cbn [find_from]. destruct (String.prefix sub "") eqn:Hp; [| reflexivity].
    destruct Hno. destruct (prefix_split _ _ Hp) as [post Hs].
    exists "", post. exact Hs.
  - destruct (String.prefix sub (String c s)) eqn:Hp.
    + destruct Hno. destruct (prefix_split _ _ Hp) as [post Hs].
      exists "", post. exact Hs.
    + rewrite find_from_next by exact Hp. apply IH.
      intros (pre & post & ->). apply Hno. exists (String c pre), post. reflexivity.
Qed.

End Find.

(** A run that returns has displayed or written what its last step says. *)
Lemma return_exports {S R A : Type} (E : list event) (m : M S R A) (w : world S R) (a : A) :
  exports E m -> outcome_of (m w) = Return a ->
  filter (fun ev => is_export ev = true) (trace_of (m w)) = E.
Proof. intros HE Hout. rewrite (HE w), Hout. reflexivity. Qed.

(** C2 fails as stated.  The extension of ["plot.html.png"] is [".png"], and
    both plotly plotting functions write that file with [write_html], not as
    a static image: [".html"] is looked for anywhere in the name. *)
Lemma html_inside_the_name_counterexample :
  let filename := "plot.html.png" in
  filename_extension filename = ".png" /\
  filter (fun ev => is_export ev = true)
    (trace_of (plotlying._master_plot demo_estimator [0; 1]%float [0; 1.5]%float None ""
                 None None None None "Experimental" "" "" "" true true ["RMSE"; "MUE"]
                 (Some filename) (demo_world tt))) = [fig_write_html filename] /\
  filter (fun ev => is_export ev = true)
    (trace_of (plotlying.plot_bar demo_frame ["perses"] ["dperses"] (Some "exp") "dexp"
                 "edge" "" (Some filename) (demo_world tt))) = [fig_write_html filename].
Proof.
  repeat split; vm_compute; reflexivity.
Qed.

(** C2, amended.  A call of plotly's [_master_plot] or of [plot_bar] that
    returns has made exactly one call that displays or writes, the one
    [plotly_export] names: [show] without a file name; [write_html] when
    [".html"] occurs in the name and the name does not begin with it (so for
    every name that ends in [".html"] after something else, but also for
    ["plot.html.png"]); [write_image] when the name begins with [".html"] or
    does not contain it. *)
Theorem plotly_export_follows_html_substring {S R : Type} (est : estimator R) :
  (forall x y c title xerr yerr names smiles method_name_x method_name_y target_name
          plot_type guidelines origins statistics filename (w : world S R),
     let run := plotlying._master_plot est x y c title xerr yerr names smiles
                  method_name_x method_name_y target_name plot_type guidelines origins
                  statistics filename w in
     outcome_of run = Return tt ->
     filter (fun ev => is_export ev = true) (trace_of run) = [plotly_export filename]) /\
  (forall df ddg_cols error_cols exp_col exp_error_col name_col title filename
          (w : world S R),
     let run := plotlying.plot_bar df ddg_cols error_cols exp_col exp_error_col name_col
                  title filename w in
     outcome_of run = Return tt ->
     filter (fun ev => is_export ev = true) (trace_of run) = [plotly_export filename]) /\
  plotly_export None = fig_show /\
  (forall pre post,
     let f := pre +:+ ".html" +:+ post in
     String.prefix ".html" f = false -> plotly_export (Some f) = fig_write_html f) /\
  (forall f, String.prefix ".html" f = true -> plotly_export (Some f) = fig_write_image f) /\
  (forall f, ~ occurs ".html" f -> plotly_export (Some f) = fig_write_image f).
Proof.
  split; [| split; [| split; [| split; [| split]]]].
  - intros. eapply return_exports; [apply plotly_master_plot_exports | eassumption].
  - intros. eapply return_exports; [apply plot_bar_exports | eassumption].
  - reflexivity.
  - intros pre post f Hp. unfold plotly_export, str_find.
    destruct pre as [| c pre].
    + subst f. change ("" +:+ ".html" +:+ post) with (".html" +:+ post) in Hp.
      rewrite prefix_append in Hp. discriminate.
    + subst f. change (String c pre +:+ ".html" +:+ post)
        with (String c (pre +:+ ".html" +:+ post)) in *.
      rewrite find_from_next by exact Hp.
      pose proof (find_from_occurrence ".html" pre post (0 + 1)) as Hfound.
      destruct (Z.ltb_spec 0 (find_from ".html" (pre +:+ ".html" +:+ post) (0 + 1)));
        [reflexivity | lia].
  - intros f Hp. unfold plotly_export, str_find.
    rewrite find_from_prefix by exact Hp. reflexivity.
  - intros f Hno. unfold plotly_export, str_find.
    rewrite find_from_absent by exact Hno. reflexivity.
Qed.

(** A plot written to ["plot.html"]. *)
Lemma plotly_export_follows_html_substring_witness :
  let run := plotlying._master_plot demo_estimator [0; 1]%float [0; 1.5]%float None ""
               None None None None "Experimental" "" "" "" true true ["RMSE"; "MUE"]
               (Some "plot.html") (demo_world tt) in
  outcome_of run = Return tt /\
  filter (fun ev => is_export ev = true) (trace_of run) = [fig_write_html "plot.html"].
Proof.
  intros run.
  assert (Hout : outcome_of run = Return tt) by (vm_compute; reflexivity).
  split; [exact Hout |]. subst run.
  exact (proj1 (plotly_export_follows_html_substring demo_estimator) _ _ _ _ _ _ _ _ _ _ _ _
           _ _ _ _ _ Hout).
Defined.

(** ** C3 and C7: the estimator *)

Section Estimator.
Context {R : Type}.
Variable rand_nat : R -> nat * R.
Variable rand_normal : R -> float * R.
Variable percentile : list float -> float -> float.
Variable n_resamples : nat.





End Estimator.

(** The model of the estimator on the examples the specification gives: one
    pair, perfect agreement, an unknown metric name (refused before anything
    is drawn). *)
Lemma stats_on_the_examples_of_the_spec :
  stats.metric_value stats.RMSE [1]%float [2]%float = Return 1%float /\
  fst (demo_estimator [1]%float [2]%float None None "R2" 7%N) = Raise UndefinedStatistic /\
  stats.metric_value stats.RMSE [0; 1; 2]%float [0; 1; 2]%float = Return 0%float /\
  stats.metric_value stats.MUE [0; 1; 2]%float [0; 1; 2]%float = Return 0%float /\
  stats.metric_value stats.R2 [0; 1; 2]%float [0; 1; 2]%float = Return 1%float /\
  stats.metric_value stats.rho [0; 1; 2]%float [0; 1; 2]%float = Return 1%float /\
  demo_estimator [0; 1; 2]%float [0; 1; 2]%float None None "FOO" 7%N =
    (Raise (UnknownMetric "FOO"), 7%N).
Proof. repeat split; vm_compute; reflexivity. Qed.



(** C7.  When [x] and [y] differ in length the estimator raises
    [ShapeMismatch], whichever metric is asked for (the lengths are checked
    before the metric name is even looked up), whatever the uncertainties,
    and without drawing from the random source. *)
Theorem shape_mismatch_raises {R : Type} (rand_nat : R -> nat * R)
  (rand_normal : R -> float * R) percentile n_resamples x y xerr yerr name r :
  length x <> length y ->
  stats.bootstrap_statistic rand_nat rand_normal percentile n_resamples
    x y xerr yerr name r = (Raise ShapeMismatch, r).
Proof.
  intros Hlen. unfold stats.bootstrap_statistic.
  destruct (length x =? length y)%nat eqn:Heq.
  - apply Nat.eqb_eq in Heq. contradiction.
  - reflexivity.
Qed.

(** x of length 3 and y of length 2, for each of the four metrics. *)
Lemma shape_mismatch_raises_witness :
  Forall (fun name =>
            stats.bootstrap_statistic stats.lcg stats.lcg_normal stats.nearest_rank 1000
              [0; 1; 2]%float [0; 1]%float None None name 7%N = (Raise ShapeMismatch, 7%N))
         stats.supported_metrics.
Proof.
  unfold stats.supported_metrics.
  repeat (apply List.Forall_cons; [apply shape_mismatch_raises; simpl; lia |]).
  apply List.Forall_nil.
Defined.

(** ** Floats *)

Section FloatFacts.
Local Open Scope float_scope.

Lemma float_opp_involutive (v : float) : - - v = v.
Proof.
  apply Prim2SF_inj. rewrite !FloatAxioms.opp_spec.
  destruct (Prim2SF v) as [s | s | | s m e]; simpl; try rewrite negb_involutive; reflexivity.
Qed.

Lemma is_nan_spec (v : float) : is_nan v = false -> Prim2SF v <> S754_nan.
Proof.
  unfold is_nan. rewrite FloatAxioms.eqb_spec. intros H Hnan. rewrite Hnan in H. discriminate H.
Qed.

(** NaN compares below nothing. *)
Lemma nan_not_below_zero (v : float) : is_nan v = true -> (v <? 0) = false.
Proof.
  unfold is_nan. rewrite FloatAxioms.eqb_spec, FloatAxioms.ltb_spec.
  destruct (Prim2SF v) as [s | s | | s m e]; intros Hnan.
  - discriminate Hnan.
  - destruct s; discriminate Hnan.
  - reflexivity.
  - unfold SFeqb, SFcompare in Hnan.
    destruct s; rewrite Z.compare_refl, Pos.compare_refl in Hnan; discriminate Hnan.
Qed.

(** A float that does not compare below zero is zero or above, unless it is
    NaN. *)
Lemma not_below_zero (v : float) :
  (v <? 0) = false -> is_nan v = false -> (0 <=? v) = true.
Proof.
  intros Hlt Hnan. apply is_nan_spec in Hnan.
  rewrite FloatAxioms.ltb_spec in Hlt. rewrite FloatAxioms.leb_spec.
  change (Prim2SF 0) with (S754_zero false) in *.
  destruct (Prim2SF v) as [s | [] | | [] m e]; try reflexivity; try discriminate Hlt.
  contradiction.
Qed.

(** The opposite of a float below zero is above it. *)
Lemma opp_of_negative (v : float) :
  (v <? 0) = true -> (- v <? 0) = false /\ (0 <=? - v) = true.
Proof.
  intros Hlt. rewrite FloatAxioms.ltb_spec in *. rewrite FloatAxioms.leb_spec, FloatAxioms.opp_spec.
  change (Prim2SF 0) with (S754_zero false) in *.
  destruct (Prim2SF v) as [s | [] | | [] m e]; try discriminate Hlt; split; reflexivity.
Qed.

End FloatFacts.

(** ** The calls of the estimator, in order *)

Section CallsInOrder.
Context {S R : Type}.

Lemma calls_nothing_run {A : Type} (m : M S R A) (w : world S R) :
  calls_nothing m -> flat_map calls_made (trace_of (m w)) = [].
Proof.
  intros Hm. specialize (Hm w).
  induction Hm as [| ev t Hev _ IH]; [reflexivity |]. simpl. now rewrite Hev, IH.
Qed.

(** The calls and the outcome of a run of [bind m k], when [m] makes no
    call. *)
Lemma calls_after_quiet {A B : Type} (m : M S R A) (k : A -> M S R B) (w : world S R) :
  calls_nothing m ->
  (flat_map calls_made (trace_of (bind m k w)) = [] /\
   exists e, outcome_of (bind m k w) = Raise e) \/
  exists a w1, flat_map calls_made (trace_of (bind m k w)) =
               flat_map calls_made (trace_of (k a w1)) /\
               outcome_of (bind m k w) = outcome_of (k a w1).
Proof.
  intros Hm. pose proof (calls_nothing_run m w Hm) as Hq.
  destruct (bind_cases m k w) as [(a & _ & -> & _ & ->) | (e & _ & -> & _ & ->)].
  - right. exists a, (world_of (m w)). now rewrite flat_map_app, Hq.
  - left. split; [exact Hq | now exists e].
Qed.

Lemma polls_quiet_bind {A B : Type} statistics (m : M S R A) (k : A -> M S R B) :
  calls_nothing m -> (forall a, polls statistics (k a)) -> polls statistics (bind m k).
Proof.
  intros Hm Hk w. cbv zeta.
  destruct (calls_after_quiet m k w Hm) as [(-> & e & ->) | (a & w1 & -> & ->)].
  - split; [exact I | discriminate].
  - apply Hk.
Qed.

(** The loop over the statistics, whatever it does with the answers, and
    what follows it, as long as that makes no call of the estimator. *)
Lemma polls_loop {B C : Type} (est : estimator R) x y xerr yerr
  (line : string -> B -> stat_result -> B) (k : B -> M S R C) (statistics : list string) :
  (forall acc, calls_nothing (k acc)) ->
  forall acc,
    polls statistics
      (bind (mfor statistics (fun statistic acc =>
               bind (call_estimator est x y xerr yerr statistic) (fun s =>
                 ret (line statistic acc s))) acc) k).
Proof.
  intros Hk. induction statistics as [| st statistics IH]; intros acc w; cbv zeta.
  - cbn [mfor]. rewrite calls_nothing_run; [split; [exact I | reflexivity] |].
    apply trace_all_bind; [apply trace_all_ret | exact Hk].
  - cbn [mfor]. rewrite !bind_assoc, run_call_bind.
    destruct (est x y xerr yerr st (w_rng w)) as [[s | e] r'].
    + rewrite run_ret_bind.
      specialize (IH (line st acc s) {| w_source := w_source w; w_rng := r' |}).
      cbv zeta in IH.
      destruct (bind (mfor statistics _ (line st acc s)) k _) as [[o w2] t2].
      cbn [trace_of outcome_of fst snd app flat_map calls_made length in_order] in *.
      destruct IH as [Horder Hall].
      split; [split; [reflexivity | exact Horder] |].
      intros a Ha. now rewrite (Hall a Ha).
    + cbn. split; [split; reflexivity | discriminate].
Qed.

End CallsInOrder.

Ltac polls_step :=
  lazymatch goal with
  | |- polls _ (bind (mfor _ _ _) _) =>
    apply (polls_loop _ _ _ _ _ (fun statistic acc s => _));
    intros ?; unfold calls_nothing; repeat trace_all_step; reflexivity
  | |- polls _ (bind _ _) =>
    apply polls_quiet_bind;
    [unfold calls_nothing; repeat trace_all_step; reflexivity | intros ?]
  | |- polls _ (match ?x with _ => _ end) => destruct x
  end.

Section PollsRoutines.
Context {R : Type}.
Variable est : estimator R.

Lemma mpl_master_plot_polls {S : Type} x y title xerr yerr method_name target_name
  plot_type guidelines origins statistics filename :
  polls statistics
    (plotting._master_plot (S := S) est x y title xerr yerr method_name target_name
       plot_type guidelines origins statistics filename).
Proof. unfold plotting._master_plot. repeat polls_step. Qed.

Lemma plotly_master_plot_polls {S : Type} x y c title xerr yerr names smiles
  method_name_x method_name_y target_name plot_type guidelines origins statistics filename :
  polls statistics
    (plotlying._master_plot (S := S) est x y c title xerr yerr names smiles method_name_x
       method_name_y target_name plot_type guidelines origins statistics filename).
Proof. unfold plotlying._master_plot. repeat polls_step. Qed.

End PollsRoutines.
Section PollsPlotFunctions.
Context {R : Type}.
Variable est : estimator R.
Variable float_power : float -> float -> float.

Lemma plot_DDGs_polls smiles method_name_x method_name_y target_name title
  map_positive filename symmetrise plotly :
  polls ["RMSE"; "MUE"]
    (plotting.plot_DDGs est smiles method_name_x method_name_y target_name
       title map_positive filename symmetrise plotly).
Proof.
  unfold plotting.plot_DDGs. repeat polls_step;
    [apply plotly_master_plot_polls | apply mpl_master_plot_polls].
Qed.

Lemma plot_DGs_polls smiles method_name_x method_name_y target_name title filename plotly :
  polls ["RMSE"; "MUE"; "R2"; "rho"]
    (plotting.plot_DGs est smiles method_name_x method_name_y target_name
       title filename plotly).
Proof.
  unfold plotting.plot_DGs. repeat polls_step;
    [apply plotly_master_plot_polls | apply mpl_master_plot_polls].
Qed.

Lemma plot_all_DDGs_polls smiles method_name_x method_name_y target_name title
  filename plotly :
  polls ["RMSE"; "MUE"]
    (plotting.plot_all_DDGs est float_power smiles method_name_x method_name_y
       target_name title filename plotly).
Proof.
  unfold plotting.plot_all_DDGs. repeat polls_step;
    [apply plotly_master_plot_polls | apply mpl_master_plot_polls].
Qed.

End PollsPlotFunctions.

(** ** What is plotted *)

Section Drawn.
Context {S R : Type}.

Lemma run_source_bind {B : Type} (k : S -> M S R B) (w : world S R) :
  bind source k w = k (w_source w) w.
Proof. unfold bind, source. destruct (k (w_source w) w) as [[o w2] t2]. reflexivity. Qed.

Lemma run_lift_bind {A B : Type} (a : A) (k : A -> M S R B) (w : world S R) :
  bind (lift (Return a)) k w = k a w.
Proof. unfold bind, lift. destruct (k a w) as [[o w2] t2]. reflexivity. Qed.

Lemma drawn_emit_here {B : Type} (P : event -> Prop) (ev : event) (k : unit -> M S R B)
  (w : world S R) :
  P ev -> Exists P (trace_of (bind (emit ev) k w)).
Proof.
  intros Hev. unfold bind, emit, trace_of. destruct (k tt w) as [[o w2] t2]. simpl.
  now apply List.Exists_cons_hd.
Qed.

Lemma drawn_emit_later {B : Type} (P : event -> Prop) (ev : event) (k : unit -> M S R B)
  (w : world S R) :
  Exists P (trace_of (k tt w)) -> Exists P (trace_of (bind (emit ev) k w)).
Proof.
  unfold bind, emit, trace_of. destruct (k tt w) as [[o w2] t2]. simpl.
  now apply List.Exists_cons_tl.
Qed.

Lemma returns_after_bind {A B : Type} (P : event -> Prop) (m : M S R A) (k : A -> M S R B) :
  (forall a, returns_after P (k a)) -> returns_after P (bind m k).
Proof.
  intros Hk w b Hout.
  destruct (bind_cases m k w) as [(a & _ & Ho & _ & Ht) | (e & _ & Ho & _ & _)];
    rewrite Ho in Hout; [| discriminate].
  rewrite Ht. apply List.Exists_app. right. exact (Hk a _ b Hout).
Qed.

Lemma returns_after_emit {B : Type} (P : event -> Prop) (ev : event) (k : unit -> M S R B) :
  P ev -> returns_after P (bind (emit ev) k).
Proof. intros Hev w b _. now apply drawn_emit_here. Qed.

(** The data the estimator was asked about, from the data every call
    carries. *)
Lemma scored_calls (x y : list float) (t : list event) :
  Forall (carries_data x y) t ->
  flat_map scored t = map (fun call => (x, y, fst call)) (flat_map calls_made t).
Proof.
  induction 1 as [| ev t Hev _ IH]; [reflexivity |].
  cbn [flat_map]. rewrite map_app, IH. f_equal.
  destruct ev; try reflexivity. destruct Hev as [-> ->]. reflexivity.
Qed.

Lemma in_order_names (statistics : list string) (calls : list (string * outcome stat_result)) :
  in_order statistics calls -> length calls = length statistics ->
  map fst calls = statistics.
Proof.
  revert statistics.
  induction calls as [| [st [s | e]] calls IH]; intros [| st' statistics]; simpl;
    try discriminate; try contradiction; auto.
  - intros [-> Horder] [= Hlen]. f_equal. now apply IH.
  - intros [-> ->] [= Hlen]. destruct statistics; [reflexivity | discriminate].
Qed.

End Drawn.

Ltac drawn_step :=
  lazymatch goal with
  | |- Exists _ (trace_of (bind (bind _ _) _ _)) => rewrite bind_assoc
  | |- Exists _ (trace_of (bind (emit _) _ _)) =>
    first [ apply drawn_emit_here; cbv beta;
            solve [reflexivity | eexists; repeat split; reflexivity]
          | apply drawn_emit_later ]
  | |- Exists _ (trace_of (bind (lift (Return _)) _ _)) => rewrite run_lift_bind
  | |- Exists _ (trace_of (bind (ret _) _ _)) => rewrite run_ret_bind
  end.

Ltac returns_after_step :=
  lazymatch goal with
  | |- returns_after _ (bind (emit _) _) =>
    first [ apply returns_after_emit; cbv beta;
            solve [reflexivity | eexists; repeat split; reflexivity]
          | apply returns_after_bind; intros ? ]
  | |- returns_after _ (bind _ _) => apply returns_after_bind; intros ?
  end.

Section DrawnRoutines.
Context {S R : Type}.
Variable est : estimator R.

(** plotly's [_master_plot] adds the trace of markers as soon as there are
    points. *)
Lemma plotly_master_plot_draws_points x y c title xerr yerr names smiles
  method_name_x method_name_y target_name plot_type guidelines origins statistics filename
  (w : world S R) :
  x <> [] -> y <> [] ->
  draws true x y xerr yerr
    (trace_of (plotlying._master_plot est x y c title xerr yerr names smiles method_name_x
                 method_name_y target_name plot_type guidelines origins statistics
                 filename w)).
Proof.
  intros Hx Hy.
  assert (Hdrawn : Exists (fun ev => exists markers,
                             ev = fig_add_trace markers /\ sc_mode markers = "markers" /\
                             sc_x markers = x /\ sc_y markers = y /\
                             sc_error_x markers = xerr /\ sc_error_y markers = yerr)
                     (trace_of (plotlying._master_plot est x y c title xerr yerr names
                                  smiles method_name_x method_name_y target_name plot_type
                                  guidelines origins statistics filename w))).
  { unfold plotlying._master_plot.
    destruct x as [| a x]; [contradiction |]. destruct y as [| b y]; [contradiction |].
    destruct origins, guidelines; cbn [py_min py_max when]; repeat drawn_step. }
  apply List.Exists_exists in Hdrawn as (ev & Hin & markers & -> & Hmarkers).
  exists markers. split; [exact Hin | exact Hmarkers].
Qed.

(** A run of pyplot's [_master_plot] that returns has drawn the error bars
    and the scatter. *)
Lemma mpl_master_plot_draws_points x y title xerr yerr method_name target_name
  plot_type guidelines origins statistics filename (w : world S R) a :
  let run := plotting._master_plot est x y title xerr yerr method_name target_name
               plot_type guidelines origins statistics filename w in
  outcome_of run = Return a -> draws false x y xerr yerr (trace_of run).
Proof.
  intros run Hout. subst run. split.
  - assert (Hbars : returns_after (S := S) (eq (plt_errorbar x y xerr yerr))
              (plotting._master_plot est x y title xerr yerr method_name target_name
                 plot_type guidelines origins statistics filename)).
    { unfold plotting._master_plot. repeat returns_after_step. }
    pose proof (Hbars w a Hout) as Hex; apply List.Exists_exists in Hex as (ev & Hin & <-). exact Hin.
  - assert (Hscatter : returns_after (S := S) (fun ev => exists clr, plt_scatter x y clr = ev)
              (plotting._master_plot est x y title xerr yerr method_name target_name
                 plot_type guidelines origins statistics filename)).
    { unfold plotting._master_plot. repeat returns_after_step. }
    pose proof (Hscatter w a Hout) as Hex; apply List.Exists_exists in Hex as (ev & Hin & clr & <-).
    now exists clr.
Qed.

Lemma plotly_master_plot_returns_drawn x y c title xerr yerr names smiles
  method_name_x method_name_y target_name plot_type guidelines origins statistics filename
  (w : world S R) a :
  let run := plotlying._master_plot est x y c title xerr yerr names smiles method_name_x
               method_name_y target_name plot_type guidelines origins statistics
               filename w in
  outcome_of run = Return a -> draws true x y xerr yerr (trace_of run).
Proof.
  intros run Hout. subst run.
  assert (Hdrawn : returns_after (S := S)
            (fun ev => exists markers,
               fig_add_trace markers = ev /\ sc_mode markers = "markers" /\
               sc_x markers = x /\ sc_y markers = y /\
               sc_error_x markers = xerr /\ sc_error_y markers = yerr)
            (plotlying._master_plot est x y c title xerr yerr names smiles method_name_x
               method_name_y target_name plot_type guidelines origins statistics
               filename)).
  { unfold plotlying._master_plot. repeat returns_after_step. }
  pose proof (Hdrawn w a Hout) as Hex; apply List.Exists_exists in Hex as (ev & Hin & markers & <- & Hmarkers).
  exists markers. split; [exact Hin | exact Hmarkers].
Qed.

(** Either [_master_plot] plots and scores the points it is given. *)
Lemma mpl_master_plot_plots_and_scores x y title xerr yerr method_name target_name
  plot_type guidelines origins statistics filename (w : world S R) :
  let run := plotting._master_plot est x y title xerr yerr method_name target_name
               plot_type guidelines origins statistics filename w in
  plots_and_scores false x y xerr yerr statistics (outcome_of run) (trace_of run).
Proof.
  intros run. subst run.
  assert (Hcarries : trace_all (S := S)
            (fun ev => carries_data x y ev /\ carries_error_bars xerr yerr ev)
            (plotting._master_plot est x y title xerr yerr method_name target_name
               plot_type guidelines origins statistics filename)).
  { unfold plotting._master_plot. repeat trace_all_step; simpl; repeat split; auto. }
  split; [apply Hcarries |]. split; [discriminate |].
  intros a Hout. split; [now apply mpl_master_plot_draws_points with (a := a) |].
  rewrite (scored_calls x y).
  - destruct (mpl_master_plot_polls est (S := S) x y title xerr yerr method_name
                target_name plot_type guidelines origins statistics filename w)
      as [Horder Hall].
    pose proof (in_order_names _ _ Horder (Hall a Hout)) as Hnames. revert Hnames.
    generalize (flat_map calls_made
                  (trace_of (plotting._master_plot est x y title xerr yerr method_name
                               target_name plot_type guidelines origins statistics
                               filename w))).
    intros calls <-. now rewrite map_map.
  - eapply List.Forall_impl; [| apply Hcarries]. now intros ev [Hev _].
Qed.

Lemma plotly_master_plot_plots_and_scores x y c title xerr yerr names smiles
  method_name_x method_name_y target_name plot_type guidelines origins statistics filename
  (w : world S R) :
  let run := plotlying._master_plot est x y c title xerr yerr names smiles method_name_x
               method_name_y target_name plot_type guidelines origins statistics
               filename w in
  plots_and_scores true x y xerr yerr statistics (outcome_of run) (trace_of run).
Proof.
  intros run. subst run.
  assert (Hcarries : trace_all (S := S)
            (fun ev => carries_data x y ev /\ carries_error_bars xerr yerr ev)
            (plotlying._master_plot est x y c title xerr yerr names smiles method_name_x
               method_name_y target_name plot_type guidelines origins statistics
               filename)).
  { unfold plotlying._master_plot.
    repeat trace_all_step; simpl; repeat split; auto; discriminate. }
  split; [apply Hcarries |]. split; [intros _; apply plotly_master_plot_draws_points |].
  intros a Hout. split; [now apply plotly_master_plot_returns_drawn with (a := a) |].
  rewrite (scored_calls x y).
  - destruct (plotly_master_plot_polls est (S := S) x y c title xerr yerr names smiles
                method_name_x method_name_y target_name plot_type guidelines origins
                statistics filename w) as [Horder Hall].
    pose proof (in_order_names _ _ Horder (Hall a Hout)) as Hnames. revert Hnames.
    generalize (flat_map calls_made
                  (trace_of (plotlying._master_plot est x y c title xerr yerr names smiles
                               method_name_x method_name_y target_name plot_type
                               guidelines origins statistics filename w))).
    intros calls <-. now rewrite map_map.
  - eapply List.Forall_impl; [| apply Hcarries]. now intros ev [Hev _].
Qed.

End DrawnRoutines.

Section DrawnByPlots.
Context {R : Type}.
Variable est : estimator R.
Variable float_power : float -> float -> float.

(** [plot_DDGs] plots and scores the data of its first block, with the
    uncertainties of the results as error bars. *)
Lemma plot_DDGs_plots_and_scores smiles method_name_x method_name_y target_name title
  map_positive filename symmetrise plotly (w : world (list DDG_result) R) :
  let data := plotting.plot_DDGs_data (w_source w) map_positive symmetrise in
  let run := plotting.plot_DDGs est smiles method_name_x method_name_y target_name
               title map_positive filename symmetrise plotly w in
  plots_and_scores plotly (fst data) (snd data)
    (Some (map dexp_DDG (w_source w))) (Some (map dcalc_DDG (w_source w)))
    ["RMSE"; "MUE"] (outcome_of run) (trace_of run).
Proof.
  intros data run. subst data run.
  unfold plotting.plot_DDGs. rewrite run_source_bind.
  destruct (plotting.plot_DDGs_data (w_source w) map_positive symmetrise) as [x_data y_data].
  cbn [fst snd]. destruct plotly.
  - apply plotly_master_plot_plots_and_scores.
  - apply mpl_master_plot_plots_and_scores.
Qed.

(** [plot_DGs] plots and scores the centralised data, with the
    uncertainties of the nodes as error bars. *)
Lemma plot_DGs_plots_and_scores smiles method_name_x method_name_y target_name title
  filename plotly (w : world (graph float) R) x_data y_data xerr yerr :
  plotting.plot_DGs_data (w_source w) = Return (x_data, y_data, xerr, yerr) ->
  let run := plotting.plot_DGs est smiles method_name_x method_name_y target_name
               title filename plotly w in
  plots_and_scores plotly x_data y_data (Some xerr) (Some yerr)
    ["RMSE"; "MUE"; "R2"; "rho"] (outcome_of run) (trace_of run).
Proof.
  intros Hdata run. subst run.
  unfold plotting.plot_DGs. rewrite run_source_bind, Hdata, run_lift_bind.
  destruct plotly.
  - apply plotly_master_plot_plots_and_scores.
  - apply mpl_master_plot_plots_and_scores.
Qed.

(** [plot_all_DDGs] plots and scores the data of its loop. *)
Lemma plot_all_DDGs_plots_and_scores smiles method_name_x method_name_y target_name title
  filename plotly (w : world (graph float) R) x_data y_data xerr yerr :
  plotting.plot_all_DDGs_data float_power (w_source w) =
    Return (x_data, y_data, xerr, yerr) ->
  let run := plotting.plot_all_DDGs est float_power smiles method_name_x method_name_y
               target_name title filename plotly w in
  plots_and_scores plotly x_data y_data (Some xerr) (Some yerr)
    ["RMSE"; "MUE"] (outcome_of run) (trace_of run).
Proof.
  intros Hdata run. subst run.
  unfold plotting.plot_all_DDGs. rewrite run_source_bind, Hdata, run_lift_bind.
  destruct plotly.
  - apply plotly_master_plot_plots_and_scores.
  - apply mpl_master_plot_plots_and_scores.
Qed.

End DrawnByPlots.

(** ** C10: the data of [plot_DDGs] *)

Section DDGData.
Local Open Scope float_scope.

(** The loop that maps the pairs to positive x: each pair, negated when its
    x is below zero. *)
Lemma map_positive_loop (pairs : list (float * float)) (x_data y_data : list float) :
  fold_left (fun data ij =>
               let '(x_data, y_data) := data in
               let '(i, j) := ij in
               if i <? 0 then (x_data ++ [- i], y_data ++ [- j])
               else (x_data ++ [i], y_data ++ [j]))
            pairs (x_data, y_data) =
  (x_data ++ map (fun ij => if fst ij <? 0 then - fst ij else fst ij) pairs,
   y_data ++ map (fun ij => if fst ij <? 0 then - snd ij else snd ij) pairs).
Proof.
  revert x_data y_data. induction pairs as [| [i j] pairs IH]; intros x_data y_data.
  - simpl. now rewrite !app_nil_r.
  - cbn [fold_left map fst snd]. destruct (i <? 0); rewrite IH, <- !app_assoc; reflexivity.
Qed.

Lemma zip_of_maps {A B C : Type} (f : A -> B) (g : A -> C) (l : list A) :
  zip (map f l) (map g l) = map (fun a => (f a, g a)) l.
Proof. induction l as [| a l IH]; simpl; [| rewrite IH]; reflexivity. Qed.

Lemma plot_DDGs_data_positive (results : list DDG_result) :
  plotting.plot_DDGs_data results true false =
  (map (fun r => if exp_DDG r <? 0 then - exp_DDG r else exp_DDG r) results,
   map (fun r => if exp_DDG r <? 0 then - calc_DDG r else calc_DDG r) results).
Proof.
  unfold plotting.plot_DDGs_data. cbn [negb].
  rewrite map_positive_loop, zip_of_maps, !map_map. reflexivity.
Qed.

End DDGData.

(** C10, amended.  The data [plot_DDGs] builds from the results, plots and
    scores:
    - with [map_positive=False] they are the pairs [(exp_DDG, calc_DDG)] in
      the order of the results, whatever [symmetrise] is, and the whole run
      is the same for both values of [symmetrise];
    - with [map_positive=True] and [symmetrise=True] the negation of every
      pair is appended;
    - whatever the flags, these data are what is plotted and scored: every
      call that carries points carries them, plotly draws them as soon as
      there are any, and a call that returns, with either backend, has drawn
      them and has asked the estimator for RMSE and MUE of them;
    - with [map_positive=True] and [symmetrise=False] each pair is kept or
      negated so that no x is below zero: [x < 0] is false for every x of
      the data, and record by record [0 <= x] holds, except that an
      [exp_DDG] that is NaN is kept as it is. *)
Theorem plot_DDGs_data_by_flags {R : Type} (est : estimator R) (results : list DDG_result) :
  (forall symmetrise,
     plotting.plot_DDGs_data results false symmetrise =
     (map exp_DDG results, map calc_DDG results)) /\
  (forall smiles method_name_x method_name_y target_name title filename plotly rng,
     let w := {| w_source := results; w_rng := rng |} in
     plotting.plot_DDGs est smiles method_name_x method_name_y target_name title
       false filename true plotly w =
     plotting.plot_DDGs est smiles method_name_x method_name_y target_name title
       false filename false plotly w) /\
  plotting.plot_DDGs_data results true true =
    (map exp_DDG results ++ map (fun r => (- exp_DDG r)%float) results,
     map calc_DDG results ++ map (fun r => (- calc_DDG r)%float) results) /\
  (forall smiles method_name_x method_name_y target_name title map_positive filename
          symmetrise plotly rng,
     let data := plotting.plot_DDGs_data results map_positive symmetrise in
     let run := plotting.plot_DDGs est smiles method_name_x method_name_y target_name
                  title map_positive filename symmetrise plotly
                  {| w_source := results; w_rng := rng |} in
     plots_and_scores plotly (fst data) (snd data)
       (Some (map dexp_DDG results)) (Some (map dcalc_DDG results))
       ["RMSE"; "MUE"] (outcome_of run) (trace_of run)) /\
  (let x_data := fst (plotting.plot_DDGs_data results true false) in
   length x_data = length results /\
   Forall (fun x => (x <? 0)%float = false) x_data /\
   Forall2 (fun r x => if is_nan (exp_DDG r) then x = exp_DDG r
                       else (0 <=? x)%float = true) results x_data).
Proof.
  split; [reflexivity |]. split; [reflexivity |]. split; [reflexivity |].
  split.
  { intros. subst data run.
    exact (plot_DDGs_plots_and_scores est smiles method_name_x method_name_y target_name
             title map_positive filename symmetrise plotly
             {| w_source := results; w_rng := rng |}). }
  rewrite plot_DDGs_data_positive. cbn [fst].
  split; [apply length_map |]. split.
  - apply Forall_map, Forall_forall. intros r _. simpl.
    destruct (exp_DDG r <? 0)%float eqn:Hlt; [| exact Hlt].
    apply opp_of_negative, Hlt.
  - apply Forall2_fmap_r, Forall_Forall2_diag, Forall_forall. intros r _. cbv beta.
    destruct (is_nan (exp_DDG r)) eqn:Hnan.
    + unfold compose. now rewrite (nan_not_below_zero _ Hnan).
    + unfold compose. destruct (exp_DDG r <? 0)%float eqn:Hlt.
      * apply opp_of_negative, Hlt.
      * apply not_below_zero; assumption.
Qed.

(** C10 fails as stated on a record without experimental value: NaN is not
    below zero, so [plot_DDGs] keeps it, and the x it hands to plotly's trace
    of markers is not [>= 0].  (With pyplot the NaN reaches the limits of the
    axes, and [plt.xlim] refuses them before a point is drawn.) *)
Lemma nan_is_plotted_counterexample :
  let x_data := fst (plotting.plot_DDGs_data [nan_result] true false) in
  let plotly_run := plotting.plot_DDGs demo_estimator None "Experimental" "" "" ""
                      true None false true (demo_world [nan_result]) in
  let pyplot_run := plotting.plot_DDGs demo_estimator None "Experimental" "" "" ""
                      true None false false (demo_world [nan_result]) in
  x_data = [nan] /\
  Exists (fun x => (0 <=? x)%float = false) x_data /\
  draws true [nan] [1.5%float] (Some [0.1%float]) (Some [0.2%float])
    (trace_of plotly_run) /\
  outcome_of pyplot_run = Raise (ValueError "Axis limits cannot be NaN or Inf") /\
  Forall idle (trace_of pyplot_run).
Proof.
  split; [reflexivity |]. split; [vm_compute; left; reflexivity |]. split.
  - exact (proj1 (proj2 (plot_DDGs_plots_and_scores demo_estimator None "Experimental"
                           "" "" "" true None false true (demo_world [nan_result])))
             eq_refl ltac:(discriminate) ltac:(discriminate)).
  - split; [vm_compute; reflexivity |].
    vm_compute. repeat constructor.
Qed.

(** The two demonstration records, mapped to positive x: 1 is kept, -2 is
    plotted as 2; the call with pyplot returns, and has drawn and scored
    these points. *)
Lemma plot_DDGs_data_by_flags_witness :
  let run := plotting.plot_DDGs demo_estimator None "Experimental" "perses" "Thrombin" ""
               true None false false (demo_world demo_results) in
  let x_data := [1; 2]%float in
  let y_data := [1.5; 1]%float in
  fst (plotting.plot_DDGs_data demo_results true false) = x_data /\
  Forall (fun x => (x <? 0)%float = false)
         (fst (plotting.plot_DDGs_data demo_results true false)) /\
  outcome_of run = Return tt /\
  draws false x_data y_data (Some [0.1; 0.1]%float) (Some [0.2; 0.2]%float) (trace_of run) /\
  flat_map scored (trace_of run) = [(x_data, y_data, "RMSE"); (x_data, y_data, "MUE")].
Proof.
  intros run x_data y_data.
  split; [reflexivity |].
  split; [exact (proj1 (proj2 (proj2 (proj2 (proj2 (proj2
                   (plot_DDGs_data_by_flags demo_estimator demo_results))))))) |].
  assert (Hout : outcome_of run = Return tt) by (vm_compute; reflexivity).
  split; [exact Hout |].
  exact (proj2 (proj2 (proj1 (proj2 (proj2 (proj2
                  (plot_DDGs_data_by_flags demo_estimator demo_results))))
                  None "Experimental" "perses" "Thrombin" "" true None false false 7%N))
           tt Hout).
Defined.

(** ** C8: [plot_DGs] centres its data *)

Section PairwiseSum.
Context {F : Type} `{Scalar F}.

(** The cutting of [pairwise_sum] never runs out of fuel: with as much fuel
    as the array has elements, more fuel gives the same sum. *)
Lemma pairwise_sum_fuel (fuel1 : nat) :
  forall (fuel2 : nat) (a : list F),
    (length a <= fuel1)%nat -> (length a <= fuel2)%nat ->
    pairwise_sum fuel1 a = pairwise_sum fuel2 a.
Proof.
  induction fuel1 as [| fuel1 IH]; intros [| fuel2] a H1 H2;
    try (destruct a; [reflexivity | simpl in *; lia]).
  cbn [pairwise_sum].
  destruct (length a <? 8)%nat eqn:Hsmall; [reflexivity |].
  apply Nat.ltb_ge in Hsmall.
  destruct (length a <=? PW_BLOCKSIZE)%nat eqn:Hblock; [reflexivity |].
  apply Nat.leb_gt in Hblock. unfold PW_BLOCKSIZE in Hblock.
  set (n2 := (length a / 2 - (length a / 2) mod 8)%nat).
  assert (Hn2 : (0 < n2 < length a)%nat).
  { subst n2. pose proof (Nat.div_mod_eq (length a) 2).
    pose proof (Nat.mod_upper_bound (length a) 2).
    pose proof (Nat.mod_upper_bound (length a / 2) 8). lia. }
  f_equal; apply IH; rewrite ?length_take, ?length_drop; lia.
Qed.

End PairwiseSum.

(** From eight elements on the order of the additions is not the order of
    the array: eight times 0.1 add up to 0.8 in blocks and to
    0.79999999999999993 in sequence. *)
Lemma np_sum_adds_in_blocks :
  np_sum (repeat 0.1%float 8) = 0.8%float /\
  fold_left PrimFloat.add (repeat 0.1%float 8) 0%float = 0.79999999999999993%float /\
  np_sum (repeat 0.1%float 7) = fold_left PrimFloat.add (repeat 0.1%float 7) 0%float.
Proof. repeat split; vm_compute; reflexivity. Qed.

Section ExactCentring.
Local Open Scope Qc_scope.

Lemma Qc_of_nat_succ (n : nat) :
  s_of_nat (F := Qc) (S n) = s_of_nat (F := Qc) n + 1.
Proof.
  simpl s_of_nat. apply Qc_is_canon. simpl.
  rewrite !Qred_correct. unfold Qeq, Qplus. simpl. lia.
Qed.

Lemma Qc_of_nat_nonzero (n : nat) : s_of_nat (F := Qc) (S n) <> 0.
Proof.
  intros H. apply (f_equal this) in H. cbn [this Q2Qc s_of_nat Qc_scalar] in H.
  assert (Hq : (inject_Z (Z.of_nat (S n)) == 0)%Q).
  { rewrite <- (Qred_correct (inject_Z (Z.of_nat (S n)))), H. apply Qred_correct. }
  unfold Qeq, inject_Z in Hq. cbn [Qnum Qden] in Hq. lia.
Qed.

(** In exact arithmetic the sum of the values less [m] each is the sum of the
    values less [m] times their number. *)
Lemma Qc_sum_shifted (xs : list Qc) (m acc : Qc) :
  fold_left Qcplus (map (fun v => v - m) xs) acc =
  fold_left Qcplus xs acc - s_of_nat (length xs) * m.
Proof.
  revert acc. induction xs as [| v xs IH]; intros acc.
  - simpl. apply Qc_is_canon. simpl. rewrite !Qred_correct. ring.
  - cbn [map fold_left length]. rewrite IH, Qc_of_nat_succ.
    assert (Hshift : forall a b, fold_left Qcplus xs (a + b) = fold_left Qcplus xs a + b).
    { clear. induction xs as [| u xs IH]; intros a b; simpl; [reflexivity |].
      replace (a + b + u) with (a + u + b) by ring. apply IH. }
    replace (acc + (v - m)) with (acc + v + - m) by ring.
    rewrite Hshift. ring.
Qed.

Lemma Qc_sum_from (a : list Qc) (res : Qc) :
  fold_left Qcplus a res = res + fold_left Qcplus a 0.
Proof.
  revert res. induction a as [| v a IH]; intros res; simpl; [ring |].
  rewrite (IH (res + v)), (IH (0 + v)). ring.
Qed.

Lemma Qc_sum_app (a b : list Qc) :
  fold_left Qcplus (a ++ b) 0 = fold_left Qcplus a 0 + fold_left Qcplus b 0.
Proof. rewrite fold_left_app. apply Qc_sum_from. Qed.

Lemma Qc_sum_take_drop (n : nat) (a : list Qc) :
  fold_left Qcplus (take n a) 0 + fold_left Qcplus (drop n a) 0 = fold_left Qcplus a 0.
Proof. now rewrite <- Qc_sum_app, take_drop. Qed.

Lemma Qc_sum_zip_with (r c : list Qc) :
  length r = length c ->
  fold_left Qcplus (zip_with Qcplus r c) 0 = fold_left Qcplus r 0 + fold_left Qcplus c 0.
Proof.
  revert c. induction r as [| u r IH]; intros [| v c] Hlen; try discriminate; simpl.
  - ring.
  - injection Hlen as Hlen.
    rewrite (Qc_sum_from _ (0 + (u + v))), (Qc_sum_from _ (0 + u)), (Qc_sum_from _ (0 + v)).
    rewrite (IH c Hlen). ring.
Qed.

(** In exact arithmetic the eight accumulators and what is left of the array
    hold the sum between them. *)
Lemma Qc_accumulate (blocks : nat) :
  forall (r a r' rest : list Qc),
    length r = 8%nat -> (8 * blocks <= length a)%nat ->
    accumulate blocks r a = (r', rest) ->
    length r' = 8%nat /\
    fold_left Qcplus r' 0 + fold_left Qcplus rest 0 =
    fold_left Qcplus r 0 + fold_left Qcplus a 0.
Proof.
  induction blocks as [| blocks IH]; intros r a r' rest Hr Ha Hacc.
  - injection Hacc as <- <-. auto.
  - cbn [accumulate] in Hacc. apply IH in Hacc as [Hr' Hsum].
    + split; [exact Hr' |]. rewrite Hsum.
      change (@s_add Qc Qc_scalar) with Qcplus.
      rewrite Qc_sum_zip_with by (rewrite length_take; lia).
      rewrite <- (Qc_sum_take_drop 8 a). ring.
    + rewrite length_zip_with, length_take. lia.
    + rewrite length_drop. lia.
Qed.

Lemma Qc_block_sum (a : list Qc) :
  (8 <= length a)%nat -> block_sum a = fold_left Qcplus a 0.
Proof.
  intros Ha. unfold block_sum.
  destruct (accumulate (length a / 8 - 1) (take 8 a) (drop 8 a)) as [r rest] eqn:Hacc.
  apply Qc_accumulate in Hacc as [Hr Hsum].
  - rewrite Qc_sum_take_drop in Hsum. rewrite <- Hsum.
    unfold sum_onto. change (@s_add Qc Qc_scalar) with Qcplus.
    rewrite Qc_sum_from.
    do 9 (destruct r as [| ? r]; try discriminate). simpl. ring.
  - rewrite length_take. lia.
  - rewrite length_drop.
    pose proof (Nat.div_mod_eq (length a) 8). pose proof (Nat.mod_upper_bound (length a) 8).
    lia.
Qed.

(** In exact arithmetic the pairwise sum is the sum. *)
Lemma Qc_pairwise_sum (fuel : nat) :
  forall a : list Qc, (length a <= fuel)%nat -> pairwise_sum fuel a = fold_left Qcplus a 0.
Proof.
  induction fuel as [| fuel IH]; intros a Hfuel.
  - destruct a; [reflexivity | simpl in Hfuel; lia].
  - cbn [pairwise_sum].
    destruct (length a <? 8)%nat eqn:Hsmall; [reflexivity |].
    apply Nat.ltb_ge in Hsmall.
    destruct (length a <=? PW_BLOCKSIZE)%nat eqn:Hblock; [now apply Qc_block_sum |].
    apply Nat.leb_gt in Hblock. unfold PW_BLOCKSIZE in Hblock.
    set (n2 := (length a / 2 - (length a / 2) mod 8)%nat).
    assert (Hn2 : (0 < n2 < length a)%nat).
    { subst n2. pose proof (Nat.div_mod_eq (length a) 2).
      pose proof (Nat.mod_upper_bound (length a) 2).
      pose proof (Nat.mod_upper_bound (length a / 2) 8). lia. }
    rewrite !IH by (rewrite ?length_take, ?length_drop; lia).
    change (@s_add Qc Qc_scalar) with Qcplus. apply Qc_sum_take_drop.
Qed.

Lemma Qc_np_sum (a : list Qc) : np_sum a = fold_left Qcplus a 0.
Proof.
  unfold np_sum. rewrite Qc_pairwise_sum by lia.
  change (@s_add Qc Qc_scalar) with Qcplus. change (@s_zero Qc Qc_scalar) with (Q2Qc 0). ring.
Qed.

Lemma Qc_centred_sum_zero (xs : list Qc) :
  xs <> [] -> np_sum (np_sub_scalar xs (np_mean xs)) = 0.
Proof.
  intros Hne. unfold np_mean. rewrite !Qc_np_sum. unfold np_sub_scalar.
  cbn [s_add s_sub s_div s_zero Qc_scalar].
  rewrite Qc_sum_shifted.
  destruct xs as [| v xs]; [contradiction |].
  pose proof (Qc_of_nat_nonzero (length xs)) as Hn.
  change (length (v :: xs)) with (S (length xs)).
  generalize dependent (s_of_nat (F := Qc) (S (length xs))).
  generalize (fold_left Qcplus (v :: xs) 0). intros total n Hn.
  field. exact Hn.
Qed.

End ExactCentring.

Lemma omap_length {A B : Type} (f : A -> outcome B) (l : list A) (l' : list B) :
  omap f l = Return l' -> length l' = length l.
Proof.
  revert l'. induction l as [| a l IH]; intros l' H; simpl in H.
  - injection H as <-. reflexivity.
  - destruct (f a) as [b | e]; [| discriminate]. simpl in H.
    destruct (omap f l) as [bs | e]; [| discriminate]. simpl in H.
    injection H as <-. simpl. now rewrite (IH bs).
Qed.

Section Centring.
Context {F : Type} `{Scalar F}.

(** The data of [plot_DGs] are the attributes of the nodes, the free
    energies less their mean. *)
Lemma plot_DGs_data_inv (g : graph F) x_data y_data xerr yerr :
  plotting.plot_DGs_data g = Return (x_data, y_data, xerr, yerr) ->
  exists xs ys,
    omap (node_attr "f_i_exp") g = Return xs /\
    omap (node_attr "f_i_calc") g = Return ys /\
    omap (node_attr "df_i_exp") g = Return xerr /\
    omap (node_attr "df_i_calc") g = Return yerr /\
    x_data = map (fun v => s_sub v (np_mean xs)) xs /\
    y_data = map (fun v => s_sub v (np_mean ys)) ys.
Proof.
  unfold plotting.plot_DGs_data.
  destruct (omap (node_attr "f_i_exp") g) as [xs | e]; [| discriminate].
  destruct (omap (node_attr "f_i_calc") g) as [ys | e]; [| discriminate].
  destruct (omap (node_attr "df_i_exp") g) as [dxs | e]; [| discriminate].
  destruct (omap (node_attr "df_i_calc") g) as [dys | e]; [| discriminate].
  simpl. intros [= <- <- <- <-]. exists xs, ys. repeat split; reflexivity.
Qed.

End Centring.

(** C8 fails as stated.  For two nodes with the experimental free energies
    0.1 and 0.2 and the calculated ones 0.3 and 0.5, the values [plot_DGs]
    hands to the scatter plot and to the estimator are the stored ones less
    their mean as binary64 arithmetic gives it, and neither sequence sums to
    zero. *)
Lemma centred_floats_do_not_sum_to_zero_counterexample :
  let x_data := [-0.050000000000000017; 0.049999999999999989]%float in
  let y_data := [-0.10000000000000003; 0.099999999999999978]%float in
  let xerr := [0.01; 0.01]%float in
  let yerr := [0.02; 0.02]%float in
  let run := plotting.plot_DGs demo_estimator None "Experimental" "" "" "" None false
               (demo_world demo_graph) in
  plotting.plot_DGs_data demo_graph = Return (x_data, y_data, xerr, yerr) /\
  In (plt_errorbar x_data y_data (Some xerr) (Some yerr)) (trace_of run) /\
  (exists result, In (stats_bootstrap_statistic x_data y_data (Some xerr) (Some yerr)
                        "RMSE" result) (trace_of run)) /\
  np_sum x_data = (-2.7755575615628914e-17)%float /\
  np_sum y_data = (-5.5511151231257827e-17)%float /\
  (np_sum x_data =? 0)%float = false /\
  (np_sum y_data =? 0)%float = false.
Proof.
  split; [vm_compute; reflexivity |].
  split; [vm_compute; do 13 right; left; reflexivity |].
  split; [eexists; vm_compute; do 15 right; left; reflexivity |].
  repeat split; vm_compute; reflexivity.
Qed.

(** C8, amended.  When [plot_DGs] finds the four attributes on every node:
    the x and y it goes on with are the stored free energies less the mean of
    their sequence, as numpy computes it on floats, one value for each node;
    these centralised values, and not the stored ones, are what is plotted
    and scored: every call that carries points carries them, plotly draws
    them as soon as the graph has a node, and a call that returns, with
    either backend, has drawn them and has asked the estimator for RMSE, MUE,
    R2 and rho of them; and the same computation in exact arithmetic, on a
    graph with a node at least, gives sequences that sum to zero. *)
Theorem plot_DGs_plots_centralised_data {R : Type} (est : estimator R) :
  (forall (g : graph float) x_data y_data xerr yerr,
     plotting.plot_DGs_data g = Return (x_data, y_data, xerr, yerr) ->
     exists xs ys,
       omap (node_attr "f_i_exp") g = Return xs /\
       omap (node_attr "f_i_calc") g = Return ys /\
       x_data = map (fun v => (v - np_mean xs)%float) xs /\
       y_data = map (fun v => (v - np_mean ys)%float) ys /\
       length x_data = length g /\ length y_data = length g) /\
  (forall smiles method_name_x method_name_y target_name title filename plotly
          (w : world (graph float) R) x_data y_data xerr yerr,
     plotting.plot_DGs_data (w_source w) = Return (x_data, y_data, xerr, yerr) ->
     let run := plotting.plot_DGs est smiles method_name_x method_name_y target_name
                  title filename plotly w in
     plots_and_scores plotly x_data y_data (Some xerr) (Some yerr)
       ["RMSE"; "MUE"; "R2"; "rho"] (outcome_of run) (trace_of run)) /\
  (forall (g : graph Qc) x_data y_data xerr yerr,
     g <> [] ->
     plotting.plot_DGs_data g = Return (x_data, y_data, xerr, yerr) ->
     np_sum x_data = 0%Qc /\ np_sum y_data = 0%Qc).
Proof.
  split; [| split].
  - intros g x_data y_data xerr yerr Hdata.
    apply plot_DGs_data_inv in Hdata as (xs & ys & Hx & Hy & _ & _ & -> & ->).
    exists xs, ys. rewrite !length_map.
    pose proof (omap_length _ _ _ Hx). pose proof (omap_length _ _ _ Hy).
    repeat split; assumption.
  - intros. subst run. now apply plot_DGs_plots_and_scores.
  - intros g x_data y_data xerr yerr Hne Hdata.
    apply plot_DGs_data_inv in Hdata as (xs & ys & Hx & Hy & _ & _ & -> & ->).
    apply omap_length in Hx, Hy.
    split; apply Qc_centred_sum_zero; intros ->; destruct g; simpl in *; congruence.
Qed.

(** The graph of three nodes, plotted with pyplot: the call returns, and has
    drawn and scored the centralised values.  And the two-node graph with
    the free energies 0.1, 0.2 and 0.3, 0.5 as exact fractions: the
    centralised values sum to zero. *)
Lemma plot_DGs_plots_centralised_data_witness :
  let x_data := np_sub_scalar [0.1; 0.2; 0.7]%float (np_mean [0.1; 0.2; 0.7]%float) in
  let y_data := np_sub_scalar [0.3; 0.5; 0.9]%float (np_mean [0.3; 0.5; 0.9]%float) in
  let xerr := Some [0.01; 0.01; 0.03]%float in
  let yerr := Some [0.02; 0.02; 0.04]%float in
  let run := plotting.plot_DGs demo_estimator None "Experimental" "perses" "Thrombin" ""
               None false (demo_world demo_graph3) in
  let exact_node (name : string) (f_exp f_calc : Q) : node Qc :=
    (name, {[ "f_i_exp" := Q2Qc f_exp; "f_i_calc" := Q2Qc f_calc;
              "df_i_exp" := Q2Qc (1 # 100); "df_i_calc" := Q2Qc (1 # 50) ]}) in
  let g := [exact_node "lig_a" (1 # 10) (3 # 10); exact_node "lig_b" (1 # 5) (1 # 2)] in
  (outcome_of run = Return tt /\
   draws false x_data y_data xerr yerr (trace_of run) /\
   flat_map scored (trace_of run) =
     [(x_data, y_data, "RMSE"); (x_data, y_data, "MUE");
      (x_data, y_data, "R2"); (x_data, y_data, "rho")]) /\
  g <> [] /\
  exists x_data y_data xerr yerr,
    plotting.plot_DGs_data g = Return (x_data, y_data, xerr, yerr) /\
    length x_data = 2%nat /\
    np_sum x_data = 0%Qc /\ np_sum y_data = 0%Qc.
Proof.
  intros x_data y_data xerr yerr run exact_node g. split.
  - assert (Hout : outcome_of run = Return tt) by (vm_compute; reflexivity).
    split; [exact Hout |].
    exact (proj2 (proj2 (proj1 (proj2 (plot_DGs_plots_centralised_data demo_estimator))
                    None "Experimental" "perses" "Thrombin" "" None false
                    (demo_world demo_graph3) x_data y_data
                    [0.01; 0.01; 0.03]%float [0.02; 0.02; 0.04]%float eq_refl))
             tt Hout).
  - assert (Hne : g <> []) by discriminate.
    assert (Hdata : exists x_data y_data xerr yerr,
               plotting.plot_DGs_data g = Return (x_data, y_data, xerr, yerr) /\
               length x_data = 2%nat).
    { vm_compute. do 4 eexists. split; reflexivity. }
    destruct Hdata as (xq & yq & xeq & yeq & Hdata & Hlen).
    split; [exact Hne |].
    exists xq, yq, xeq, yeq. split; [exact Hdata |]. split; [exact Hlen |].
    exact (proj2 (proj2 (plot_DGs_plots_centralised_data demo_estimator))
             g xq yq xeq yeq Hne Hdata).
Defined.

(** ** C9: all pairs of nodes *)

Section Combinations.
Context {A : Type}.

Lemma combinations2_length (l : list A) :
  (2 * length (combinations2 l) = length l * (length l - 1))%nat.
Proof.
  induction l as [| a l IH]; [reflexivity |].
  cbn [combinations2 length]. rewrite length_app, length_map. nia.
Qed.

Lemma combinations2_In (l : list A) (a b : A) :
  In (a, b) (combinations2 l) -> In a l /\ In b l.
Proof.
  induction l as [| c l IH]; [intros [] |].
  cbn [combinations2]. intros Hin. apply in_app_or in Hin as [Hin | Hin].
  - apply in_map_iff in Hin as (b' & [= <- <-] & Hb). split; [now left | now right].
  - destruct (IH Hin). split; now right.
Qed.

End Combinations.

(** [combinations(range(n), 2)] are the pairs a < b < n. *)
Lemma combinations2_seq (start n a b : nat) :
  In (a, b) (combinations2 (seq start n)) <-> (start <= a < b /\ b < start + n)%nat.
Proof.
  revert start. induction n as [| n IH]; intros start.
  - simpl. split; [intros [] | lia].
  - cbn [seq combinations2]. rewrite in_app_iff, in_map_iff, IH. split.
    + intros [(b' & [= <- <-] & Hb) | H]; [apply in_seq in Hb |]; lia.
    + intros H. destruct (Nat.eq_dec a start) as [-> | Hne].
      * left. exists b. split; [reflexivity |]. apply in_seq. lia.
      * right. lia.
Qed.

Lemma index_lt {A : Type} (l : list A) (i : nat) (d : A) :
  (i < length l)%nat -> index l i = Return (nth i l d).
Proof.
  intros Hi. unfold index.
  destruct (l !! i) as [v |] eqn:Hl.
  - f_equal. symmetry. apply nth_lookup_Some with (d := d) in Hl. exact Hl.
  - apply lookup_ge_None in Hl. lia.
Qed.

Section AllPairs.
Variable float_power : float -> float -> float.
Variables x_abs y_abs xabserr yabserr : list float.
Variable n : nat.
Hypothesis Hx : length x_abs = n.
Hypothesis Hy : length y_abs = n.
Hypothesis Hdx : length xabserr = n.
Hypothesis Hdy : length yabserr = n.

Local Abbreviation pt := (pair_point float_power x_abs y_abs xabserr yabserr).

(** The loop appends, for each pair, the difference and its opposite to
    [x_data] and [y_data] and the uncertainty twice to [xerr] and [yerr]. *)
Lemma all_DDGs_loop (pairs : list (nat * nat)) (x_data y_data xerr yerr : list float) :
  Forall (fun ab => (fst ab < n /\ snd ab < n)%nat) pairs ->
  ofor pairs (plotting.all_DDGs_step float_power x_abs y_abs xabserr yabserr)
       (x_data, y_data, xerr, yerr) =
  Return (x_data ++ flat_map (fun ab => [(pt ab).1.1.1; (- (pt ab).1.1.1)%float]) pairs,
          y_data ++ flat_map (fun ab => [(pt ab).1.1.2; (- (pt ab).1.1.2)%float]) pairs,
          xerr ++ flat_map (fun ab => [(pt ab).1.2; (pt ab).1.2]) pairs,
          yerr ++ flat_map (fun ab => [(pt ab).2; (pt ab).2]) pairs).
Proof using Hx Hy Hdx Hdy.
  intros Hpairs. revert x_data y_data xerr yerr.
  induction Hpairs as [| [a b] pairs [Ha Hb] _ IH]; intros x_data y_data xerr yerr.
  - simpl. now rewrite !app_nil_r.
  - cbn [ofor fst snd] in *. unfold plotting.all_DDGs_step at 1.
    rewrite (index_lt x_abs a 0%float), (index_lt x_abs b 0%float) by lia.
    rewrite (index_lt xabserr a 0%float), (index_lt xabserr b 0%float) by lia.
    rewrite (index_lt y_abs a 0%float), (index_lt y_abs b 0%float) by lia.
    rewrite (index_lt yabserr a 0%float), (index_lt yabserr b 0%float) by lia.
    cbn [obind]. rewrite IH. cbn [flat_map]. rewrite <- !app_assoc. reflexivity.
Qed.

End AllPairs.

Lemma zip_flat_map_pairs {A B C : Type} (f1 f2 : A -> B) (g1 g2 : A -> C) (l : list A) :
  zip (flat_map (fun a => [f1 a; f2 a]) l) (flat_map (fun a => [g1 a; g2 a]) l) =
  flat_map (fun a => [(f1 a, g1 a); (f2 a, g2 a)]) l.
Proof. induction l as [| a l IH]; simpl; [| rewrite IH]; reflexivity. Qed.

Lemma flat_map_pairs_length {A B : Type} (f1 f2 : A -> B) (l : list A) :
  length (flat_map (fun a => [f1 a; f2 a]) l) = (2 * length l)%nat.
Proof. induction l as [| a l IH]; simpl; [| rewrite IH]; lia. Qed.

Lemma negate_involutive (p : point) : negate (negate p) = p.
Proof.
  destruct p as [[[x y] ex] ey]. unfold negate. now rewrite !float_opp_involutive.
Qed.

(** C9.  For a graph of [n] nodes that all have the four attributes,
    [plot_all_DDGs] builds, plots and scores [n (n - 1)] points with as many
    error bars: going through the pairs of nodes a < b < n, for each the
    point [(x_a - x_b, y_a - y_b)] and then its negation, both with the error
    bars [(dx_a ** 2 + dx_b ** 2) ** 0.5] and [(dy_a ** 2 + dy_b ** 2) ** 0.5];
    so the negation of every plotted point is a plotted point.  These points
    are what is plotted and scored: every call that carries points or error
    bars carries them, plotly draws them as soon as there are any, and a
    call that returns, with either backend, has drawn them and has asked the
    estimator for RMSE and MUE of them. *)
Theorem plot_all_DDGs_plots_all_pairs {R : Type} (est : estimator R)
  (float_power : float -> float -> float) (g : graph float)
  (x_abs y_abs xabserr yabserr : list float) :
  omap (node_attr "f_i_exp") g = Return x_abs ->
  omap (node_attr "f_i_calc") g = Return y_abs ->
  omap (node_attr "df_i_exp") g = Return xabserr ->
  omap (node_attr "df_i_calc") g = Return yabserr ->
  let n := length g in
  let pairs := combinations2 (seq 0 n) in
  let pt := pair_point float_power x_abs y_abs xabserr yabserr in
  exists x_data y_data xerr yerr,
    plotting.plot_all_DDGs_data float_power g = Return (x_data, y_data, xerr, yerr) /\
    (forall smiles method_name_x method_name_y target_name title filename plotly rng,
       let run := plotting.plot_all_DDGs est float_power smiles method_name_x
                    method_name_y target_name title filename plotly
                    {| w_source := g; w_rng := rng |} in
       plots_and_scores plotly x_data y_data (Some xerr) (Some yerr)
         ["RMSE"; "MUE"] (outcome_of run) (trace_of run)) /\
    (length x_data = n * (n - 1) /\ length y_data = n * (n - 1) /\
     length xerr = n * (n - 1) /\ length yerr = n * (n - 1))%nat /\
    (forall a b, In (a, b) pairs <-> (a < b < n)%nat) /\
    points (x_data, y_data, xerr, yerr) = flat_map (fun ab => [pt ab; negate (pt ab)]) pairs /\
    (forall p, In p (points (x_data, y_data, xerr, yerr)) ->
               In (negate p) (points (x_data, y_data, xerr, yerr))).
Proof.
  intros Hx Hy Hdx Hdy n pairs pt.
  pose proof (omap_length _ _ _ Hx) as Lx. pose proof (omap_length _ _ _ Hy) as Ly.
  pose proof (omap_length _ _ _ Hdx) as Ldx. pose proof (omap_length _ _ _ Hdy) as Ldy.
  assert (Hrange : Forall (fun ab => (fst ab < n /\ snd ab < n)%nat) pairs).
  { apply List.Forall_forall. intros [a b] Hin. unfold pairs in Hin.
    apply combinations2_seq in Hin. simpl. lia. }
  assert (Hdata := all_DDGs_loop float_power x_abs y_abs xabserr yabserr n
                     Lx Ly Ldx Ldy pairs [] [] [] [] Hrange).
  cbn [app] in Hdata.
  assert (Hpoints : forall xd yd xe ye,
             xd = flat_map (fun ab => [(pt ab).1.1.1; (- (pt ab).1.1.1)%float]) pairs ->
             yd = flat_map (fun ab => [(pt ab).1.1.2; (- (pt ab).1.1.2)%float]) pairs ->
             xe = flat_map (fun ab => [(pt ab).1.2; (pt ab).1.2]) pairs ->
             ye = flat_map (fun ab => [(pt ab).2; (pt ab).2]) pairs ->
             points (xd, yd, xe, ye) = flat_map (fun ab => [pt ab; negate (pt ab)]) pairs).
  { intros xd yd xe ye -> -> -> ->. unfold points.
    rewrite !zip_flat_map_pairs. apply flat_map_ext. intros ab.
    destruct (pt ab) as [[[x y] ex] ey]. reflexivity. }
  eexists _, _, _, _. split.
  { unfold plotting.plot_all_DDGs_data. rewrite Hx, Hy, Hdx, Hdy. cbn [obind].
    rewrite Lx. exact Hdata. }
  split.
  { intros. subst run. apply plot_all_DDGs_plots_and_scores. cbn [w_source].
    unfold plotting.plot_all_DDGs_data. rewrite Hx, Hy, Hdx, Hdy. cbn [obind].
    rewrite Lx. exact Hdata. }
  split.
  { rewrite !flat_map_pairs_length. fold pairs.
    pose proof (combinations2_length (seq 0 n)) as Hlen. rewrite length_seq in Hlen.
    fold pairs in Hlen. lia. }
  split.
  { intros a b. unfold pairs. rewrite combinations2_seq. lia. }
  split; [apply Hpoints; reflexivity |].
  intros p.
  match goal with
  | |- In p ?P -> _ =>
    replace P with (flat_map (fun ab => [pt ab; negate (pt ab)]) pairs)
      by (symmetry; apply Hpoints; reflexivity)
  end.
  rewrite !in_flat_map. intros (ab & Hab & [<- | [<- | []]]); exists ab; split; auto.
  - right. left. reflexivity.
  - left. now rewrite negate_involutive.
Qed.

(** Three nodes give six points. *)
Lemma plot_all_DDGs_plots_all_pairs_witness :
  exists x_data y_data xerr yerr,
    plotting.plot_all_DDGs_data demo_power demo_graph3 = Return (x_data, y_data, xerr, yerr) /\
    length x_data = 6%nat /\
    draws true x_data y_data (Some xerr) (Some yerr)
      (trace_of (plotting.plot_all_DDGs demo_estimator demo_power None "Experimental"
                   "perses" "Thrombin" "" None true (demo_world demo_graph3))) /\
    (forall p, In p (points (x_data, y_data, xerr, yerr)) ->
               In (negate p) (points (x_data, y_data, xerr, yerr))).
Proof.
  destruct (plot_all_DDGs_plots_all_pairs demo_estimator demo_power demo_graph3
              [0.1; 0.2; 0.7]%float [0.3; 0.5; 0.9]%float
              [0.01; 0.01; 0.03]%float [0.02; 0.02; 0.04]%float
              eq_refl eq_refl eq_refl eq_refl)
    as (x_data & y_data & xerr & yerr & Hdata & Hplots & (Hlen & Hlen' & _) & _ & _ & Hsym).
  exists x_data, y_data, xerr, yerr.
  split; [exact Hdata |]. split; [exact Hlen |]. split; [| exact Hsym].
  destruct (Hplots None "Experimental" "perses" "Thrombin" "" None true 7%N)
    as (_ & Hdrawn & _).
  apply Hdrawn; [reflexivity | intros -> | intros ->]; discriminate.
Defined.

(** ** C5: the title *)

Section RunInversion.
Context {S R : Type}.

Lemma bind_inv {A B : Type} (m : M S R A) (k : A -> M S R B) w b w' t :
  bind m k w = (Return b, w', t) ->
  exists a w1 t1 t2, m w = (Return a, w1, t1) /\ k a w1 = (Return b, w', t2) /\ t = t1 ++ t2.
Proof.
  unfold bind. destruct (m w) as [[[a | e] w1] t1]; [| discriminate].
  destruct (k a w1) as [[o w2] t2] eqn:Hk. intros [= -> -> <-].
  exists a, w1, t1, t2. auto.
Qed.

Lemma emit_inv (ev : event) (w : world S R) o w' t :
  emit ev w = (o, w', t) -> o = Return tt /\ w' = w /\ t = [ev].
Proof. intros [= <- <- <-]. auto. Qed.

Lemma lift_inv {A : Type} (o : outcome A) (w : world S R) a w' t :
  lift o w = (Return a, w', t) -> o = Return a /\ w' = w /\ t = [].
Proof. intros [= -> <- <-]. auto. Qed.

Lemma ret_inv {A : Type} (a : A) (w : world S R) o w' t :
  ret a w = (o, w', t) -> o = Return a /\ w' = w /\ t = [].
Proof. intros [= <- <- <-]. auto. Qed.


End RunInversion.

(** A run that returned, taken apart call by call. *)
Ltac run_inv :=
  repeat match goal with
  | H : bind _ _ _ = (Return _, _, _) |- _ =>
    let a := fresh "a" in
    let w1 := fresh "w" in
    let t1 := fresh "t" in
    let t2 := fresh "t" in
    let H1 := fresh "Hrun" in
    let H2 := fresh "Hrun" in
    let Ht := fresh "Ht" in
    apply bind_inv in H as (a & w1 & t1 & t2 & H1 & H2 & Ht); subst
  | H : emit _ _ = (_, _, _) |- _ => apply emit_inv in H as (_ & ? & ?); subst
  | H : lift _ _ = (Return _, _, _) |- _ => apply lift_inv in H as (H & ? & ?); subst
  | H : ret _ _ = (_, _, _) |- _ => apply ret_inv in H as (H & ? & ?); subst
  | H : when ?b _ _ = (Return _, _, _) |- _ => destruct b; cbn [when] in H
  end.



Section StatisticsLoops.
Context {S R : Type}.
Variable est : estimator R.
Variables x y : list float.

Local Abbreviation answers := (answered_calls x y).





End StatisticsLoops.



(** * Further properties of the plotting code *)

(** ** Nothing to plot *)

Section EmptyData.
Context {S R : Type}.
Variable est : estimator R.

Lemma mpl_master_plot_empty x y title xerr yerr method_name target_name plot_type
  guidelines origins statistics filename (w : world S R) :
  x = [] \/ y = [] ->
  plotting._master_plot est x y title xerr yerr method_name target_name plot_type
    guidelines origins statistics filename w =
  (Raise empty_min, w, plotting_preamble plot_type method_name).
Proof.
  intros [-> | ->]; [reflexivity |]. destruct x; reflexivity.
Qed.

Lemma plotly_master_plot_empty x y c title xerr yerr names smiles method_name_x
  method_name_y target_name plot_type guidelines origins statistics filename
  (w : world S R) :
  x = [] \/ y = [] ->
  plotlying._master_plot est x y c title xerr yerr names smiles method_name_x
    method_name_y target_name plot_type guidelines origins statistics filename w =
  (Raise empty_min, w, []).
Proof.
  intros [-> | ->]; [reflexivity |]. destruct x; reflexivity.
Qed.

End EmptyData.

(** X1.  Called with an empty [x] or an empty [y], either [_master_plot]
    raises the [ValueError] of [min] on an empty sequence, whatever else it
    is given.  plotly's has made no call by then; pyplot's has set the font
    sizes, opened the figure and labelled the axes, and nothing more: no
    data are drawn, the estimator is not called, nothing is shown or
    written. *)
Theorem empty_data_raise_ValueError {S R : Type} (est : estimator R) (x y : list float) :
  x = [] \/ y = [] ->
  (forall title xerr yerr method_name target_name plot_type guidelines origins
          statistics filename (w : world S R),
     plotting._master_plot est x y title xerr yerr method_name target_name plot_type
       guidelines origins statistics filename w =
     (Raise empty_min, w, plotting_preamble plot_type method_name)) /\
  (forall c title xerr yerr names smiles method_name_x method_name_y target_name
          plot_type guidelines origins statistics filename (w : world S R),
     plotlying._master_plot est x y c title xerr yerr names smiles method_name_x
       method_name_y target_name plot_type guidelines origins statistics filename w =
     (Raise empty_min, w, [])).
Proof.
  intros Hempty. split; intros.
  - now apply mpl_master_plot_empty.
  - now apply plotly_master_plot_empty.
Qed.

(** Points for x and none for y. *)
Lemma empty_data_raise_ValueError_witness :
  outcome_of (plotting._master_plot demo_estimator [1; 2]%float [] "" None None "" "" ""
                true true ["RMSE"] None (demo_world tt)) = Raise empty_min /\
  trace_of (plotlying._master_plot demo_estimator [1; 2]%float [] None "" None None None
              None "" "" "" "" true true ["RMSE"] None (demo_world tt)) = [].
Proof.
  pose proof (empty_data_raise_ValueError (S := unit) demo_estimator [1; 2]%float []
                (or_intror eq_refl)) as [Hmpl Hplotly].
  split; [rewrite Hmpl | rewrite Hplotly]; reflexivity.
Defined.

Section NoPoints.
Context {R : Type}.
Variable est : estimator R.
Variable float_power : float -> float -> float.

Lemma plot_DDGs_data_nil map_positive symmetrise :
  plotting.plot_DDGs_data [] map_positive symmetrise = ([], []).
Proof. destruct map_positive, symmetrise; reflexivity. Qed.

Lemma combinations2_short {A : Type} (l : list A) :
  (length l < 2)%nat -> combinations2 l = [].
Proof.
  destruct l as [| a [| b l]]; simpl; intros Hlen; [reflexivity | reflexivity | lia].
Qed.

Lemma plot_all_DDGs_data_short (g : graph float) x_abs y_abs xabserr yabserr :
  (length g < 2)%nat ->
  omap (node_attr "f_i_exp") g = Return x_abs ->
  omap (node_attr "f_i_calc") g = Return y_abs ->
  omap (node_attr "df_i_exp") g = Return xabserr ->
  omap (node_attr "df_i_calc") g = Return yabserr ->
  plotting.plot_all_DDGs_data float_power g = Return ([], [], [], []).
Proof.
  intros Hlen Hx Hy Hxe Hye. unfold plotting.plot_all_DDGs_data.
  rewrite Hx, Hy, Hxe, Hye. simpl.
  rewrite combinations2_short; [reflexivity |].
  rewrite length_seq. apply omap_length in Hx. lia.
Qed.

End NoPoints.
Section NodeAttributes.
Context {F : Type}.

Lemma omap_node_attr_present (key : string) (g : graph F) :
  Forall (fun nd => is_Some (snd nd !! key)) g ->
  exists values, omap (node_attr key) g = Return values.
Proof.
  induction 1 as [| nd g [v Hv] _ [values IH]]; simpl.
  - exists []; reflexivity.
  - unfold node_attr at 1. rewrite Hv. simpl. rewrite IH. simpl. exists (v :: values); reflexivity.
Qed.

Lemma omap_node_attr_absent (key : string) (g : graph F) :
  Exists (fun nd => snd nd !! key = None) g ->
  omap (node_attr key) g = Raise (KeyError key).
Proof.
  induction 1 as [nd g Hnone | nd g _ IH]; simpl.
  - unfold node_attr at 1. rewrite Hnone. reflexivity.
  - unfold node_attr at 1. destruct (snd nd !! key); [| reflexivity]. simpl. rewrite IH. reflexivity.
Qed.

Lemma node_attr_cases (key : string) (nd : node F) :
  (exists v, node_attr key nd = Return v) \/ node_attr key nd = Raise (KeyError key).
Proof.
  unfold node_attr. destruct (snd nd !! key) as [v |]; [left; now exists v | now right].
Qed.

Lemma omap_node_attr_cases (key : string) (g : graph F) :
  (exists values, omap (node_attr key) g = Return values) \/
  omap (node_attr key) g = Raise (KeyError key).
Proof.
  induction g as [| nd g [[values IH] | IH]]; simpl.
  - left. exists []; reflexivity.
  - destruct (node_attr_cases key nd) as [[v ->] | ->]; [| right; reflexivity].
    left. simpl. rewrite IH. exists (v :: values); reflexivity.
  - destruct (node_attr_cases key nd) as [[v ->] | ->]; [| right; reflexivity].
    right. simpl. rewrite IH. reflexivity.
Qed.

Lemma has_attributes_present (g : graph F) (key : string) :
  Forall has_attributes g -> In key node_attributes ->
  exists values, omap (node_attr key) g = Return values.
Proof.
  intros Hg Hkey. apply omap_node_attr_present.
  eapply List.Forall_impl; [| exact Hg]. intros nd Hnd.
  unfold has_attributes in Hnd. rewrite List.Forall_forall in Hnd. now apply Hnd.
Qed.

End NodeAttributes.

Section NoPointsRuns.
Context {R : Type}.
Variable est : estimator R.
Variable float_power : float -> float -> float.

Lemma plot_all_DDGs_data_few (g : graph float) :
  (length g < 2)%nat -> Forall has_attributes g ->
  plotting.plot_all_DDGs_data float_power g = Return ([], [], [], []).
Proof.
  intros Hlen Hg.
  destruct (has_attributes_present g "f_i_exp" Hg) as [x_abs Hx]; [simpl; auto |].
  destruct (has_attributes_present g "f_i_calc" Hg) as [y_abs Hy]; [simpl; auto |].
  destruct (has_attributes_present g "df_i_exp" Hg) as [xabserr Hxe]; [simpl; auto |].
  destruct (has_attributes_present g "df_i_calc" Hg) as [yabserr Hye]; [simpl; auto |].
  eapply plot_all_DDGs_data_short; eassumption.
Qed.

End NoPointsRuns.

(** X2.  With nothing to plot, the three plot functions fail on [min] of an
    empty sequence: [plot_DDGs] on an empty list of results (whatever
    [map_positive] and [symmetrise]), [plot_DGs] on a graph without nodes,
    and [plot_all_DDGs] on a graph of fewer than two nodes (a single node
    gives no pair).  With plotly no call has been made by then; with pyplot
    an empty figure has been opened and labelled.  The estimator is not
    called and nothing is shown or written. *)
Theorem nothing_to_plot_raises_ValueError {R : Type} (est : estimator R)
  (float_power : float -> float -> float) smiles method_name_x method_name_y
  target_name title filename plotly :
  (forall map_positive symmetrise (w : world (list DDG_result) R),
     w_source w = [] ->
     plotting.plot_DDGs est smiles method_name_x method_name_y target_name title
       map_positive filename symmetrise plotly w =
     (Raise empty_min, w,
      if plotly then [] else plotting_preamble "$\Delta \Delta$ G" method_name_y)) /\
  (forall (w : world (graph float) R),
     w_source w = [] ->
     plotting.plot_DGs est smiles method_name_x method_name_y target_name title
       filename plotly w =
     (Raise empty_min, w,
      if plotly then [] else plotting_preamble "$\Delta$ G" method_name_y)) /\
  (forall (w : world (graph float) R),
     (length (w_source w) < 2)%nat -> Forall has_attributes (w_source w) ->
     plotting.plot_all_DDGs est float_power smiles method_name_x method_name_y
       target_name title filename plotly w =
     (Raise empty_min, w,
      if plotly then [] else plotting_preamble "$\Delta \Delta$ G" method_name_y)).
Proof.
  split; [| split].
  - intros map_positive symmetrise w Hsource.
    unfold plotting.plot_DDGs. rewrite run_bind. cbn [source].
    rewrite Hsource, plot_DDGs_data_nil.
    destruct plotly.
    + rewrite plotly_master_plot_empty by now left. reflexivity.
    + rewrite mpl_master_plot_empty by now left. reflexivity.
  - intros w Hsource.
    unfold plotting.plot_DGs. rewrite run_bind. cbn [source].
    rewrite Hsource, run_bind. cbn [lift plotting.plot_DGs_data omap obind np_sub_scalar map].
    destruct plotly.
    + rewrite plotly_master_plot_empty by now left. reflexivity.
    + rewrite mpl_master_plot_empty by now left. reflexivity.
  - intros w Hlen Hattr.
    unfold plotting.plot_all_DDGs. rewrite run_bind. cbn [source].
    rewrite run_bind. cbn [lift]. rewrite plot_all_DDGs_data_few by assumption.
    destruct plotly.
    + rewrite plotly_master_plot_empty by now left. reflexivity.
    + rewrite mpl_master_plot_empty by now left. reflexivity.
Qed.

(** A graph of one node has no pair of nodes. *)
Lemma nothing_to_plot_raises_ValueError_witness :
  outcome_of (plotting.plot_all_DDGs demo_estimator demo_power None "Experimental" "perses"
                "Thrombin" "" None true
                (demo_world [demo_node "lig_a" 0.1 0.3 0.01 0.02]%float)) =
  Raise empty_min.
Proof.
  assert (Hattr : Forall has_attributes [demo_node "lig_a" 0.1 0.3 0.01 0.02]%float).
  { repeat constructor; vm_compute; eexists; reflexivity. }
  rewrite (proj2 (proj2 (nothing_to_plot_raises_ValueError demo_estimator demo_power None
             "Experimental" "perses" "Thrombin" "" None true))
             (demo_world [demo_node "lig_a" 0.1 0.3 0.01 0.02]%float)
             ltac:(simpl; lia) Hattr).
  reflexivity.
Defined.
(** ** A node without its attributes *)

Section MissingAttribute.
Context {F : Type}.

Lemma lacks_true (key : string) (g : graph F) :
  lacks key g = true -> omap (node_attr key) g = Raise (KeyError key).
Proof.
  intros Hlacks. apply omap_node_attr_absent. apply List.Exists_exists.
  apply existsb_exists in Hlacks as (nd & Hin & Hnd). exists nd. split; [exact Hin |].
  destruct (snd nd !! key); [discriminate | reflexivity].
Qed.

Lemma lacks_false (key : string) (g : graph F) :
  lacks key g = false -> exists values, omap (node_attr key) g = Return values.
Proof.
  intros Hlacks. apply omap_node_attr_present. apply List.Forall_forall. intros nd Hin.
  destruct (snd nd !! key) as [v |] eqn:Hv; [now exists v |].
  assert (Htrue : lacks key g = true); [| congruence].
  apply existsb_exists. exists nd. split; [exact Hin |]. now rewrite Hv.
Qed.

End MissingAttribute.

(** The attributes [plot_DGs] and [plot_all_DDGs] read, up to the first one
    that some node lacks. *)
Lemma first_missing_attribute (g : graph float) (key : string) :
  find (fun key => lacks key g) node_attributes = Some key ->
  forall A (k : list float -> list float -> list float -> list float -> outcome A),
    (x_data <~ omap (node_attr "f_i_exp") g ;;
     y_data <~ omap (node_attr "f_i_calc") g ;;
     xerr <~ omap (node_attr "df_i_exp") g ;;
     yerr <~ omap (node_attr "df_i_calc") g ;;
     k x_data y_data xerr yerr)%outcome = Raise (KeyError key).
Proof.
  unfold node_attributes. cbn [find]. intros Hfind.
  repeat match type of Hfind with
  | (if lacks ?k g then _ else _) = _ =>
    let Hk := fresh "Hk" in
    destruct (lacks k g) eqn:Hk;
      [apply lacks_true in Hk; injection Hfind as <-
      | apply lacks_false in Hk as [? Hk]]
  end; try discriminate;
  repeat match goal with H : omap _ g = _ |- _ => rewrite H; clear H end;
  intros; reflexivity.
Qed.

(** X3.  When some node of the graph lacks one of the attributes
    [f_i_exp], [f_i_calc], [df_i_exp], [df_i_calc], both [plot_DGs] and
    [plot_all_DDGs] raise [KeyError] for the first of these, in this order,
    that a node lacks.  They have made no call by then: no figure is
    opened, the estimator is not run, and nothing is shown or written. *)
Theorem missing_attribute_raises_KeyError {R : Type} (est : estimator R)
  (float_power : float -> float -> float) smiles method_name_x method_name_y
  target_name title filename plotly (w : world (graph float) R) (key : string) :
  find (fun key => lacks key (w_source w)) node_attributes = Some key ->
  plotting.plot_DGs est smiles method_name_x method_name_y target_name title
    filename plotly w = (Raise (KeyError key), w, []) /\
  plotting.plot_all_DDGs est float_power smiles method_name_x method_name_y
    target_name title filename plotly w = (Raise (KeyError key), w, []).
Proof.
  intros Hfind. pose proof (first_missing_attribute _ _ Hfind) as Hraise.
  split.
  - unfold plotting.plot_DGs. rewrite run_bind. cbn [source]. rewrite run_bind.
    cbn [lift]. unfold plotting.plot_DGs_data. rewrite Hraise. reflexivity.
  - unfold plotting.plot_all_DDGs. rewrite run_bind. cbn [source]. rewrite run_bind.
    cbn [lift]. unfold plotting.plot_all_DDGs_data. rewrite Hraise. reflexivity.
Qed.

(** The second node has no calculated value. *)
Lemma missing_attribute_raises_KeyError_witness :
  let g := [ demo_node "lig_a" 0.1 0.3 0.01 0.02;
             ("lig_b", {[ "f_i_exp" := 0.2; "df_i_exp" := 0.01 ]}) ]%float in
  trace_of (plotting.plot_DGs demo_estimator None "Experimental" "perses" "Thrombin" ""
              None false (demo_world g)) = [] /\
  outcome_of (plotting.plot_all_DDGs demo_estimator demo_power None "Experimental"
                "perses" "Thrombin" "" None true (demo_world g)) =
  Raise (KeyError "f_i_calc").
Proof.
  intros g.
  pose proof (missing_attribute_raises_KeyError demo_estimator demo_power None
                "Experimental" "perses" "Thrombin" "" None false (demo_world g)
                "f_i_calc" eq_refl) as [HDGs _].
  pose proof (missing_attribute_raises_KeyError demo_estimator demo_power None
                "Experimental" "perses" "Thrombin" "" None true (demo_world g)
                "f_i_calc" eq_refl) as [_ Hall].
  rewrite HDGs, Hall. split; reflexivity.
Defined.

(** ** A frame without rows *)

(** X4.  On a data frame without rows [plot_bar] raises
    [ZeroDivisionError]: the size of the experiment markers is the figure
    height divided by the number of rows.  This comes before any column is
    read and before the figure is created, so nothing is drawn, shown or
    written, whatever the columns asked for. *)
Theorem plot_bar_without_rows_raises_ZeroDivisionError {S R : Type} (df : DataFrame)
  ddg_cols error_cols exp_col exp_error_col name_col title filename (w : world S R) :
  df_rows df = 0%nat ->
  plotlying.plot_bar df ddg_cols error_cols exp_col exp_error_col name_col title
    filename w = (Raise ZeroDivisionError, w, []).
Proof.
  intros Hrows. unfold plotlying.plot_bar. rewrite run_bind, Hrows. reflexivity.
Qed.

(** An empty frame, with columns the frame does not even have. *)
Lemma plot_bar_without_rows_raises_ZeroDivisionError_witness :
  plotlying.plot_bar {| df_rows := 0; df_numeric := ∅; df_labels := ∅ |}
    ["perses"] ["dperses"] (Some "exp") "dexp" "edge" "" None (demo_world tt) =
  (Raise ZeroDivisionError, demo_world tt, []).
Proof.
  apply plot_bar_without_rows_raises_ZeroDivisionError. reflexivity.
Defined.
(** ** The plot functions, end to end *)

Section PlotFunctions.
Context {R : Type}.
Variable est : estimator R.
Variable float_power : float -> float -> float.

Lemma plot_DDGs_propagates smiles method_name_x method_name_y target_name title
  map_positive filename symmetrise plotly :
  propagates (plotting.plot_DDGs est smiles method_name_x method_name_y target_name
                title map_positive filename symmetrise plotly).
Proof.
  unfold plotting.plot_DDGs. repeat propagates_step;
    [apply plotly_master_plot_propagates | apply mpl_master_plot_propagates].
Qed.

Lemma plot_DGs_propagates smiles method_name_x method_name_y target_name title filename plotly :
  propagates (plotting.plot_DGs est smiles method_name_x method_name_y target_name
                title filename plotly).
Proof.
  unfold plotting.plot_DGs. repeat propagates_step;
    [apply plotly_master_plot_propagates | apply mpl_master_plot_propagates].
Qed.

Lemma plot_all_DDGs_propagates smiles method_name_x method_name_y target_name title
  filename plotly :
  propagates (plotting.plot_all_DDGs est float_power smiles method_name_x method_name_y
                target_name title filename plotly).
Proof.
  unfold plotting.plot_all_DDGs. repeat propagates_step;
    [apply plotly_master_plot_propagates | apply mpl_master_plot_propagates].
Qed.

Lemma plot_DDGs_exports smiles method_name_x method_name_y target_name title
  map_positive filename symmetrise plotly :
  exports [backend_export plotly filename]
    (plotting.plot_DDGs est smiles method_name_x method_name_y target_name
       title map_positive filename symmetrise plotly).
Proof.
  unfold plotting.plot_DDGs. repeat exports_step;
    [apply plotly_master_plot_exports | apply mpl_master_plot_exports].
Qed.

Lemma plot_DGs_exports smiles method_name_x method_name_y target_name title filename plotly :
  exports [backend_export plotly filename]
    (plotting.plot_DGs est smiles method_name_x method_name_y target_name
       title filename plotly).
Proof.
  unfold plotting.plot_DGs. repeat exports_step;
    [apply plotly_master_plot_exports | apply mpl_master_plot_exports].
Qed.

Lemma plot_all_DDGs_exports smiles method_name_x method_name_y target_name title
  filename plotly :
  exports [backend_export plotly filename]
    (plotting.plot_all_DDGs est float_power smiles method_name_x method_name_y
       target_name title filename plotly).
Proof.
  unfold plotting.plot_all_DDGs. repeat exports_step;
    [apply plotly_master_plot_exports | apply mpl_master_plot_exports].
Qed.

End PlotFunctions.

(** X5.  pyplot's [_master_plot] ends a run that returns with exactly one
    call that shows or writes the figure: [plt.show()] without a file name,
    [plt.savefig] with the file name as it was given, whatever its
    extension.  A run that raises has shown and written nothing. *)
Theorem pyplot_shows_or_saves_once {S R : Type} (est : estimator R) x y title xerr yerr
  method_name target_name plot_type guidelines origins statistics filename
  (w : world S R) :
  let run := plotting._master_plot est x y title xerr yerr method_name target_name
               plot_type guidelines origins statistics filename w in
  filter (fun ev => is_export ev = true) (trace_of run) =
  match outcome_of run with
  | Return _ => [match filename with None => plt_show | Some f => plt_savefig f end]
  | Raise _ => []
  end.
Proof. intros run. apply mpl_master_plot_exports. Qed.

(** X6.  Each of [plot_DDGs], [plot_DGs] and [plot_all_DDGs] shows or writes
    the figure exactly once when it returns, by the rule of the backend it
    was asked for, and shows and writes nothing when it raises, whether
    the exception comes from the data, from the plot or from the
    estimator. *)
Theorem plot_functions_export_once {R : Type} (est : estimator R)
  (float_power : float -> float -> float) smiles method_name_x method_name_y
  target_name title filename plotly :
  (forall map_positive symmetrise (w : world (list DDG_result) R),
     let run := plotting.plot_DDGs est smiles method_name_x method_name_y target_name
                  title map_positive filename symmetrise plotly w in
     filter (fun ev => is_export ev = true) (trace_of run) =
     match outcome_of run with
     | Return _ => [backend_export plotly filename]
     | Raise _ => []
     end) /\
  (forall (w : world (graph float) R),
     let run := plotting.plot_DGs est smiles method_name_x method_name_y target_name
                  title filename plotly w in
     filter (fun ev => is_export ev = true) (trace_of run) =
     match outcome_of run with
     | Return _ => [backend_export plotly filename]
     | Raise _ => []
     end) /\
  (forall (w : world (graph float) R),
     let run := plotting.plot_all_DDGs est float_power smiles method_name_x
                  method_name_y target_name title filename plotly w in
     filter (fun ev => is_export ev = true) (trace_of run) =
     match outcome_of run with
     | Return _ => [backend_export plotly filename]
     | Raise _ => []
     end).
Proof.
  split; [| split]; intros.
  - apply plot_DDGs_exports.
  - apply plot_DGs_exports.
  - apply plot_all_DDGs_exports.
Qed.

(** X7.  An exception of the estimator is the exception of the plot
    function that called it: when a call of the estimator raises [e] in
    [plot_DDGs], [plot_DGs] or [plot_all_DDGs], with either backend, the
    function raises [e], and it has not shown or written the figure. *)
Theorem estimator_error_ends_plot_functions {R : Type} (est : estimator R)
  (float_power : float -> float -> float) smiles method_name_x method_name_y
  target_name title filename plotly x y xerr yerr statistic e :
  let failure := stats_bootstrap_statistic x y xerr yerr statistic (Raise e) in
  (forall map_positive symmetrise (w : world (list DDG_result) R),
     let run := plotting.plot_DDGs est smiles method_name_x method_name_y target_name
                  title map_positive filename symmetrise plotly w in
     In failure (trace_of run) ->
     outcome_of run = Raise e /\ Forall (fun ev => is_export ev = false) (trace_of run)) /\
  (forall (w : world (graph float) R),
     let run := plotting.plot_DGs est smiles method_name_x method_name_y target_name
                  title filename plotly w in
     In failure (trace_of run) ->
     outcome_of run = Raise e /\ Forall (fun ev => is_export ev = false) (trace_of run)) /\
  (forall (w : world (graph float) R),
     let run := plotting.plot_all_DDGs est float_power smiles method_name_x
                  method_name_y target_name title filename plotly w in
     In failure (trace_of run) ->
     outcome_of run = Raise e /\ Forall (fun ev => is_export ev = false) (trace_of run)).
Proof.
  intros failure. split; [| split]; intros; subst run failure.
  - assert (Hout := plot_DDGs_propagates est _ _ _ _ _ _ _ _ _ _ _ _ _ _ _ _ H).
    split; [exact Hout |].
    eapply raise_exports_nothing; [apply plot_DDGs_exports | exact Hout].
  - assert (Hout := plot_DGs_propagates est _ _ _ _ _ _ _ _ _ _ _ _ _ _ H).
    split; [exact Hout |].
    eapply raise_exports_nothing; [apply plot_DGs_exports | exact Hout].
  - assert (Hout := plot_all_DDGs_propagates est float_power _ _ _ _ _ _ _ _ _ _ _ _ _ _ H).
    split; [exact Hout |].
    eapply raise_exports_nothing; [apply plot_all_DDGs_exports | exact Hout].
Qed.

(** Two nodes with the same experimental value are centred to two zeros,
    and the estimator refuses R2, the third statistic of [plot_DGs]. *)
Lemma estimator_error_ends_plot_functions_witness :
  let x := [0; 0]%float in
  let y := np_sub_scalar [0.3; 0.5]%float (np_mean [0.3; 0.5]%float) in
  let xerr := Some [0.01; 0.01]%float in
  let yerr := Some [0.02; 0.02]%float in
  let run := plotting.plot_DGs demo_estimator None "Experimental" "perses" "Thrombin" ""
               (Some "DGs.png") false (demo_world flat_graph) in
  In (stats_bootstrap_statistic x y xerr yerr "R2" (Raise UndefinedStatistic)) (trace_of run) /\
  outcome_of run = Raise UndefinedStatistic /\
  Forall (fun ev => is_export ev = false) (trace_of run).
Proof.
  intros x y xerr yerr run.
  assert (Hin : In (stats_bootstrap_statistic x y xerr yerr "R2" (Raise UndefinedStatistic))
                   (trace_of run)).
  { vm_compute. repeat first [left; reflexivity | right]. }
  split; [exact Hin |]. subst run.
  exact (proj1 (proj2 (estimator_error_ends_plot_functions demo_estimator demo_power None
           "Experimental" "perses" "Thrombin" "" (Some "DGs.png") false x y xerr yerr "R2"
           UndefinedStatistic)) (demo_world flat_graph) Hin).
Defined.
(** ** The points, their error bars and the estimator *)

Section DrawnAndScored.
Context {S R : Type}.
Variable est : estimator R.



End DrawnAndScored.

Section DrawnByPlotFunctions.
Context {R : Type}.
Variable est : estimator R.


End DrawnByPlotFunctions.



(** ** The statistics the plots ask for *)

(** X10.  Either [_master_plot] calls the estimator for the statistics in
    the order of the list it was given, once for each, and makes no further
    call after one that raised; a run that returns has made one call for
    every statistic of the list.  This holds whether or not the run
    returns, also when it fails before the first call. *)
Theorem estimator_is_called_in_list_order {S R : Type} (est : estimator R)
  (x y : list float) (statistics : list string) :
  (forall title xerr yerr method_name target_name plot_type guidelines origins
          filename (w : world S R),
     let run := plotting._master_plot est x y title xerr yerr method_name target_name
                  plot_type guidelines origins statistics filename w in
     let calls := flat_map calls_made (trace_of run) in
     in_order statistics calls /\
     (forall a, outcome_of run = Return a -> length calls = length statistics)) /\
  (forall c title xerr yerr names smiles method_name_x method_name_y target_name
          plot_type guidelines origins filename (w : world S R),
     let run := plotlying._master_plot est x y c title xerr yerr names smiles
                  method_name_x method_name_y target_name plot_type guidelines origins
                  statistics filename w in
     let calls := flat_map calls_made (trace_of run) in
     in_order statistics calls /\
     (forall a, outcome_of run = Return a -> length calls = length statistics)).
Proof.
  split; intros.
  - apply mpl_master_plot_polls.
  - apply plotly_master_plot_polls.
Qed.

(** Two statistics on two points, with pyplot: both are asked for. *)
Lemma estimator_is_called_in_list_order_witness :
  let run := plotting._master_plot demo_estimator [1; 2]%float [1.5; 2]%float "" None None
               "" "" "" true true ["RMSE"; "MUE"] None (demo_world tt) in
  let calls := flat_map calls_made (trace_of run) in
  in_order ["RMSE"; "MUE"] calls /\ length calls = 2%nat.
Proof.
  intros run calls.
  destruct (proj1 (estimator_is_called_in_list_order (S := unit) demo_estimator
                     [1; 2]%float [1.5; 2]%float ["RMSE"; "MUE"])
              "" None None "" "" "" true true None (demo_world tt)) as [Horder Hall].
  split; [exact Horder | apply (Hall tt); vm_compute; reflexivity].
Defined.

(** X11.  The statistics of the plot functions are fixed: [plot_DGs] asks
    the estimator for RMSE, MUE, R2 and rho, [plot_DDGs] and
    [plot_all_DDGs] for RMSE and MUE, in these orders, with either
    backend; a call that returns has asked for all of them, and none is
    asked for after a failure. *)
Theorem plot_functions_ask_for_their_statistics {R : Type} (est : estimator R)
  (float_power : float -> float -> float) smiles method_name_x method_name_y
  target_name title filename plotly :
  (forall map_positive symmetrise (w : world (list DDG_result) R),
     let run := plotting.plot_DDGs est smiles method_name_x method_name_y target_name
                  title map_positive filename symmetrise plotly w in
     let calls := flat_map calls_made (trace_of run) in
     in_order ["RMSE"; "MUE"] calls /\
     (outcome_of run = Return tt -> map fst calls = ["RMSE"; "MUE"])) /\
  (forall (w : world (graph float) R),
     let run := plotting.plot_DGs est smiles method_name_x method_name_y target_name
                  title filename plotly w in
     let calls := flat_map calls_made (trace_of run) in
     in_order ["RMSE"; "MUE"; "R2"; "rho"] calls /\
     (outcome_of run = Return tt -> map fst calls = ["RMSE"; "MUE"; "R2"; "rho"])) /\
  (forall (w : world (graph float) R),
     let run := plotting.plot_all_DDGs est float_power smiles method_name_x
                  method_name_y target_name title filename plotly w in
     let calls := flat_map calls_made (trace_of run) in
     in_order ["RMSE"; "MUE"] calls /\
     (outcome_of run = Return tt -> map fst calls = ["RMSE"; "MUE"])).
Proof.
  assert (Hnames : forall statistics calls,
             in_order statistics calls -> length calls = length statistics ->
             map fst calls = statistics).
  { intros statistics calls. revert statistics.
    induction calls as [| [st [s | e]] calls IH]; intros [| st' statistics]; simpl;
      try discriminate; try contradiction; auto.
    - intros [-> Horder] [= Hlen]. f_equal. now apply IH.
    - intros [-> ->] [= Hlen]. destruct statistics; [reflexivity | discriminate]. }
  split; [| split]; intros; subst calls run.
  - destruct (plot_DDGs_polls est smiles method_name_x method_name_y target_name title
                map_positive filename symmetrise plotly w) as [Horder Hall].
    split; [exact Horder |]. intros Hout. apply Hnames; [exact Horder | exact (Hall _ Hout)].
  - destruct (plot_DGs_polls est smiles method_name_x method_name_y target_name title
                filename plotly w) as [Horder Hall].
    split; [exact Horder |]. intros Hout. apply Hnames; [exact Horder | exact (Hall _ Hout)].
  - destruct (plot_all_DDGs_polls est float_power smiles method_name_x method_name_y
                target_name title filename plotly w) as [Horder Hall].
    split; [exact Horder |]. intros Hout. apply Hnames; [exact Horder | exact (Hall _ Hout)].
Qed.

(** The graph of three nodes, with pyplot. *)
Lemma plot_functions_ask_for_their_statistics_witness :
  map fst (flat_map calls_made
             (trace_of (plotting.plot_DGs demo_estimator None "Experimental" "perses"
                          "Thrombin" "" None false (demo_world demo_graph3)))) =
  ["RMSE"; "MUE"; "R2"; "rho"].
Proof.
  apply (proj1 (proj2 (plot_functions_ask_for_their_statistics demo_estimator demo_power
           None "Experimental" "perses" "Thrombin" "" None false))).
  vm_compute. reflexivity.
Defined.
(** ** What pyplot has drawn when the estimator is called *)

Section DrawnFirstFacts.
Context {S R : Type}.

Lemma calls_after_quiet_bind {A B : Type} (P : event -> Prop) (m : M S R A)
  (k : A -> M S R B) :
  calls_nothing m -> (forall a, calls_after P (k a)) -> calls_after P (bind m k).
Proof.
  intros Hm Hk w Hcalls. pose proof (calls_nothing_run m w Hm) as Hq.
  destruct (bind_cases m k w) as [(a & _ & _ & _ & Ht) | (e & _ & _ & _ & Ht)];
    rewrite Ht in *.
  - rewrite flat_map_app, Hq in Hcalls. apply List.Exists_app. right. now apply Hk.
  - contradiction.
Qed.

Lemma calls_after_emit {B : Type} (P : event -> Prop) (ev : event) (k : unit -> M S R B) :
  P ev -> calls_after P (bind (emit ev) k).
Proof.
  intros Hev w _. unfold bind, emit, trace_of. destruct (k tt w) as [[o w2] t2]. simpl.
  now apply List.Exists_cons_hd.
Qed.

End DrawnFirstFacts.

Ltac calls_after_step :=
  lazymatch goal with
  | |- calls_after _ (bind (emit _) _) =>
    first [ apply calls_after_emit; solve [reflexivity | eexists; reflexivity]
          | apply calls_after_quiet_bind;
            [unfold calls_nothing; repeat trace_all_step; reflexivity | intros ?] ]
  | |- calls_after _ (bind _ _) =>
    apply calls_after_quiet_bind;
    [unfold calls_nothing; repeat trace_all_step; reflexivity | intros ?]
  end.

(** X12.  pyplot's [_master_plot] draws before it scores: whenever the
    estimator has been called, the figure has been opened and the points
    drawn with their error bars.  So a failure of the estimator, which ends
    the call without [plt.show] or [plt.savefig], leaves the drawn figure
    behind as pyplot's current figure. *)
Theorem pyplot_has_drawn_when_the_estimator_is_called {S R : Type} (est : estimator R)
  x y title xerr yerr method_name target_name plot_type guidelines origins statistics
  filename (w : world S R) :
  let run := plotting._master_plot est x y title xerr yerr method_name target_name
               plot_type guidelines origins statistics filename w in
  flat_map calls_made (trace_of run) <> [] ->
  In (plt_figure 6 6) (trace_of run) /\
  In (plt_errorbar x y xerr yerr) (trace_of run) /\
  (exists clr, In (plt_scatter x y clr) (trace_of run)) /\
  (forall e, outcome_of run = Raise e ->
             Forall (fun ev => is_export ev = false) (trace_of run)).
Proof.
  intros run Hcalls. subst run.
  assert (Hfigure : calls_after (S := S) (eq (plt_figure 6 6))
            (plotting._master_plot est x y title xerr yerr method_name target_name
               plot_type guidelines origins statistics filename)).
  { unfold plotting._master_plot. repeat calls_after_step. }
  assert (Hbars : calls_after (S := S) (eq (plt_errorbar x y xerr yerr))
            (plotting._master_plot est x y title xerr yerr method_name target_name
               plot_type guidelines origins statistics filename)).
  { unfold plotting._master_plot. repeat calls_after_step. }
  assert (Hscatter : calls_after (S := S) (fun ev => exists clr, plt_scatter x y clr = ev)
            (plotting._master_plot est x y title xerr yerr method_name target_name
               plot_type guidelines origins statistics filename)).
  { unfold plotting._master_plot. repeat calls_after_step. }
  specialize (Hfigure w Hcalls). specialize (Hbars w Hcalls). specialize (Hscatter w Hcalls).
  apply List.Exists_exists in Hfigure as (ev & Hin & <-).
  apply List.Exists_exists in Hbars as (ev' & Hin' & <-).
  apply List.Exists_exists in Hscatter as (ev'' & Hin'' & clr & <-).
  split; [exact Hin | split; [exact Hin' | split; [now exists clr |]]].
  intros e Hout. eapply raise_exports_nothing; [apply mpl_master_plot_exports | exact Hout].
Qed.

(** The estimator refuses R2 on two identical experimental values; the
    figure has been drawn by then. *)
Lemma pyplot_has_drawn_when_the_estimator_is_called_witness :
  let x := [1; 1]%float in
  let y := [1.5; 2]%float in
  let run := plotting._master_plot demo_estimator x y "" None None "" "" "" true true
               ["R2"] None (demo_world tt) in
  outcome_of run = Raise UndefinedStatistic /\
  In (plt_figure 6 6) (trace_of run) /\
  In (plt_errorbar x y None None) (trace_of run).
Proof.
  intros x y run.
  assert (Hcalls : flat_map calls_made (trace_of run) <> []) by (vm_compute; discriminate).
  split; [vm_compute; reflexivity |].
  destruct (pyplot_has_drawn_when_the_estimator_is_called demo_estimator x y "" None None
              "" "" "" true true ["R2"] None (demo_world tt) Hcalls)
    as (Hfigure & Hbars & _).
  split; [exact Hfigure | exact Hbars].
Defined.
(** ** The number of points in the title *)

Section TitleFacts.
Context {S R : Type}.

Lemma sets_no_title_run {A : Type} (m : M S R A) (w : world S R) :
  sets_no_title m -> flat_map figure_title (trace_of (m w)) = [].
Proof.
  intros Hm. specialize (Hm w).
  induction Hm as [| ev t Hev _ IH]; [reflexivity |]. simpl. now rewrite Hev, IH.
Qed.

Lemma sets_title_quiet_bind {A B : Type} (P : string -> Prop) (m : M S R A)
  (k : A -> M S R B) :
  sets_no_title m -> (forall a, sets_title P (k a)) -> sets_title P (bind m k).
Proof.
  intros Hm Hk w b w' t Hrun.
  apply bind_inv in Hrun as (a & w1 & t1 & t2 & Hm1 & Hk1 & ->).
  pose proof (sets_no_title_run m w Hm) as Hq. rewrite Hm1 in Hq. cbn in Hq.
  rewrite flat_map_app, Hq. exact (Hk a w1 b w' t2 Hk1).
Qed.

Lemma sets_title_emit {B : Type} (P : string -> Prop) (ev : event) (T : string)
  (k : unit -> M S R B) :
  figure_title ev = [T] -> P T -> (forall u, sets_no_title (k u)) ->
  sets_title P (bind (emit ev) k).
Proof.
  intros Hev HT Hk w b w' t Hrun.
  apply bind_inv in Hrun as (a & w1 & t1 & t2 & Hm1 & Hk1 & ->).
  apply emit_inv in Hm1 as (_ & -> & ->).
  pose proof (sets_no_title_run (k a) w (Hk a)) as Hq. rewrite Hk1 in Hq. cbn in Hq.
  exists T. cbn [app flat_map]. rewrite Hev, Hq. split; [reflexivity | exact HT].
Qed.

End TitleFacts.

Ltac sets_title_step :=
  lazymatch goal with
  | |- sets_title _ (bind (emit (plt_title _)) _) =>
    eapply sets_title_emit;
    [reflexivity | eexists; reflexivity
     | intros ?; unfold sets_no_title; repeat trace_all_step; reflexivity]
  | |- sets_title _ (bind (emit (fig_update_layout _ _ _ _ _ _ _)) _) =>
    eapply sets_title_emit;
    [reflexivity | eexists; reflexivity
     | intros ?; unfold sets_no_title; repeat trace_all_step; reflexivity]
  | |- sets_title _ (bind _ _) =>
    apply sets_title_quiet_bind;
    [unfold sets_no_title; repeat trace_all_step; reflexivity | intros ?]
  end.

Section TitleRoutines.
Context {S R : Type}.
Variable est : estimator R.

Lemma mpl_master_plot_sets_title x y title xerr yerr method_name target_name
  plot_type guidelines origins statistics filename :
  sets_title (fun T => exists statistics_string,
                T = title_with_count false title target_name (length x) statistics_string)
    (plotting._master_plot (S := S) est x y title xerr yerr method_name target_name
       plot_type guidelines origins statistics filename).
Proof. unfold plotting._master_plot, title_with_count. repeat sets_title_step. Qed.

Lemma plotly_master_plot_sets_title x y c title xerr yerr names smiles
  method_name_x method_name_y target_name plot_type guidelines origins statistics filename :
  sets_title (fun T => exists statistics_string,
                T = title_with_count true title target_name (length x) statistics_string)
    (plotlying._master_plot (S := S) est x y c title xerr yerr names smiles method_name_x
       method_name_y target_name plot_type guidelines origins statistics filename).
Proof. unfold plotlying._master_plot, title_with_count. repeat sets_title_step. Qed.

End TitleRoutines.
Section PlottedCounts.
Variable float_power : float -> float -> float.

Lemma plot_DDGs_data_length (results : list DDG_result) (map_positive symmetrise : bool) :
  let n := if map_positive && symmetrise then (2 * length results)%nat else length results in
  length (fst (plotting.plot_DDGs_data results map_positive symmetrise)) = n /\
  length (snd (plotting.plot_DDGs_data results map_positive symmetrise)) = n.
Proof.
  destruct map_positive, symmetrise; cbn [andb];
    try rewrite plot_DDGs_data_positive; unfold plotting.plot_DDGs_data; cbn [negb fst snd];
    rewrite ?length_app, !length_map; split; lia.
Qed.

Lemma all_DDGs_loop_length x_abs y_abs xabserr yabserr (pairs : list (nat * nat)) :
  forall x_data y_data xerr yerr x_data' y_data' xerr' yerr',
    ofor pairs (plotting.all_DDGs_step float_power x_abs y_abs xabserr yabserr)
         (x_data, y_data, xerr, yerr) = Return (x_data', y_data', xerr', yerr') ->
    length x_data' = (length x_data + 2 * length pairs)%nat.
Proof.
  induction pairs as [| [a b] pairs IH]; intros x_data y_data xerr yerr x' y' xe' ye' Hrun.
  - injection Hrun as <- _ _ _. simpl. lia.
  - cbn [ofor] in Hrun. unfold plotting.all_DDGs_step at 1 in Hrun.
    repeat match type of Hrun with
    | context [index ?l ?i] => destruct (index l i); cbn [obind] in Hrun; [| discriminate]
    end.
    apply IH in Hrun. rewrite Hrun, length_app. simpl. lia.
Qed.

Lemma plot_all_DDGs_data_length (g : graph float) x_data y_data xerr yerr :
  plotting.plot_all_DDGs_data float_power g = Return (x_data, y_data, xerr, yerr) ->
  length x_data = (length g * (length g - 1))%nat.
Proof.
  unfold plotting.plot_all_DDGs_data. intros Hdata.
  destruct (omap (node_attr "f_i_exp") g) as [x_abs |] eqn:Hx; [| discriminate].
  destruct (omap (node_attr "f_i_calc") g) as [y_abs |]; [| discriminate].
  destruct (omap (node_attr "df_i_exp") g) as [xabserr |]; [| discriminate].
  destruct (omap (node_attr "df_i_calc") g) as [yabserr |]; [| discriminate].
  cbn [obind] in Hdata. apply all_DDGs_loop_length in Hdata.
  apply omap_length in Hx. rewrite Hx in Hdata.
  pose proof (combinations2_length (seq 0 (length g))) as Hlen.
  rewrite length_seq in Hlen. simpl in Hdata. lia.
Qed.

Lemma plot_DGs_data_length (g : graph float) x_data y_data xerr yerr :
  plotting.plot_DGs_data g = Return (x_data, y_data, xerr, yerr) ->
  length x_data = length g.
Proof.
  intros Hdata. apply plot_DGs_data_inv in Hdata as (xs & ys & Hx & _ & _ & _ & -> & _).
  rewrite length_map. now apply omap_length in Hx.
Qed.

End PlottedCounts.

(** X13.  The N in the title of the figure is the number of plotted points,
    not of records or nodes: for [n] results [plot_DDGs] reports [2 n] when
    it symmetrises (with [map_positive]) and [n] otherwise; for a graph of
    [n] nodes [plot_DGs] reports [n] and [plot_all_DDGs] reports
    [n (n - 1)], every pair of nodes counting twice.  The title is set once
    in a call that returns. *)
Theorem title_counts_the_plotted_points {R : Type} (est : estimator R)
  (float_power : float -> float -> float) smiles method_name_x method_name_y
  target_name title filename plotly :
  (forall map_positive symmetrise (w : world (list DDG_result) R),
     let run := plotting.plot_DDGs est smiles method_name_x method_name_y target_name
                  title map_positive filename symmetrise plotly w in
     let n := length (w_source w) in
     outcome_of run = Return tt ->
     exists statistics_string,
       flat_map figure_title (trace_of run) =
       [title_with_count plotly title target_name
          (if map_positive && symmetrise then 2 * n else n) statistics_string]) /\
  (forall (w : world (graph float) R),
     let run := plotting.plot_DGs est smiles method_name_x method_name_y target_name
                  title filename plotly w in
     let n := length (w_source w) in
     outcome_of run = Return tt ->
     exists statistics_string,
       flat_map figure_title (trace_of run) =
       [title_with_count plotly title target_name n statistics_string]) /\
  (forall (w : world (graph float) R),
     let run := plotting.plot_all_DDGs est float_power smiles method_name_x
                  method_name_y target_name title filename plotly w in
     let n := length (w_source w) in
     outcome_of run = Return tt ->
     exists statistics_string,
       flat_map figure_title (trace_of run) =
       [title_with_count plotly title target_name (n * (n - 1)) statistics_string]).
Proof.
  split; [| split].
  - intros map_positive symmetrise w run n Hout. subst run n.
    destruct (plotting.plot_DDGs _ _ _ _ _ _ _ _ _ _ w) as [[o w'] t] eqn:Hrun.
    cbn in Hout. subst o. cbn [trace_of snd].
    unfold plotting.plot_DDGs in Hrun.
    apply bind_inv in Hrun as (results & w1 & t1 & t2 & [= <- <- <-] & Hrun & ->).
    destruct (plot_DDGs_data_length (w_source w) map_positive symmetrise) as [Hlen _].
    destruct (plotting.plot_DDGs_data (w_source w) map_positive symmetrise)
      as [x_data y_data].
    cbn [fst] in Hlen. rewrite <- Hlen. cbn [app]. destruct plotly.
    + apply plotly_master_plot_sets_title in Hrun as (T & -> & s & ->). now exists s.
    + apply mpl_master_plot_sets_title in Hrun as (T & -> & s & ->). now exists s.
  - intros w run n Hout. subst run n.
    destruct (plotting.plot_DGs _ _ _ _ _ _ _ _ w) as [[o w'] t] eqn:Hrun.
    cbn in Hout. subst o. cbn [trace_of snd].
    unfold plotting.plot_DGs in Hrun.
    apply bind_inv in Hrun as (g & w1 & t1 & t2 & [= <- <- <-] & Hrun & ->).
    apply bind_inv in Hrun as ([[[x_data y_data] xerr] yerr] & w2 & t3 & t4 & Hdata & Hrun & ->).
    apply lift_inv in Hdata as (Hdata & -> & ->).
    rewrite <- (plot_DGs_data_length _ _ _ _ _ Hdata). cbn [app]. destruct plotly.
    + apply plotly_master_plot_sets_title in Hrun as (T & -> & s & ->). now exists s.
    + apply mpl_master_plot_sets_title in Hrun as (T & -> & s & ->). now exists s.
  - intros w run n Hout. subst run n.
    destruct (plotting.plot_all_DDGs _ _ _ _ _ _ _ _ _ w) as [[o w'] t] eqn:Hrun.
    cbn in Hout. subst o. cbn [trace_of snd].
    unfold plotting.plot_all_DDGs in Hrun.
    apply bind_inv in Hrun as (g & w1 & t1 & t2 & [= <- <- <-] & Hrun & ->).
    apply bind_inv in Hrun as ([[[x_data y_data] xerr] yerr] & w2 & t3 & t4 & Hdata & Hrun & ->).
    apply lift_inv in Hdata as (Hdata & -> & ->).
    rewrite <- (plot_all_DDGs_data_length _ _ _ _ _ _ Hdata). cbn [app]. destruct plotly.
    + apply plotly_master_plot_sets_title in Hrun as (T & -> & s & ->). now exists s.
    + apply mpl_master_plot_sets_title in Hrun as (T & -> & s & ->). now exists s.
Qed.

(** Three nodes make three pairs and six points. *)
Lemma title_counts_the_plotted_points_witness :
  exists statistics_string,
    flat_map figure_title
      (trace_of (plotting.plot_all_DDGs demo_estimator demo_power None "Experimental"
                   "perses" "Thrombin" "All pairs" None true (demo_world demo_graph3))) =
    ["All pairs<br>Thrombin (N = 6)<br>" +:+ statistics_string].
Proof.
  exact (proj2 (proj2 (title_counts_the_plotted_points demo_estimator demo_power None
           "Experimental" "perses" "Thrombin" "All pairs" None true))
           (demo_world demo_graph3) ltac:(vm_compute; reflexivity)).
Defined.
(** ** Arrays of different lengths, with pyplot *)

Section Undrawn.
Context {S R : Type}.

Lemma np_binop_mismatch (op : float -> float -> float) (x y : list float) :
  length x <> length y -> length x <> 1%nat -> length y <> 1%nat ->
  np_binop op x y = Raise (broadcast_error x y).
Proof.
  intros Hxy Hx Hy. unfold np_binop.
  destruct x as [| a [| a' x]], y as [| b [| b' y]];
    simpl in Hxy, Hx, Hy; try congruence; cbv beta iota;
    match goal with
    | |- (if ?c then _ else _) = _ => destruct c eqn:Heq
    end; try reflexivity; apply Nat.eqb_eq in Heq; simpl in Heq; congruence.
Qed.

Local Abbreviation result run := (outcome_of run, trace_of run).

Lemma undrawn_emit {B : Type} (ev : event) (k : unit -> M S R B) (w : world S R) :
  idle ev -> fails_undrawn (result (k tt w)) ->
  fails_undrawn (result (bind (emit ev) k w)).
Proof.
  unfold fails_undrawn, bind, emit, outcome_of, trace_of.
  destruct (k tt w) as [[o w2] t2]. simpl. intros Hev [Hout Ht].
  split; [exact Hout | now constructor].
Qed.

Lemma undrawn_lift_return {A B : Type} (a : A) (k : A -> M S R B) (w : world S R) :
  fails_undrawn (result (k a w)) ->
  fails_undrawn (result (bind (lift (Return a)) k w)).
Proof.
  unfold fails_undrawn, bind, lift, outcome_of, trace_of.
  destruct (k a w) as [[o w2] t2]. simpl. auto.
Qed.

Lemma undrawn_lift_raise {A B : Type} (msg : string) (k : A -> M S R B) (w : world S R) :
  fails_undrawn (result (bind (lift (Raise (ValueError msg))) k w)).
Proof. split; [now exists msg | constructor]. Qed.

Lemma undrawn_ret {A B : Type} (a : A) (k : A -> M S R B) (w : world S R) :
  fails_undrawn (result (k a w)) ->
  fails_undrawn (result (bind (ret a) k w)).
Proof. now rewrite run_ret_bind. Qed.

(** An expression that returns or raises a [ValueError]. *)
Lemma undrawn_lift {A B : Type} (o : outcome A) (k : A -> M S R B) (w : world S R) :
  (forall e, o = Raise e -> exists msg, e = ValueError msg) ->
  (forall a, o = Return a -> fails_undrawn (result (k a w))) ->
  fails_undrawn (result (bind (lift o) k w)).
Proof.
  intros Hraise Hreturn. destruct o as [a | e].
  - apply undrawn_lift_return. now apply Hreturn.
  - destruct (Hraise e eq_refl) as [msg ->]. apply undrawn_lift_raise.
Qed.

Lemma axis_limits_raises (scale : list float) (e : exn) :
  axis_limits scale = Raise e -> exists msg, e = ValueError msg.
Proof.
  unfold axis_limits. destruct (forallb is_finite scale); [discriminate |].
  intros [= <-]. now eexists.
Qed.

Lemma np_binop_raises (op : float -> float -> float) (x y : list float) (e : exn) :
  np_binop op x y = Raise e -> exists msg, e = ValueError msg.
Proof.
  unfold np_binop, broadcast_error.
  destruct x as [| a [| a' x]], y as [| b [| b' y]]; try discriminate;
    match goal with
    | |- (if ?c then _ else _) = _ -> _ => destruct c
    end; try discriminate; intros [= <-]; now eexists.
Qed.

End Undrawn.

Ltac undrawn_step :=
  lazymatch goal with
  | |- fails_undrawn (_ (bind (bind _ _) _ _), _) => rewrite bind_assoc
  | |- fails_undrawn (_ (bind (emit _) _ _), _) =>
    apply undrawn_emit; [repeat split; reflexivity |]
  | |- fails_undrawn (_ (bind (lift (Return _)) _ _), _) => apply undrawn_lift_return
  | |- fails_undrawn (_ (bind (lift (Raise (ValueError _))) _ _), _) =>
    apply undrawn_lift_raise
  | |- fails_undrawn (_ (bind (lift (axis_limits _)) _ _), _) =>
    apply undrawn_lift; [apply axis_limits_raises | intros ? _]
  | |- fails_undrawn (_ (bind (lift (np_sub _ _)) _ _), _) =>
    apply undrawn_lift; [apply np_binop_raises | intros ? _]
  | |- fails_undrawn (_ (bind (ret _) _ _), _) => apply undrawn_ret
  end.

Section Refused.
Context {S R : Type}.
Variable est : estimator R.

(** pyplot's [_master_plot] when [plt.errorbar] refuses its arguments: the
    call ends there, or before with another [ValueError], and no point is
    drawn. *)
Lemma mpl_master_plot_refused x y title xerr yerr method_name target_name plot_type
  guidelines origins statistics filename (w : world S R) :
  (exists msg, errorbar_args x y xerr yerr = Raise (ValueError msg)) ->
  let run := plotting._master_plot est x y title xerr yerr method_name target_name
               plot_type guidelines origins statistics filename w in
  fails_undrawn (outcome_of run, trace_of run).
Proof.
  intros [msg Hrefused] run. subst run. unfold plotting._master_plot. rewrite Hrefused.
  clear Hrefused.
  destruct x as [| a x], y as [| b y], origins, guidelines;
    cbn [py_min py_max when]; repeat undrawn_step.
Qed.

End Refused.

(** X9.  With [map_positive] and [symmetrise], [plot_DDGs] takes every
    result twice for the points, as it is and negated, but once for the
    error bars: for [n] results, [2 n] points and [n] error bars.  From two
    results on, plotly is handed these points with these error bars, in its
    trace of markers; pyplot is not: [plt.errorbar] refuses error bars that
    do not match the points, so the call raises [ValueError] (there, or
    before on axis limits that are not finite) without a point drawn, the
    estimator called or the figure shown or written. *)
Theorem symmetrised_points_outnumber_error_bars {R : Type} (est : estimator R)
  smiles method_name_x method_name_y target_name title filename
  (w : world (list DDG_result) R) :
  let results := w_source w in
  let x_data := map exp_DDG results ++ map (fun r => (- exp_DDG r)%float) results in
  let y_data := map calc_DDG results ++ map (fun r => (- calc_DDG r)%float) results in
  let xerr := map dexp_DDG results in
  let yerr := map dcalc_DDG results in
  let plotly_run := plotting.plot_DDGs est smiles method_name_x method_name_y target_name
                      title true filename true true w in
  let pyplot_run := plotting.plot_DDGs est smiles method_name_x method_name_y target_name
                      title true filename true false w in
  (2 <= length results)%nat ->
  (length x_data = (2 * length results)%nat /\
   length y_data = (2 * length results)%nat /\
   length xerr = length results /\
   length yerr = length results) /\
  draws true x_data y_data (Some xerr) (Some yerr) (trace_of plotly_run) /\
  (exists msg, outcome_of pyplot_run = Raise (ValueError msg)) /\
  Forall (fun ev => draws_points ev = false /\ calls_made ev = [] /\ is_export ev = false)
    (trace_of pyplot_run).
Proof.
  intros results x_data y_data xerr yerr plotly_run pyplot_run Hn.
  assert (Hlen : length x_data = (2 * length results)%nat /\
                 length y_data = (2 * length results)%nat /\
                 length xerr = length results /\ length yerr = length results).
  { subst x_data y_data xerr yerr. rewrite !length_app, !length_map. repeat split; lia. }
  destruct Hlen as (Lx & Ly & Lxerr & Lyerr).
  split; [repeat split; assumption |]. split.
  - assert (Hx : x_data <> []) by (intros Hnil; rewrite Hnil in Lx; simpl in Lx; lia).
    assert (Hy : y_data <> []) by (intros Hnil; rewrite Hnil in Ly; simpl in Ly; lia).
    exact (proj1 (proj2 (plot_DDGs_plots_and_scores est smiles method_name_x method_name_y
                           target_name title true filename true true w))
             eq_refl Hx Hy).
  - assert (Hrefused : exists msg,
              errorbar_args x_data y_data (Some xerr) (Some yerr) = Raise (ValueError msg)).
    { unfold errorbar_args. rewrite Lx, Ly, Nat.eqb_refl.
      unfold errorbar_err at 1. rewrite Lxerr.
      replace ((length results =? 2 * length results) || (length results =? 1))%nat
        with false.
      - cbn [obind]. unfold errorbar_error. now eexists.
      - symmetry. apply orb_false_iff. split; apply Nat.eqb_neq; lia. }
    subst pyplot_run. unfold plotting.plot_DDGs. rewrite run_source_bind.
    change (plotting.plot_DDGs_data (w_source w) true true) with (x_data, y_data).
    cbv beta iota zeta.
    exact (mpl_master_plot_refused est x_data y_data title (Some xerr) (Some yerr)
             method_name_y target_name "$\Delta \Delta$ G" true true ["RMSE"; "MUE"]
             filename w Hrefused).
Qed.

(** Two results: four points, two error bars. *)
Lemma symmetrised_points_outnumber_error_bars_witness :
  let x_data := [1; -2; -1; 2]%float in
  let y_data := [1.5; -1; -1.5; 1]%float in
  let xerr := Some [0.1; 0.1]%float in
  let yerr := Some [0.2; 0.2]%float in
  let pyplot_run := plotting.plot_DDGs demo_estimator None "Experimental" "perses"
                      "Thrombin" "" true None true false (demo_world demo_results) in
  draws true x_data y_data xerr yerr
    (trace_of (plotting.plot_DDGs demo_estimator None "Experimental" "perses" "Thrombin" ""
                 true None true true (demo_world demo_results))) /\
  (exists msg, outcome_of pyplot_run = Raise (ValueError msg)) /\
  Forall (fun ev => draws_points ev = false /\ calls_made ev = [] /\ is_export ev = false)
    (trace_of pyplot_run).
Proof.
  exact (proj2 (symmetrised_points_outnumber_error_bars demo_estimator None "Experimental"
                  "perses" "Thrombin" "" None (demo_world demo_results)
                  ltac:(simpl; lia))).
Defined.

(** X14.  pyplot's [_master_plot] subtracts [y] from [x] for the colours of
    the points.  When the two arrays differ in length and neither has a
    single element, which numpy would broadcast, this raises [ValueError]:
    the axes and guide lines are set up by then, but no point is drawn, the
    estimator is not called, and nothing is shown or written. *)
Theorem pyplot_refuses_arrays_of_different_lengths {S R : Type} (est : estimator R)
  x y title xerr yerr method_name target_name plot_type guidelines origins statistics
  filename (w : world S R) :
  length x <> length y -> length x <> 1%nat -> length y <> 1%nat ->
  let run := plotting._master_plot est x y title xerr yerr method_name target_name
               plot_type guidelines origins statistics filename w in
  (exists msg, outcome_of run = Raise (ValueError msg)) /\
  Forall (fun ev => draws_points ev = false /\ calls_made ev = [] /\ is_export ev = false)
    (trace_of run).
Proof.
  intros Hxy Hx Hy run. subst run.
  change (fails_undrawn
            (outcome_of (plotting._master_plot est x y title xerr yerr method_name
                           target_name plot_type guidelines origins statistics filename w),
             trace_of (plotting._master_plot est x y title xerr yerr method_name
                         target_name plot_type guidelines origins statistics filename w))).
  pose proof (np_binop_mismatch PrimFloat.sub x y Hxy Hx Hy) as Hsub.
  unfold plotting._master_plot. fold (np_sub x y) in Hsub. rewrite Hsub.
  unfold broadcast_error. clear Hsub.
  destruct x as [| a x], y as [| b y], origins, guidelines;
    cbn [py_min py_max when]; repeat undrawn_step.
Qed.

(** Three experimental values against two calculated ones. *)
Lemma pyplot_refuses_arrays_of_different_lengths_witness :
  let run := plotting._master_plot demo_estimator [1; 2; 3]%float [1.5; 2]%float "" None
               None "" "" "" true true ["RMSE"] None (demo_world tt) in
  (exists msg, outcome_of run = Raise (ValueError msg)) /\
  Forall (fun ev => draws_points ev = false /\ calls_made ev = [] /\ is_export ev = false)
    (trace_of run).
Proof.
  apply pyplot_refuses_arrays_of_different_lengths; simpl; lia.
Defined.
(** ** The traces of [plot_bar] *)

Section BarTraces.
Context {S R : Type}.

Lemma plot_bar_loop (df : DataFrame) (name_col : string) (cols : list (string * string)) :
  forall (w : world S R) u w' t,
    mfor cols (fun cols _ =>
      bind (lift (df_col df (fst cols))) (fun x =>
      bind (lift (df_label df name_col)) (fun y =>
      bind (lift (df_col df (snd cols))) (fun error_x =>
      emit (fig_add_bar x y error_x (fst cols)))))) tt w = (Return u, w', t) ->
    Forall2 (bar_drawn df name_col) cols (flat_map bar_of t) /\
    flat_map marker_of t = [].
Proof.
  induction cols as [| c cols IH]; intros w u w' t Hrun.
  - apply ret_inv in Hrun as (_ & _ & ->). split; constructor.
  - cbn [mfor] in Hrun.
    apply bind_inv in Hrun as ([] & w1 & t1 & t2 & Hbody & Hrest & ->).
    run_inv. destruct (IH _ _ _ _ Hrest) as [Hbars Hmarkers].
    cbn [app flat_map bar_of marker_of]. split; [| exact Hmarkers].
    constructor; [| exact Hbars]. repeat split; assumption.
Qed.

End BarTraces.

(** X15.  When [plot_bar] returns, with an experiment column, the figure
    holds one bar trace for each pair of [zip(ddg_cols, error_cols)], in
    order: the values of the DDG column along x, the labels of [name_col]
    along y, the values of the error column as error bars, named after the
    DDG column; a column beyond the shorter of the two lists gives no bar.
    Then come three traces of markers: the experimental values, and these
    minus and plus their errors. *)
Theorem plot_bar_draws_bars_and_experiment {S R : Type} (df : DataFrame)
  ddg_cols error_cols exp_col exp_error_col name_col title filename (w : world S R) :
  let run := plotlying.plot_bar df ddg_cols error_cols (Some exp_col) exp_error_col
               name_col title filename w in
  outcome_of run = Return tt ->
  Forall2 (bar_drawn df name_col) (zip ddg_cols error_cols)
    (flat_map bar_of (trace_of run)) /\
  exists exp dexp lower upper labels,
    df_col df exp_col = Return exp /\ df_col df exp_error_col = Return dexp /\
    df_label df name_col = Return labels /\
    np_sub exp dexp = Return lower /\ np_add exp dexp = Return upper /\
    flat_map marker_of (trace_of run) =
    [(exp, labels, "experiment"); (lower, labels, "ExpErrors1");
     (upper, labels, "ExpErrors2")].
Proof.
  intros run Hout. subst run.
  destruct (plotlying.plot_bar _ _ _ _ _ _ _ _ w) as [[o w'] t] eqn:Hrun.
  cbn in Hout. subst o. cbn [trace_of snd]. unfold plotlying.plot_bar in Hrun.
  run_inv;
    match goal with
    | Hloop : mfor _ _ _ _ = (Return _, _, _) |- _ =>
      apply plot_bar_loop in Hloop as [Hbars Hmarkers]
    end;
    (destruct filename as [f |]; [destruct (0 <? str_find f ".html")%Z |]); run_inv;
    rewrite !flat_map_app, Hmarkers; cbn [flat_map bar_of marker_of app];
    rewrite ?app_nil_r;
    (split; [exact Hbars |]);
    repeat match goal with
    | H1 : ?o = Return ?a, H2 : ?o = Return ?b |- _ =>
      assert (a = b) by congruence; subst b; clear H2
    end;
    eexists _, _, _, _, _; repeat (split; [eassumption |]); reflexivity.
Qed.

(** The frame of two edges, with one method. *)
Lemma plot_bar_draws_bars_and_experiment_witness :
  let run := plotlying.plot_bar demo_frame ["perses"] ["dperses"] (Some "exp") "dexp"
               "edge" "" None (demo_world tt) in
  Forall2 (bar_drawn demo_frame "edge") [("perses", "dperses")]
    (flat_map bar_of (trace_of run)) /\
  exists exp dexp lower upper labels,
    df_col demo_frame "exp" = Return exp /\ df_col demo_frame "dexp" = Return dexp /\
    df_label demo_frame "edge" = Return labels /\
    np_sub exp dexp = Return lower /\ np_add exp dexp = Return upper /\
    flat_map marker_of (trace_of run) =
    [(exp, labels, "experiment"); (lower, labels, "ExpErrors1");
     (upper, labels, "ExpErrors2")].
Proof.
  apply (plot_bar_draws_bars_and_experiment demo_frame ["perses"] ["dperses"] "exp"
           "dexp" "edge" "" None (demo_world tt)).
  vm_compute. reflexivity.
Defined.
Section MissingColumn.

Lemma df_loc_cases (df : DataFrame) (cols : list string) :
  (exists values, omap (fun c : option string =>
                          match c with
                          | Some col => df_col df col
                          | None => Raise (KeyError "None")
                          end) (map Some cols) = Return values /\
                  Forall (fun col => is_Some (df_numeric df !! col)) cols) \/
  exists key, omap (fun c : option string =>
                      match c with
                      | Some col => df_col df col
                      | None => Raise (KeyError "None")
                      end) (map Some cols) = Raise (KeyError key).
Proof.
  induction cols as [| col cols IH]; cbn [map omap].
  - left. exists []. split; [reflexivity | constructor].
  - unfold df_col at 1 3. destruct (df_numeric df !! col) as [v |] eqn:Hv; cbn [obind].
    + destruct IH as [(values & -> & Hall) | (key & ->)]; cbn [obind].
      * left. exists (v :: values). split; [reflexivity |].
        constructor; [now exists v | exact Hall].
      * right. now exists key.
    + right. now exists col.
Qed.

End MissingColumn.

(** X16.  When the frame has rows but lacks one of the numeric columns
    [plot_bar] is asked for (a DDG column, the experiment column, an error
    column or the experiment error column), [plot_bar] raises [KeyError]
    while it computes the range of the x axis: the figure is not created,
    nothing is drawn, shown or written. *)
Theorem plot_bar_missing_column_raises_KeyError {S R : Type} (df : DataFrame)
  ddg_cols error_cols exp_col exp_error_col name_col title filename (w : world S R)
  (col : string) :
  df_rows df <> 0%nat ->
  In col (ddg_cols ++ [exp_col] ++ error_cols ++ [exp_error_col]) ->
  df_numeric df !! col = None ->
  exists key,
    plotlying.plot_bar df ddg_cols error_cols (Some exp_col) exp_error_col name_col
      title filename w = (Raise (KeyError key), w, []).
Proof.
  intros Hrows Hin Hcol. unfold plotlying.plot_bar.
  rewrite run_bind. destruct (df_rows df =? 0)%nat eqn:Hzero;
    [apply Nat.eqb_eq in Hzero; contradiction |].
  cbn [lift]. rewrite run_bind. unfold df_loc.
  change (map Some ddg_cols ++ [Some exp_col]) with (map Some ddg_cols ++ map Some [exp_col]).
  change [Some exp_error_col] with (map Some [exp_error_col]).
  rewrite <- !map_app.
  destruct (df_loc_cases df (ddg_cols ++ [exp_col])) as [(values & Hvalues & Hall) | (key & Hkey)].
  - cbn [lift]. rewrite Hvalues. rewrite run_bind. cbn [lift].
    destruct (df_loc_cases df (error_cols ++ [exp_error_col]))
      as [(errors & Herrors & Hall') | (key & Hkey)].
    + exfalso. rewrite List.Forall_forall in Hall, Hall'.
      rewrite app_assoc in Hin. apply in_app_or in Hin as [Hin | Hin];
        [apply Hall in Hin | apply Hall' in Hin]; rewrite Hcol in Hin;
        destruct Hin; discriminate.
    + rewrite Hkey. now exists key.
  - cbn [lift]. rewrite Hkey. now exists key.
Qed.

(** The frame of two edges has no column [dexp2]. *)
Lemma plot_bar_missing_column_raises_KeyError_witness :
  exists key,
    plotlying.plot_bar demo_frame ["perses"] ["dperses"] (Some "exp") "dexp2" "edge" ""
      None (demo_world tt) = (Raise (KeyError key), demo_world tt, []).
Proof.
  apply (plot_bar_missing_column_raises_KeyError demo_frame ["perses"] ["dperses"] "exp"
           "dexp2" "edge" "" None (demo_world tt) "dexp2").
  - discriminate.
  - simpl. auto.
  - reflexivity.
Defined.
